(** * Book-metadata integration pipeline: identifiers, canonical keys,
      merge, survivorship and quality gate

    A shallow embedding of [src/utils_isbn.py], [src/utils_quality.py] and
    the core of [src/integrate_pipeline.py], with the properties the
    specification states about them.

    Conventions of the embedding.
    - A Python value is a [PyVal].  Text is a Stdlib [string]; the
      embedding covers ASCII text, where a character, a code point and a
      UTF-8 byte coincide ([str.encode('utf-8')] is then the identity, and
      [unicodedata.normalize('NFD', s)] leaves [s] unchanged).
    - A finite float is the rational it denotes together with the text
      [str()] prints for it; [NaN] is a value of its own.
    - Code that can raise returns in [Exc]; a [try/except] is a match on
      the outcome.
    - A [pandas.DataFrame] is a list of column names and a list of rows of
      cells.  A column dtype is modelled where the code meets it (the
      column [Series.apply] builds from integers and [None], the [.str]
      accessor); elsewhere a cell keeps its value.  A name denotes one
      column: where a name is repeated, the first column of that name is
      read. *)

From Stdlib Require Import ZArith QArith List String Ascii Bool Lia Arith.
From Stdlib Require Import Permutation DecimalString Lqa.
Import ListNotations.

Local Open Scope string_scope.
Local Open Scope Z_scope.

(* ================================================================== *)
(** ** Exceptions *)
(* ================================================================== *)

Inductive AssertionMessage :=
| TitulosInsuficientes (completitud : Q)
| BookIdDuplicados
| PreciosFueraDeRango (precio_min precio_max : Q)
| PocosLibros (n : nat).

Inductive exn :=
| ValueError
| IndexError
| TypeError
| AttributeError
| KeyError (name : string)
| ZeroDivisionError
| AssertionError (msg : AssertionMessage).

Inductive Exc (A : Type) :=
| Ret (a : A)
| Raise (e : exn).
Arguments Ret {A} a.
Arguments Raise {A} e.

Definition bind {A B} (m : Exc A) (k : A -> Exc B) : Exc B :=
  match m with
  | Ret a => k a
  | Raise e => Raise e
  end.

Notation "x <- m ;; k" := (bind m (fun x => k))
  (at level 61, m at next level, right associativity).

Fixpoint mapM {A B} (f : A -> Exc B) (l : list A) : Exc (list B) :=
  match l with
  | [] => Ret []
  | a :: l' => b <- f a ;; bs <- mapM f l' ;; Ret (b :: bs)
  end.

Definition Exc_map {A B} (f : A -> B) (m : Exc A) : Exc B :=
  x <- m ;; Ret (f x).

(* ================================================================== *)
(** ** Python values and text primitives *)
(* ================================================================== *)

Module Py.

Inductive PyVal :=
| PNone
| PNaN
| PStr (s : string)
| PInt (z : Z)
| PFloat (q : Q) (shown : string).

(** [pd.isna] / [pd.notna] on a scalar. *)
Definition isna (v : PyVal) : bool :=
  match v with
  | PNone | PNaN => true
  | _ => false
  end.

Definition notna (v : PyVal) : bool := negb (isna v).

(** Truth value of an object: [None], [""], [0] and [0.0] are false; NaN
    is a non-zero float and so is true. *)
Definition truthy (v : PyVal) : bool :=
  match v with
  | PNone => false
  | PNaN => true
  | PStr s => negb (String.eqb s "")
  | PInt z => negb (z =? 0)
  | PFloat q _ => negb (Qeq_bool q 0)
  end.

Definition str_of_Z (z : Z) : string :=
  NilEmpty.string_of_int (Z.to_int z).

(** [str(v)] *)
Definition str (v : PyVal) : string :=
  match v with
  | PNone => "None"
  | PNaN => "nan"
  | PStr s => s
  | PInt z => str_of_Z z
  | PFloat _ shown => shown
  end.

(** [a or b] on objects. *)
Definition or_ (a b : PyVal) : PyVal := if truthy a then a else b.

(** *** Characters *)

Definition code (c : ascii) : N := N_of_ascii c.

Definition isspace (c : ascii) : bool :=
  let n := code c in
  ((9 <=? n) && (n <=? 13) || (28 <=? n) && (n <=? 32))%N.

Definition isdigit (c : ascii) : bool :=
  let n := code c in ((48 <=? n) && (n <=? 57))%N.

Definition is_upper (c : ascii) : bool :=
  let n := code c in ((65 <=? n) && (n <=? 90))%N.

Definition is_lower (c : ascii) : bool :=
  let n := code c in ((97 <=? n) && (n <=? 122))%N.

Definition isalnum (c : ascii) : bool :=
  isdigit c || is_upper c || is_lower c.

Definition upper_char (c : ascii) : ascii :=
  if is_lower c then ascii_of_N (code c - 32) else c.

Definition lower_char (c : ascii) : ascii :=
  if is_upper c then ascii_of_N (code c + 32) else c.

(** *** Strings *)

Fixpoint map_str (f : ascii -> ascii) (s : string) : string :=
  match s with
  | EmptyString => EmptyString
  | String c s' => String (f c) (map_str f s')
  end.

Fixpoint filter_str (p : ascii -> bool) (s : string) : string :=
  match s with
  | EmptyString => EmptyString
  | String c s' => if p c then String c (filter_str p s') else filter_str p s'
  end.

Fixpoint all_str (p : ascii -> bool) (s : string) : bool :=
  match s with
  | EmptyString => true
  | String c s' => p c && all_str p s'
  end.

Definition upper (s : string) : string := map_str upper_char s.
Definition lower (s : string) : string := map_str lower_char s.

Fixpoint lstrip (s : string) : string :=
  match s with
  | EmptyString => EmptyString
  | String c s' => if isspace c then lstrip s' else s
  end.

(** Drops the trailing white space: a character is kept when something
    that is kept follows it, or when it is not white space itself. *)
Fixpoint rstrip (s : string) : string :=
  match s with
  | EmptyString => EmptyString
  | String c s' =>
      match rstrip s' with
      | EmptyString => if isspace c then EmptyString else String c EmptyString
      | r => String c r
      end
  end.

Definition strip (s : string) : string := rstrip (lstrip s).

Fixpoint last_char (s : string) : option ascii :=
  match s with
  | EmptyString => None
  | String c EmptyString => Some c
  | String _ s' => last_char s'
  end.

(** [len(s)] *)
Definition len (s : string) : Z := Z.of_nat (String.length s).

(** [s[i]] for [0 <= i]; out of range raises [IndexError]. *)
Definition getitem (s : string) (i : nat) : Exc ascii :=
  match String.get i s with
  | Some c => Ret c
  | None => Raise IndexError
  end.

(** [s[:n]] *)
Definition prefix (n : nat) (s : string) : string := String.substring 0 n s.

(** [str.isdigit()]: non-empty and every character a digit. *)
Definition str_isdigit (s : string) : bool :=
  negb (String.eqb s "") && all_str isdigit s.

(** [int(c)] for a one-character string. *)
Definition int_of_char (c : ascii) : Exc Z :=
  if isdigit c then Ret (Z.of_N (code c) - 48) else Raise ValueError.

(** [sep.join(parts)] *)
Fixpoint join (sep : string) (parts : list string) : string :=
  match parts with
  | [] => ""
  | [p] => p
  | p :: rest => p ++ sep ++ join sep rest
  end.

(** [s.split(sep)] for a one-character separator: [split_on sep s acc]
    carries the reversed characters of the piece being read. *)
Fixpoint split_on (sep : ascii) (s : string) (acc : list ascii) : list string :=
  match s with
  | EmptyString => [string_of_list_ascii (rev acc)]
  | String c s' =>
      if Ascii.eqb c sep
      then string_of_list_ascii (rev acc) :: split_on sep s' []
      else split_on sep s' (c :: acc)
  end.

Definition split_char (sep : ascii) (s : string) : list string :=
  split_on sep s [].

(** [s.split()]: the maximal runs of characters that are not white space. *)
Fixpoint split_ws_from (s : string) (acc : list ascii) : list string :=
  match s with
  | EmptyString =>
      match acc with
      | [] => []
      | _ => [string_of_list_ascii (rev acc)]
      end
  | String c s' =>
      if isspace c
      then match acc with
           | [] => split_ws_from s' []
           | _ => string_of_list_ascii (rev acc) :: split_ws_from s' []
           end
      else split_ws_from s' (c :: acc)
  end.

Definition split_ws (s : string) : list string := split_ws_from s [].

End Py.
Import Py.

(* ================================================================== *)
(** ** [hashlib.md5]: RFC 1321 on 32-bit words held in [Z] *)
(* ================================================================== *)

Module hashlib.

Definition w32 (x : Z) : Z := x mod 2 ^ 32.
Definition add32 (a b : Z) : Z := w32 (a + b).
Definition not32 (x : Z) : Z := w32 (Z.lnot x).
Definition rotl32 (x n : Z) : Z :=
  w32 (Z.lor (Z.shiftl x n) (Z.shiftr x (32 - n))).

Definition K : list Z :=
  [ 3614090360; 3905402710; 606105819; 3250441966; 4118548399; 1200080426; 2821735955; 4249261313;
    1770035416; 2336552879; 4294925233; 2304563134; 1804603682; 4254626195; 2792965006; 1236535329;
    4129170786; 3225465664; 643717713; 3921069994; 3593408605; 38016083; 3634488961; 3889429448;
    568446438; 3275163606; 4107603335; 1163531501; 2850285829; 4243563512; 1735328473; 2368359562;
    4294588738; 2272392833; 1839030562; 4259657740; 2763975236; 1272893353; 4139469664; 3200236656;
    681279174; 3936430074; 3572445317; 76029189; 3654602809; 3873151461; 530742520; 3299628645;
    4096336452; 1126891415; 2878612391; 4237533241; 1700485571; 2399980690; 4293915773; 2240044497;
    1873313359; 4264355552; 2734768916; 1309151649; 4149444226; 3174756917; 718787259; 3951481745 ].

Definition shifts : list Z :=
  [ 7; 12; 17; 22; 7; 12; 17; 22; 7; 12; 17; 22; 7; 12; 17; 22;
    5; 9; 14; 20; 5; 9; 14; 20; 5; 9; 14; 20; 5; 9; 14; 20;
    4; 11; 16; 23; 4; 11; 16; 23; 4; 11; 16; 23; 4; 11; 16; 23;
    6; 10; 15; 21; 6; 10; 15; 21; 6; 10; 15; 21; 6; 10; 15; 21 ].

Definition state : Type := Z * Z * Z * Z.

Definition init : state := (1732584193, 4023233417, 2562383102, 271733878).

(** The round function and the index of the message word of step [i]. *)
Definition round_fg (i : nat) (b c d : Z) : Z * nat :=
  if (i <? 16)%nat then (Z.lor (Z.land b c) (Z.land (not32 b) d), i)
  else if (i <? 32)%nat
  then (Z.lor (Z.land d b) (Z.land (not32 d) c), (5 * i + 1) mod 16)%nat
  else if (i <? 48)%nat
  then (Z.lxor (Z.lxor b c) d, (3 * i + 5) mod 16)%nat
  else (Z.lxor c (Z.lor b (not32 d)), (7 * i) mod 16)%nat.

Definition step (M : list Z) (st : state) (i : nat) : state :=
  let '(a, b, c, d) := st in
  let '(f, g) := round_fg i b c d in
  let f' := add32 (add32 (add32 f a) (nth i K 0)) (nth g M 0) in
  (d, add32 b (rotl32 f' (nth i shifts 0)), b, c).

Definition compress (h : state) (M : list Z) : state :=
  let '(a0, b0, c0, d0) := h in
  let '(a, b, c, d) := fold_left (step M) (seq 0 64) h in
  (add32 a0 a, add32 b0 b, add32 c0 c, add32 d0 d).

(** Little-endian bytes of a word, and back. *)
Definition le_bytes (n : nat) (x : Z) : list Z :=
  map (fun i => Z.shiftr x (8 * Z.of_nat i) mod 256) (seq 0 n).

Definition le_word (bs : list Z) : Z :=
  fold_right (fun b acc => b + 256 * acc) 0 bs.

Definition pad (msg : list Z) : list Z :=
  let n := Z.of_nat (List.length msg) in
  msg ++ [128] ++ repeat 0 (Z.to_nat ((55 - n) mod 64))
      ++ le_bytes 8 ((8 * n) mod 2 ^ 64).

Fixpoint words (n : nat) (bs : list Z) : list Z :=
  match n with
  | O => []
  | S n' => le_word (firstn 4 bs) :: words n' (skipn 4 bs)
  end.

Fixpoint blocks (n : nat) (bs : list Z) : list (list Z) :=
  match n with
  | O => []
  | S n' => words 16 (firstn 64 bs) :: blocks n' (skipn 64 bs)
  end.

Definition digest (msg : list Z) : list Z :=
  let p := pad msg in
  let '(a, b, c, d) :=
    fold_left compress (blocks (List.length p / 64) p) init in
  le_bytes 4 a ++ le_bytes 4 b ++ le_bytes 4 c ++ le_bytes 4 d.

Definition hex_char (n : Z) : ascii :=
  ascii_of_N (Z.to_N (if n <? 10 then 48 + n else 87 + n)).

Fixpoint hex (bs : list Z) : string :=
  match bs with
  | [] => ""
  | b :: bs' => String (hex_char (b / 16)) (String (hex_char (b mod 16)) (hex bs'))
  end.

(** [s.encode('utf-8')] on ASCII text. *)
Definition encode_utf8 (s : string) : list Z :=
  map (fun c => Z.of_N (N_of_ascii c)) (list_ascii_of_string s).

(** [hashlib.md5(s.encode('utf-8')).hexdigest()] *)
Definition md5_hexdigest (s : string) : string := hex (digest (encode_utf8 s)).

End hashlib.

(* ================================================================== *)
(** ** [src/utils_isbn.py] *)
(* ================================================================== *)

Module utils_isbn.

(** [re.sub(r'[^0-9Xx]', '', s)] keeps the characters of the class. *)
Definition isbn_char (c : ascii) : bool :=
  isdigit c || Ascii.eqb c "X" || Ascii.eqb c "x".

Definition clean_isbn (isbn : PyVal) : option string :=
  match isbn with
  | PNone | PNaN => None
  | _ =>
      let s := strip (str isbn) in
      if String.eqb s "" then None
      else
        let s := filter_str isbn_char s in
        let s := upper s in
        if String.eqb s "" then None else Some s
  end.

(** The body of the [try] of [validate_isbn10] on the cleaned text. *)
Definition isbn10_check (isbn : string) : Exc bool :=
  total <- fold_left
             (fun acc i =>
                total <- acc ;;
                c <- getitem isbn i ;;
                d <- int_of_char c ;;
                Ret (total + d * (10 - Z.of_nat i)))
             (seq 0 9) (Ret 0) ;;
  c9 <- getitem isbn 9 ;;
  last <- (if Ascii.eqb (upper_char c9) "X" then Ret 10 else int_of_char c9) ;;
  let total := total + last in
  Ret (total mod 11 =? 0).

Definition validate_isbn10 (isbn : PyVal) : bool :=
  if negb (truthy isbn) then false
  else
    match clean_isbn isbn with
    | None => false
    | Some isbn =>
        if negb (len isbn =? 10) then false
        else
          match isbn10_check isbn with
          | Ret b => b
          | Raise _ => false
          end
    end.

(** [sum(digits[i] if i % 2 == 0 else digits[i] * 3 for i in range(12))] *)
Definition weighted_sum12 (digits : list Z) : Exc Z :=
  fold_left
    (fun acc i =>
       total <- acc ;;
       d <- match nth_error digits i with
            | Some d => Ret d
            | None => Raise IndexError
            end ;;
       Ret (total + (if Nat.even i then d else d * 3)))
    (seq 0 12) (Ret 0).

Definition digits_of (s : string) : Exc (list Z) :=
  mapM int_of_char (list_ascii_of_string s).

(** The body of the [try] of [validate_isbn13] on the cleaned text. *)
Definition isbn13_check (isbn : string) : Exc bool :=
  digits <- digits_of isbn ;;
  checksum <- weighted_sum12 digits ;;
  let check_digit := (10 - checksum mod 10) mod 10 in
  d12 <- match nth_error digits 12 with
         | Some d => Ret d
         | None => Raise IndexError
         end ;;
  Ret (check_digit =? d12).

Definition validate_isbn13 (isbn : PyVal) : bool :=
  if negb (truthy isbn) then false
  else
    match clean_isbn isbn with
    | None => false
    | Some isbn =>
        if negb (len isbn =? 13) then false
        else
          match isbn13_check isbn with
          | Ret b => b
          | Raise _ => false
          end
    end.

(** Returns [None] for an input [validate_isbn10] rejects; nothing is
    caught after that test, so an error would propagate. *)
Definition isbn10_to_isbn13 (isbn10 : PyVal) : Exc (option string) :=
  if negb (validate_isbn10 isbn10) then Ret None
  else
    cleaned <- match clean_isbn isbn10 with
               | Some s => Ret s
               | None => Raise TypeError
               end ;;
    let isbn10 := prefix 9 cleaned in
    let isbn13_base := "978" ++ isbn10 in
    digits <- digits_of isbn13_base ;;
    checksum <- weighted_sum12 digits ;;
    let check_digit := (10 - checksum mod 10) mod 10 in
    Ret (Some (isbn13_base ++ str_of_Z check_digit)).

(** The dictionary [{'isbn': ..., 'valid': ..., 'type': ...}]. *)
Record normalized_isbn := {
  isbn : option string;
  valid : bool;
  type : option string
}.

Definition normalize_isbn (v : PyVal) : normalized_isbn :=
  match clean_isbn v with
  | None => {| isbn := None; valid := false; type := None |}
  | Some cleaned =>
      if len cleaned =? 10
      then {| isbn := Some cleaned;
              valid := validate_isbn10 (PStr cleaned);
              type := Some "isbn10" |}
      else if len cleaned =? 13
      then {| isbn := Some cleaned;
              valid := validate_isbn13 (PStr cleaned);
              type := Some "isbn13" |}
      else {| isbn := Some cleaned; valid := false; type := None |}
  end.

End utils_isbn.

(* ================================================================== *)
(** ** [pandas]: frames, columns, outer merge, group-by *)
(* ================================================================== *)

Module pandas.

(** What a frame needs of its cells: the missing-value marker and
    [isna]. *)
Class Cell (C : Type) := {
  na : C;
  cell_isna : C -> bool
}.

#[export] Instance Cell_PyVal : Cell PyVal := {| na := PNaN; cell_isna := isna |}.

Record DataFrame (C : Type) := mkDataFrame {
  columns : list string;
  rows : list (list C)
}.
Arguments mkDataFrame {C} columns rows.
Arguments columns {C} d.
Arguments rows {C} d.

(** Every row has one cell per column. *)
Definition wf {C} (df : DataFrame C) : Prop :=
  Forall (fun r => List.length r = List.length (columns df)) (rows df).

(** [len(df)] *)
Definition nrows {C} (df : DataFrame C) : nat := List.length (rows df).

(** [name in df.columns] *)
Definition has_column {C} (name : string) (df : DataFrame C) : bool :=
  existsb (String.eqb name) (columns df).

Fixpoint index_of (name : string) (cols : list string) : option nat :=
  match cols with
  | [] => None
  | c :: cols' =>
      if String.eqb name c then Some O
      else option_map S (index_of name cols')
  end.

(** The cell of a row at a position; a cell missing from a row that is
    too short reads as the missing value. *)
Definition at_ {C} `{Cell C} (i : nat) (r : list C) : C := nth i r na.

(** [df[name]]: the cells of a column, top to bottom. *)
Definition column {C} `{Cell C} (df : DataFrame C) (name : string)
  : Exc (list C) :=
  match index_of name (columns df) with
  | Some i => Ret (map (at_ i) (rows df))
  | None => Raise (KeyError name)
  end.

(** [df[name].iloc[0]] *)
Definition iloc0 {C} `{Cell C} (df : DataFrame C) (name : string) : Exc C :=
  col <- column df name ;;
  match col with
  | v :: _ => Ret v
  | [] => Raise IndexError
  end.

(** [df.get(name)]: the column, or [None] when the frame has none of that
    name; a [None] given to the [DataFrame] constructor fills the column. *)
Definition get_column (df : DataFrame PyVal) (name : string) : list PyVal :=
  match column df name with
  | Ret col => col
  | Raise _ => repeat PNone (nrows df)
  end.

(** [pd.DataFrame({name: column, ...})] over an index of [n] rows. *)
Definition frame_of_columns {C} `{Cell C} (n : nat)
    (cols : list (string * list C)) : DataFrame C :=
  {| columns := map fst cols;
     rows := map (fun i => map (fun col => nth i (snd col) na) cols) (seq 0 n) |}.

(** [df[name] = values]: replaces the column in place, or appends it. *)
Fixpoint set_nth {C} (i : nat) (v : C) (r : list C) : list C :=
  match i, r with
  | _, [] => []
  | O, _ :: r' => v :: r'
  | S i', x :: r' => x :: set_nth i' v r'
  end.

Definition set_column {C} `{Cell C} (df : DataFrame C) (name : string)
    (values : list C) : DataFrame C :=
  let cells := combine (rows df) values in
  match index_of name (columns df) with
  | Some i =>
      {| columns := columns df;
         rows := map (fun rv => set_nth i (snd rv) (fst rv)) cells |}
  | None =>
      {| columns := (columns df ++ [name])%list;
         rows := map (fun rv => (fst rv ++ [snd rv])%list) cells |}
  end.

(** *** Join and group keys

    A key is compared as pandas compares it: [None] and [NaN] are one
    missing key, numbers compare by value, text by content.  Sorted keys
    come numbers first, then text, the missing key last. *)

Inductive Key :=
| KNum (q : Q)
| KStr (s : string)
| KNA.

Definition key_of (v : PyVal) : Key :=
  match v with
  | PNone | PNaN => KNA
  | PStr s => KStr s
  | PInt z => KNum (Qred (inject_Z z))
  | PFloat q _ => KNum (Qred q)
  end.

Definition key_eqb (a b : Key) : bool :=
  match a, b with
  | KNum p, KNum q => (Qnum p =? Qnum q) && (Qden p =? Qden q)%positive
  | KStr s, KStr t => String.eqb s t
  | KNA, KNA => true
  | _, _ => false
  end.

Definition key_leb (a b : Key) : bool :=
  match a, b with
  | KNum p, KNum q => Qle_bool p q
  | KNum _, _ => true
  | KStr _, KNum _ => false
  | KStr s, KStr t => String.leb s t
  | KStr _, KNA => true
  | KNA, KNA => true
  | KNA, _ => false
  end.

Fixpoint insert_key (k : Key) (l : list Key) : list Key :=
  match l with
  | [] => [k]
  | x :: l' => if key_leb k x then k :: l else x :: insert_key k l'
  end.

Fixpoint sort_keys (l : list Key) : list Key :=
  match l with
  | [] => []
  | k :: l' => insert_key k (sort_keys l')
  end.

(** The distinct keys of a list, each at its first occurrence. *)
Fixpoint unique_keys (l : list Key) : list Key :=
  match l with
  | [] => []
  | k :: l' => k :: filter (fun x => negb (key_eqb k x)) (unique_keys l')
  end.

(** The rows of a frame whose cell at position [i] carries key [k], in
    the order of the frame. *)
Definition rows_with_key (i : nat) (k : Key) (rs : list (list PyVal))
  : list (list PyVal) :=
  filter (fun r => key_eqb (key_of (at_ i r)) k) rs.

Definition keys_at (i : nat) (rs : list (list PyVal)) : list Key :=
  map (fun r => key_of (at_ i r)) rs.

Fixpoint remove_nth {C} (i : nat) (r : list C) : list C :=
  match i, r with
  | _, [] => []
  | O, _ :: r' => r'
  | S i', x :: r' => x :: remove_nth i' r'
  end.

(** *** [pd.merge(left, right, on=key, how='outer', suffixes=(sl, sr))]

    A column other than the key that both frames have takes the suffix of
    its side; every other column keeps its name.  The rows come key by key
    in sorted key order: where both sides carry the key, each left row
    with each right row; where one side only does, its rows with the other
    side's cells missing. *)

Definition suffixed (key : string) (others : list string) (suffix : string)
    (c : string) : string :=
  if negb (String.eqb c key) && existsb (String.eqb c) others
  then c ++ suffix else c.

Definition merged_columns (key sl sr : string) (kr : nat)
    (lcols rcols : list string) : list string :=
  (map (suffixed key rcols sl) lcols
   ++ map (suffixed key lcols sr) (remove_nth kr rcols))%list.

Definition merge_rows_for_key (kl kr nl nr : nat)
    (lrows rrows : list (list PyVal)) (k : Key) : list (list PyVal) :=
  let ls := rows_with_key kl k lrows in
  let rs := rows_with_key kr k rrows in
  match ls, rs with
  | [], _ =>
      map (fun r => (set_nth kl (at_ kr r) (repeat PNaN nl)
                     ++ remove_nth kr r)%list) rs
  | _, [] => map (fun l => (l ++ repeat PNaN (nr - 1))%list) ls
  | _, _ => flat_map (fun l => map (fun r => (l ++ remove_nth kr r)%list) rs) ls
  end.

Definition merge_outer (key sl sr : string) (left right : DataFrame PyVal)
  : Exc (DataFrame PyVal) :=
  match index_of key (columns left), index_of key (columns right) with
  | Some kl, Some kr =>
      let keys :=
        sort_keys (unique_keys (keys_at kl (rows left)
                                ++ keys_at kr (rows right))%list) in
      Ret {| columns := merged_columns key sl sr kr (columns left) (columns right);
             rows := flat_map
                       (merge_rows_for_key kl kr
                          (List.length (columns left))
                          (List.length (columns right))
                          (rows left) (rows right))
                       keys |}
  | _, _ => Raise (KeyError key)
  end.

(** *** [df.groupby(by, dropna=False)]

    The groups in sorted key order, the missing key last; a group keeps
    the columns of the frame and its rows in the order of the frame. *)

Definition groupby (df : DataFrame PyVal) (by_ : string)
  : Exc (list (Key * DataFrame PyVal)) :=
  match index_of by_ (columns df) with
  | Some i =>
      Ret (map (fun k => (k, {| columns := columns df;
                                rows := rows_with_key i k (rows df) |}))
               (sort_keys (unique_keys (keys_at i (rows df)))))
  | None => Raise (KeyError by_)
  end.

(** *** [Series.apply] of a function that returns an [int] or [None]

    pandas infers the dtype of the new column from what the function
    returned.  Integers alone give an int64 column.  Integers with [None]
    among them give a float64 column: each integer becomes the float of
    that value, which [str()] prints with [".0"] after it, and each
    [None] becomes NaN.  [None] alone stays an object column of [None]. *)
Definition is_int (v : PyVal) : bool :=
  match v with
  | PInt _ => true
  | _ => false
  end.

Definition float_of_int (z : Z) : PyVal :=
  PFloat (inject_Z z) (str_of_Z z ++ ".0").

Definition apply_int_column (results : list PyVal) : list PyVal :=
  if forallb is_int results then results
  else if existsb is_int results
  then map (fun v => match v with
                     | PInt z => float_of_int z
                     | _ => PNaN
                     end) results
  else results.

(** *** [series.str]

    pandas refuses the accessor with [AttributeError] unless the column
    holds text.  It is read here on the column of keys, which are never
    null: text alone or text among numbers is an object column and is
    accepted; numbers alone are an int64 or float64 column and are
    refused; and so is the column of a frame without rows, which
    [df.apply(..., axis=1)] leaves as an empty float64 column. *)
Definition is_text (v : PyVal) : bool :=
  match v with
  | PStr _ => true
  | _ => false
  end.

Definition str_accessor (col : list PyVal) : Exc unit :=
  if existsb is_text col then Ret tt else Raise AttributeError.

(** *** [pd.concat([a, b], ignore_index=True)]

    The columns of [a], then those of [b] that [a] has not; the rows of
    [a], then those of [b], each with the missing value where its frame
    has no such column. *)
Definition reindex_row (from to : list string) (r : list PyVal) : list PyVal :=
  map (fun c => match index_of c from with
                | Some i => at_ i r
                | None => PNaN
                end) to.

Definition concat (a b : DataFrame PyVal) : DataFrame PyVal :=
  let cols :=
    (columns a
     ++ filter (fun c => negb (existsb (String.eqb c) (columns a))) (columns b))%list in
  {| columns := cols;
     rows := (map (reindex_row (columns a) cols) (rows a)
              ++ map (reindex_row (columns b) cols) (rows b))%list |}.

End pandas.
Import pandas.

(* ================================================================== *)
(** ** [src/utils_quality.py] *)
(* ================================================================== *)

Module utils_quality.

(** [non_null / total]: the quotient as a rational; a zero divisor is
    reported instead of NumPy's [inf]/[nan]. *)
Definition truediv (a b : nat) : Exc Q :=
  match b with
  | O => Raise ZeroDivisionError
  | _ => Ret (inject_Z (Z.of_nat a) / inject_Z (Z.of_nat b))%Q
  end.

(** [df[column].notna().sum()] *)
Definition count_notna {C} `{Cell C} (col : list C) : nat :=
  List.length (filter (fun v => negb (cell_isna v)) col).

Definition calculate_completeness {C} `{Cell C} (df : DataFrame C)
    (column_name : string) : Exc Q :=
  if negb (has_column column_name df) then Ret 0%Q
  else
    let total := nrows df in
    if (total =? 0)%nat then Ret 0%Q
    else
      col <- column df column_name ;;
      let non_null := count_notna col in
      frac <- truediv non_null total ;;
      Ret (frac * 100)%Q.

(** What the currency predicate can return: a [bool], or the outcome of
    [re.match], a match object or [None]. *)
Inductive PyObj :=
| ObjBool (b : bool)
| ObjMatch (matched : string)
| ObjNone.

Definition obj_truthy (o : PyObj) : bool :=
  match o with
  | ObjBool b => b
  | ObjMatch _ => true
  | ObjNone => false
  end.

Definition common_currencies : list string :=
  [ "USD"; "EUR"; "GBP"; "JPY"; "AUD"; "CAD"; "CHF";
    "CNY"; "SEK"; "NZD"; "MXN"; "BRL"; "ARS"; "CLP" ].

(** [re.match(r'^[A-Z]{3}$', s)]: three capitals, then the end of the
    text or one final line feed. *)
Definition re_match_AZ3 (s : string) : option string :=
  match s with
  | String a (String b (String c rest)) =>
      if is_upper a && is_upper b && is_upper c
         && (String.eqb rest "" || String.eqb rest (String "010" ""))
      then Some (String a (String b (String c "")))
      else None
  | _ => None
  end.

Definition validate_iso4217_currency (currency : PyVal) : PyObj :=
  if isna currency then ObjBool false
  else
    let currency_str := upper (strip (str currency)) in
    if existsb (String.eqb currency_str) common_currencies then ObjBool true
    else
      match re_match_AZ3 currency_str with
      | Some m => ObjMatch m
      | None => ObjNone
      end.

(** *** Dates

    [re.match] of a pattern that is a sequence of character classes
    between [^] and [$]: one class per character, then the end of the text
    or one final line feed.  On ASCII text, the text the embedding
    covers, the digit class of the patterns, [str.isdigit] and the digits
    [int] and [datetime.fromisoformat] read are the ten digits [0] to
    [9]. *)
Fixpoint re_match_classes (pat : list (ascii -> bool)) (s : string) : bool :=
  match pat, s with
  | [], EmptyString => true
  | [], String c EmptyString => Ascii.eqb c "010"
  | p :: pat', String c s' => p c && re_match_classes pat' s'
  | _, _ => false
  end.

Definition pat_ymd : list (ascii -> bool) :=
  [isdigit; isdigit; isdigit; isdigit; Ascii.eqb "-";
   isdigit; isdigit; Ascii.eqb "-"; isdigit; isdigit].
Definition pat_ym : list (ascii -> bool) :=
  [isdigit; isdigit; isdigit; isdigit; Ascii.eqb "-"; isdigit; isdigit].
Definition pat_y : list (ascii -> bool) :=
  [isdigit; isdigit; isdigit; isdigit].

Definition is_leap (y : Z) : bool :=
  (y mod 4 =? 0) && (negb (y mod 100 =? 0) || (y mod 400 =? 0)).

Definition days_in_month (y m : Z) : Z :=
  if m =? 2 then (if is_leap y then 29 else 28)
  else if (m =? 4) || (m =? 6) || (m =? 9) || (m =? 11) then 30
  else 31.

Definition digit_value (c : ascii) : Z := Z.of_N (code c) - 48.

(** [datetime.fromisoformat] on the texts the validator hands it, which
    have passed the pattern [\d{4}-\d{2}-\d{2}]: the text must be the ten
    characters of a date (a final line feed is refused), the year at
    least 1, the month and the day those of a calendar date. *)
Definition fromisoformat (s : string) : Exc (Z * Z * Z) :=
  match s with
  | String y1 (String y2 (String y3 (String y4 (String s1
    (String m1 (String m2 (String s2 (String d1 (String d2 EmptyString))))))))) =>
      if all_str isdigit
           (String y1 (String y2 (String y3 (String y4
           (String m1 (String m2 (String d1 (String d2 EmptyString))))))))
         && Ascii.eqb s1 "-" && Ascii.eqb s2 "-"
      then
        let y := 1000 * digit_value y1 + 100 * digit_value y2
                 + 10 * digit_value y3 + digit_value y4 in
        let m := 10 * digit_value m1 + digit_value m2 in
        let d := 10 * digit_value d1 + digit_value d2 in
        if (1 <=? y) && (1 <=? m) && (m <=? 12)
           && (1 <=? d) && (d <=? days_in_month y m)
        then Ret (y, m, d)
        else Raise ValueError
      else Raise ValueError
  | _ => Raise ValueError
  end.

(** [int(s)] on a text that has passed [\d{4}]. *)
Definition int_of_digits (s : string) : Exc Z :=
  digits <- mapM int_of_char (list_ascii_of_string s) ;;
  match digits with
  | [] => Raise ValueError
  | _ => Ret (fold_left (fun acc d => 10 * acc + d) digits 0)
  end.

Definition validate_iso_date (date_value : PyVal) : bool :=
  if isna date_value then false
  else
    let date_str := strip (str date_value) in
    if String.eqb date_str "" then false
    else if re_match_classes pat_ymd date_str
    then match fromisoformat date_str with
         | Ret _ => true
         | Raise _ => false
         end
    else if re_match_classes pat_ym date_str
    then match fromisoformat (date_str ++ "-01") with
         | Ret _ => true
         | Raise _ => false
         end
    else if re_match_classes pat_y date_str
    then match int_of_digits date_str with
         | Ret year => (1000 <=? year) && (year <=? 9999)
         | Raise _ => false
         end
    else false.

(** *** Language codes

    [re.match(r'^[a-z]{2,3}(-[a-z0-9]{2,8})*$', s)], read left to right
    with the number of characters of the piece being read: neither class
    has the hyphen or the line feed, so a piece ends where one of them or
    the end of the text stands. *)
Definition in_range (lo hi n : nat) : bool := (lo <=? n)%nat && (n <=? hi)%nat.

Fixpoint match_subtag (s : string) (n : nat) : bool :=
  match s with
  | EmptyString => in_range 2 8 n
  | String c s' =>
      if is_lower c || isdigit c then match_subtag s' (S n)
      else if Ascii.eqb c "-" then in_range 2 8 n && match_subtag s' 0
      else if Ascii.eqb c "010" then in_range 2 8 n && String.eqb s' ""
      else false
  end.

Fixpoint match_primary (s : string) (n : nat) : bool :=
  match s with
  | EmptyString => in_range 2 3 n
  | String c s' =>
      if is_lower c then match_primary s' (S n)
      else if Ascii.eqb c "-" then in_range 2 3 n && match_subtag s' 0
      else if Ascii.eqb c "010" then in_range 2 3 n && String.eqb s' ""
      else false
  end.

Definition validate_bcp47_language (lang : PyVal) : bool :=
  if isna lang then false
  else
    let lang_str := lower (strip (str lang)) in
    if String.eqb lang_str "" then false
    else match_primary lang_str 0.

(** *** Validation of a column

    The dictionary [validate_date_column] and [validate_language_column]
    return: the error entry, or the three figures. *)
Inductive ColumnValidation :=
| ColumnNotFound (error : string)
| ColumnFigures (total_non_null valid_count : nat) (valid_percentage : Q).

(** The body the two functions share, for the predicate of each. *)
Definition validate_column (validator : PyVal -> bool)
    (df : DataFrame PyVal) (column_name : string) : Exc ColumnValidation :=
  if negb (has_column column_name df)
  then Ret (ColumnNotFound ("Column " ++ column_name ++ " not found"))
  else
    col <- column df column_name ;;
    let total := count_notna col in
    if (total =? 0)%nat then Ret (ColumnFigures 0 0 0)
    else
      let valid_count := List.length (filter validator col) in
      frac <- truediv valid_count total ;;
      Ret (ColumnFigures total valid_count (frac * 100)%Q).

Definition validate_date_column := validate_column validate_iso_date.
Definition validate_language_column := validate_column validate_bcp47_language.

End utils_quality.

(* ================================================================== *)
(** ** [src/integrate_pipeline.py] *)
(* ================================================================== *)

Module integrate_pipeline.

Import utils_isbn utils_quality.

(** *** 2. Staging *)

(** [int(s)] on text: surrounding white space, an optional sign, digits
    with single underscores between them. *)
Fixpoint int_body (s : string) (after_digit : bool) : bool :=
  match s with
  | EmptyString => after_digit
  | String c s' =>
      if isdigit c then int_body s' true
      else if Ascii.eqb c "_" then after_digit && int_body s' false
      else false
  end.

Fixpoint int_value (s : string) (acc : Z) : Z :=
  match s with
  | EmptyString => acc
  | String c s' =>
      if isdigit c then int_value s' (10 * acc + (Z.of_N (code c) - 48))
      else int_value s' acc
  end.

Definition int_of_str (s : string) : Exc Z :=
  let t := strip s in
  let '(negative, body) :=
    match t with
    | String "-" r => (true, r)
    | String "+" r => (false, r)
    | _ => (false, t)
    end in
  if int_body body false
  then Ret (if negative then - int_value body 0 else int_value body 0)
  else Raise ValueError.

Definition extraer_anio (date_str : PyVal) : PyVal :=
  if isna date_str then PNone
  else
    match int_of_str (prefix 4 (str date_str)) with
    | Ret n => PInt n
    | Raise _ => PNone
    end.

Definition extraer_primer_autor (authors_str : PyVal) : PyVal :=
  if isna authors_str then PNone
  else PStr (strip (hd "" (split_char "|" (str authors_str)))).

Definition scalar (df : DataFrame PyVal) (v : PyVal) : list PyVal :=
  repeat v (nrows df).

Definition mapear_goodreads (df_gr : DataFrame PyVal) : Exc (DataFrame PyVal) :=
  row_number <- column df_gr "row_number" ;;
  title <- column df_gr "title" ;;
  author <- column df_gr "author" ;;
  rating <- column df_gr "rating" ;;
  ratings_count <- column df_gr "ratings_count" ;;
  Ret (frame_of_columns (nrows df_gr)
    [ ("source_name", scalar df_gr (PStr "goodreads"));
      ("source_row_number", row_number);
      ("titulo", title);
      ("autor", author);
      ("rating", rating);
      ("ratings_count", ratings_count);
      ("anio_publicacion", get_column df_gr "published_year");
      ("isbn10", get_column df_gr "isbn10");
      ("isbn13", get_column df_gr "isbn13");
      ("book_url", get_column df_gr "book_url");
      ("editorial", scalar df_gr PNone);
      ("idioma", scalar df_gr PNone);
      ("paginas", scalar df_gr PNone);
      ("categorias", scalar df_gr PNone);
      ("precio", scalar df_gr PNone);
      ("moneda", scalar df_gr PNone);
      ("subtitulo", scalar df_gr PNone);
      ("autores_lista", scalar df_gr PNone) ]).

Definition mapear_googlebooks (df_gb : DataFrame PyVal) : Exc (DataFrame PyVal) :=
  row_number <- column df_gb "row_number" ;;
  title <- column df_gb "title" ;;
  subtitle <- column df_gb "subtitle" ;;
  authors <- column df_gb "authors" ;;
  publisher <- column df_gb "publisher" ;;
  published_date <- column df_gb "published_date" ;;
  language <- column df_gb "language" ;;
  page_count <- column df_gb "page_count" ;;
  categories <- column df_gb "categories" ;;
  isbn10 <- column df_gb "isbn10" ;;
  isbn13 <- column df_gb "isbn13" ;;
  price_amount <- column df_gb "price_amount" ;;
  price_currency <- column df_gb "price_currency" ;;
  Ret (frame_of_columns (nrows df_gb)
    [ ("source_name", scalar df_gb (PStr "googlebooks"));
      ("source_row_number", row_number);
      ("titulo", title);
      ("subtitulo", subtitle);
      ("autor", map extraer_primer_autor authors);
      ("autores_lista", authors);
      ("editorial", publisher);
      ("anio_publicacion", apply_int_column (map extraer_anio published_date));
      ("fecha_publicacion", published_date);
      ("idioma", language);
      ("paginas", page_count);
      ("categorias", categories);
      ("isbn10", isbn10);
      ("isbn13", isbn13);
      ("precio", price_amount);
      ("moneda", price_currency);
      ("rating", scalar df_gb PNone);
      ("ratings_count", scalar df_gb PNone);
      ("book_url", scalar df_gb PNone) ]).

(** *** 3. Normalisation *)

Definition opt_str (o : option string) : PyVal :=
  match o with
  | Some s => PStr s
  | None => PNone
  end.

(** On ASCII text the NFD form is the text itself and no character is a
    combining mark, so the accent-stripping step changes nothing. *)
Definition normalizar_titulo (titulo : PyVal) : PyVal :=
  if isna titulo then PNone
  else
    let titulo_sin_tildes := str titulo in
    let titulo_norm := lower titulo_sin_tildes in
    let titulo_norm :=
      map_str (fun c => if isalnum c || isspace c then c else " "%char)
              titulo_norm in
    PStr (join " " (split_ws titulo_norm)).

(** As for the title, the accent-stripping step changes nothing on ASCII
    text, the text the embedding covers. *)
Definition normalizar_autor (autor : PyVal) : PyVal :=
  if isna autor then PNone
  else
    let autor_sin_tildes := str autor in
    PStr (strip (lower autor_sin_tildes)).

(** [s[i] == c], read only behind a test of [len(s)] that puts [i] in
    range; no [IndexError] can arise. *)
Definition char_is (s : string) (i : nat) (c : ascii) : bool :=
  match String.get i s with
  | Some x => Ascii.eqb x c
  | None => false
  end.

Definition normalizar_fecha (fecha : PyVal) : PyVal :=
  if isna fecha then PNone
  else
    let fecha_str := strip (str fecha) in
    if (len fecha_str =? 10) && char_is fecha_str 4 "-" && char_is fecha_str 7 "-"
    then PStr fecha_str
    else if (len fecha_str =? 7) && char_is fecha_str 4 "-"
    then PStr (fecha_str ++ "-01")
    else if (len fecha_str =? 4) && str_isdigit fecha_str
    then PStr (fecha_str ++ "-01-01")
    else PNone.

Definition normalizar_idioma (idioma : PyVal) : PyVal :=
  if isna idioma then PNone
  else PStr (strip (lower (str idioma))).

Definition normalizar_moneda (moneda : PyVal) : PyVal :=
  if isna moneda then PNone
  else PStr (strip (upper (str moneda))).

(** [df[name] = df[name].apply(f)] when the frame has the column. *)
Definition apply_if_present (df : DataFrame PyVal) (name : string)
    (f : PyVal -> PyVal) : DataFrame PyVal :=
  match column df name with
  | Ret col => set_column df name (map f col)
  | Raise _ => df
  end.

Definition isbn_limpio (x : PyVal) : PyVal :=
  if notna x then opt_str (isbn (normalize_isbn x)) else PNone.

Definition normalizar_df (df : DataFrame PyVal) : Exc (DataFrame PyVal) :=
  titulo <- column df "titulo" ;;
  let df_norm := set_column df "titulo_normalizado" (map normalizar_titulo titulo) in
  autor <- column df_norm "autor" ;;
  let df_norm := set_column df_norm "autor_normalizado" (map normalizar_autor autor) in
  let df_norm := apply_if_present df_norm "fecha_publicacion" normalizar_fecha in
  let df_norm := apply_if_present df_norm "idioma" normalizar_idioma in
  let df_norm := apply_if_present df_norm "moneda" normalizar_moneda in
  isbn10 <- column df_norm "isbn10" ;;
  let df_norm := set_column df_norm "isbn10" (map isbn_limpio isbn10) in
  isbn13 <- column df_norm "isbn13" ;;
  let df_norm := set_column df_norm "isbn13" (map isbn_limpio isbn13) in
  Ret df_norm.

(** *** 4. Canonical [book_id] *)

(** A row handed to [DataFrame.apply(f, axis=1)]: the column names and
    the cells of the row. *)
Definition Row : Type := list string * list PyVal.

(** [row[name]] *)
Definition row_getitem (row : Row) (name : string) : Exc PyVal :=
  match index_of name (fst row) with
  | Some i => Ret (at_ i (snd row))
  | None => Raise (KeyError name)
  end.

(** [row.get(name, default)] *)
Definition row_get (row : Row) (name : string) (default : PyVal) : PyVal :=
  match index_of name (fst row) with
  | Some i => at_ i (snd row)
  | None => default
  end.

Definition generar_book_id (row : Row) : Exc PyVal :=
  v13 <- row_getitem row "isbn13" ;;
  if notna v13 && validate_isbn13 v13 then Ret v13
  else
    v10 <- row_getitem row "isbn10" ;;
    isbn13_convertido <-
      (if notna v10 then isbn10_to_isbn13 v10 else Ret None) ;;
    if truthy (opt_str isbn13_convertido) then Ret (opt_str isbn13_convertido)
    else
      let titulo := or_ (row_get row "titulo_normalizado" (PStr "")) (PStr "") in
      let autor := or_ (row_get row "autor_normalizado" (PStr "")) (PStr "") in
      let editorial := or_ (row_get row "editorial" (PStr "")) (PStr "") in
      let anio :=
        or_ (PStr (str (row_get row "anio_publicacion" (PStr "")))) (PStr "") in
      let key :=
        str titulo ++ "|" ++ str autor ++ "|" ++ str editorial ++ "|" ++ str anio in
      let hash_id := hashlib.md5_hexdigest key in
      Ret (PStr ("hash_" ++ prefix 16 hash_id)).

(** The two counts [agregar_book_id] prints are read through
    [df['book_id'].str]; they change nothing in the frame, but the
    accessor can refuse the column. *)
Definition agregar_book_id (df : DataFrame PyVal) : Exc (DataFrame PyVal) :=
  ids <- mapM (fun r => generar_book_id (columns df, r)) (rows df) ;;
  let df := set_column df "book_id" ids in
  _ <- str_accessor ids ;;
  Ret df.

(** *** 5. Merge of the two sources *)

Definition consolidar_fuentes (df_gr df_gb : DataFrame PyVal)
  : Exc (DataFrame PyVal) :=
  merge_outer "book_id" "_gr" "_gb" df_gr df_gb.

(** *** 6. Deduplication and survivorship *)

(** A cell of [dim_book]: a scalar, or the list of authors or categories. *)
Inductive OutCell :=
| Scalar (v : PyVal)
| Lista (l : list string).

#[export] Instance Cell_OutCell : Cell OutCell := {|
  na := Scalar PNaN;
  cell_isna := fun c => match c with Scalar v => isna v | Lista _ => false end
|}.

(** The dictionary [consolidated], in the order its keys are set. *)
Record ConsolidatedBook := {
  book_id : PyVal;
  titulo : PyVal;
  titulo_normalizado : PyVal;
  subtitulo : PyVal;
  autor_principal : PyVal;
  autor_normalizado : PyVal;
  autores : option (list string);
  editorial : PyVal;
  anio_publicacion : PyVal;
  fecha_publicacion : PyVal;
  idioma : PyVal;
  isbn10 : PyVal;
  isbn13 : PyVal;
  paginas : PyVal;
  categorias : option (list string);
  precio : PyVal;
  moneda : PyVal;
  rating : PyVal;
  ratings_count : PyVal;
  fuente_ganadora : string;
  ts_ultima_actualizacion : string
}.

Definition consolidated_columns : list string :=
  [ "book_id"; "titulo"; "titulo_normalizado"; "subtitulo"; "autor_principal";
    "autor_normalizado"; "autores"; "editorial"; "anio_publicacion";
    "fecha_publicacion"; "idioma"; "isbn10"; "isbn13"; "paginas"; "categorias";
    "precio"; "moneda"; "rating"; "ratings_count"; "fuente_ganadora";
    "ts_ultima_actualizacion" ].

Definition opt_list (o : option (list string)) : OutCell :=
  match o with
  | Some l => Lista l
  | None => Scalar PNone
  end.

(** [pd.Series(consolidated)] *)
Definition series_of (b : ConsolidatedBook) : list OutCell :=
  [ Scalar (book_id b); Scalar (titulo b); Scalar (titulo_normalizado b);
    Scalar (subtitulo b); Scalar (autor_principal b);
    Scalar (autor_normalizado b); opt_list (autores b); Scalar (editorial b);
    Scalar (anio_publicacion b); Scalar (fecha_publicacion b);
    Scalar (idioma b); Scalar (isbn10 b); Scalar (isbn13 b);
    Scalar (paginas b); opt_list (categorias b); Scalar (precio b);
    Scalar (moneda b); Scalar (rating b); Scalar (ratings_count b);
    Scalar (PStr (fuente_ganadora b));
    Scalar (PStr (ts_ultima_actualizacion b)) ].

(** [len(t)] as the key of [max]: only text has a length here.  On ASCII
    text, the text the embedding covers, the number of characters is the
    number of bytes. *)
Definition py_len (v : PyVal) : Exc Z :=
  match v with
  | PStr s => Ret (len s)
  | _ => Raise TypeError
  end.

(** [max(items, key=len)]: the first item of greatest length. *)
Definition max_by_len (items : list PyVal) : Exc PyVal :=
  keyed <- mapM (fun t => n <- py_len t ;; Ret (t, n)) items ;;
  match keyed with
  | [] => Raise ValueError
  | first :: rest =>
      Ret (fst (fold_left
                  (fun best x => if snd best <? snd x then x else best)
                  rest first))
  end.

(** [group[cols].values.flatten()]: row by row, the cells of the chosen
    columns in the order they are listed. *)
Definition values_flatten (group : DataFrame PyVal) (cols : list string)
  : list PyVal :=
  flat_map
    (fun r =>
       flat_map
         (fun c => match index_of c (columns group) with
                   | Some i => [at_ i r]
                   | None => []
                   end)
         cols)
    (rows group).

(** [x if pd.notna(x) else None] *)
Definition notna_or_none (v : PyVal) : PyVal :=
  if notna v then v else PNone.

(** [[a.strip() for a in str(v).split('|') if a.strip()]], then [None]
    for the empty list. *)
Definition lista_de (v : PyVal) : option (list string) :=
  let l := filter (fun a => negb (String.eqb a ""))
                  (map strip (split_char "|" (str v))) in
  match l with
  | [] => None
  | _ => Some l
  end.

(** [c.endswith(suffix)] *)
Definition endswith (c suffix : string) : bool :=
  let n := String.length c in
  let m := String.length suffix in
  (m <=? n)%nat && String.eqb (String.substring (n - m) m c) suffix.

(** [group[[c for c in group.columns if c.endswith(suffix)]]
      .notna().sum(axis=1).iloc[0]] *)
Definition count_side (group : DataFrame PyVal) (suffix : string) : Exc nat :=
  match rows group with
  | [] => Raise IndexError
  | r :: _ =>
      Ret (List.length
             (filter (fun i => endswith (nth i (columns group) "") suffix
                               && notna (at_ i r))
                     (seq 0 (List.length (columns group)))))
  end.

(** [gb if pd.notna(gb) else gr], the second column read only when the
    first cell is missing. *)
Definition prefer (group : DataFrame PyVal) (first second : string) : Exc PyVal :=
  v <- iloc0 group first ;;
  if notna v then Ret v else iloc0 group second.

Definition aplicar_supervivencia (group : DataFrame PyVal) (ts_run : string)
  : Exc ConsolidatedBook :=
  c_book_id <- iloc0 group "book_id" ;;
  let titulo_cols :=
    filter (fun c => has_column c group) ["titulo_gr"; "titulo_gb"] in
  let titulos := values_flatten group titulo_cols in
  let titulos_validos := filter notna titulos in
  c_titulo <- match titulos_validos with
              | [] => Ret PNone
              | _ => max_by_len titulos_validos
              end ;;
  let c_titulo_normalizado := normalizar_titulo c_titulo in
  c_subtitulo <- Exc_map notna_or_none (iloc0 group "subtitulo_gb") ;;
  autor_gb <- (if has_column "autor_gb" group
               then iloc0 group "autor_gb" else Ret PNone) ;;
  autor_gr <- (if has_column "autor_gr" group
               then iloc0 group "autor_gr" else Ret PNone) ;;
  let c_autor_principal := if notna autor_gb then autor_gb else autor_gr in
  let c_autor_normalizado := normalizar_autor c_autor_principal in
  autores_gb <- (if has_column "autores_lista_gb" group
                 then iloc0 group "autores_lista_gb" else Ret (PStr "")) ;;
  let autores_gb := if notna autores_gb then autores_gb else PStr "" in
  let c_autores := lista_de autores_gb in
  c_editorial <- prefer group "editorial_gb" "editorial_gr" ;;
  c_anio <- prefer group "anio_publicacion_gb" "anio_publicacion_gr" ;;
  c_fecha <- (if has_column "fecha_publicacion_gb" group
              then Exc_map notna_or_none (iloc0 group "fecha_publicacion_gb")
              else Ret PNone) ;;
  c_idioma <- Exc_map notna_or_none (iloc0 group "idioma_gb") ;;
  c_isbn10 <- prefer group "isbn10_gb" "isbn10_gr" ;;
  c_isbn13 <- prefer group "isbn13_gb" "isbn13_gr" ;;
  c_paginas <- Exc_map notna_or_none (iloc0 group "paginas_gb") ;;
  categorias_gb <- iloc0 group "categorias_gb" ;;
  let categorias_gb := if notna categorias_gb then categorias_gb else PStr "" in
  let c_categorias := lista_de categorias_gb in
  c_precio <- Exc_map notna_or_none (iloc0 group "precio_gb") ;;
  c_moneda <- Exc_map notna_or_none (iloc0 group "moneda_gb") ;;
  c_rating <- Exc_map notna_or_none (iloc0 group "rating_gr") ;;
  c_ratings_count <- Exc_map notna_or_none (iloc0 group "ratings_count_gr") ;;
  count_gb <- count_side group "_gb" ;;
  count_gr <- count_side group "_gr" ;;
  let c_fuente := if (count_gr <=? count_gb)%nat then "googlebooks" else "goodreads" in
  Ret {| book_id := c_book_id;
         titulo := c_titulo;
         titulo_normalizado := c_titulo_normalizado;
         subtitulo := c_subtitulo;
         autor_principal := c_autor_principal;
         autor_normalizado := c_autor_normalizado;
         autores := c_autores;
         editorial := c_editorial;
         anio_publicacion := c_anio;
         fecha_publicacion := c_fecha;
         idioma := c_idioma;
         isbn10 := c_isbn10;
         isbn13 := c_isbn13;
         paginas := c_paginas;
         categorias := c_categorias;
         precio := c_precio;
         moneda := c_moneda;
         rating := c_rating;
         ratings_count := c_ratings_count;
         fuente_ganadora := c_fuente;
         ts_ultima_actualizacion := ts_run |}.

(** [pd.DataFrame(filas)]: the columns are the index of the series; no
    series, no column. *)
Definition frame_of_series (filas : list ConsolidatedBook) : DataFrame OutCell :=
  {| columns := match filas with [] => [] | _ => consolidated_columns end;
     rows := map series_of filas |}.

Definition deduplicar_filas (df_merged : DataFrame PyVal) (ts_run : string)
  : Exc (list ConsolidatedBook) :=
  groups <- groupby df_merged "book_id" ;;
  mapM (fun kg => aplicar_supervivencia (snd kg) ts_run) groups.

Definition deduplicar (df_merged : DataFrame PyVal) (ts_run : string)
  : Exc (DataFrame OutCell) :=
  Exc_map frame_of_series (deduplicar_filas df_merged ts_run).

(** *** 7. Traceability

    [datetime.now().isoformat()] is read once for each source: the two
    readings are arguments here.  [df.apply(..., axis=1)] gives a column
    for a frame of at least one row, the case the embedding covers. *)

Definition source_ids (source : string) (df : DataFrame PyVal)
  : Exc (list PyVal) :=
  numbers <- column df "source_row_number" ;;
  Ret (map (fun n => PStr (source ++ "_" ++ str n)) numbers).

Definition crear_source_detail (df_gr df_gb : DataFrame PyVal)
    (now_gr now_gb : string) : Exc (DataFrame PyVal) :=
  gr_id <- source_ids "goodreads" df_gr ;;
  gr_row <- column df_gr "source_row_number" ;;
  gr_book <- column df_gr "book_id" ;;
  gr_titulo <- column df_gr "titulo" ;;
  gr_autor <- column df_gr "autor" ;;
  gr_isbn10 <- column df_gr "isbn10" ;;
  gr_isbn13 <- column df_gr "isbn13" ;;
  gr_rating <- column df_gr "rating" ;;
  gr_anio <- column df_gr "anio_publicacion" ;;
  let gr_detail := frame_of_columns (nrows df_gr)
    [ ("source_id", gr_id);
      ("source_name", scalar df_gr (PStr "goodreads"));
      ("source_file", scalar df_gr (PStr "goodreads_books.json"));
      ("row_number", gr_row);
      ("book_id_candidato", gr_book);
      ("titulo_original", gr_titulo);
      ("autor_original", gr_autor);
      ("isbn10_original", gr_isbn10);
      ("isbn13_original", gr_isbn13);
      ("rating_original", gr_rating);
      ("anio_publicacion_original", gr_anio);
      ("timestamp_ingesta", scalar df_gr (PStr now_gr)) ] in
  gb_id <- source_ids "googlebooks" df_gb ;;
  gb_row <- column df_gb "source_row_number" ;;
  gb_book <- column df_gb "book_id" ;;
  gb_titulo <- column df_gb "titulo" ;;
  gb_autor <- column df_gb "autor" ;;
  gb_isbn10 <- column df_gb "isbn10" ;;
  gb_isbn13 <- column df_gb "isbn13" ;;
  gb_editorial <- column df_gb "editorial" ;;
  gb_precio <- column df_gb "precio" ;;
  gb_moneda <- column df_gb "moneda" ;;
  gb_idioma <- column df_gb "idioma" ;;
  gb_anio <- column df_gb "anio_publicacion" ;;
  let gb_detail := frame_of_columns (nrows df_gb)
    [ ("source_id", gb_id);
      ("source_name", scalar df_gb (PStr "googlebooks"));
      ("source_file", scalar df_gb (PStr "googlebooks_books.csv"));
      ("row_number", gb_row);
      ("book_id_candidato", gb_book);
      ("titulo_original", gb_titulo);
      ("autor_original", gb_autor);
      ("isbn10_original", gb_isbn10);
      ("isbn13_original", gb_isbn13);
      ("editorial_original", gb_editorial);
      ("precio_original", gb_precio);
      ("moneda_original", gb_moneda);
      ("idioma_original", gb_idioma);
      ("anio_publicacion_original", gb_anio);
      ("timestamp_ingesta", scalar df_gb (PStr now_gb)) ] in
  Ret (concat gr_detail gb_detail).

(** *** 9. Blocking assertions *)

(** [assert cond, msg] *)
Definition assert_ (cond : bool) (msg : AssertionMessage) : Exc unit :=
  if cond then Ret tt else Raise (AssertionError msg).

(** Equality of two objects as the hash table behind [Series.is_unique]
    sees it: Python's [==], with NaN equal to NaN. *)
Definition number_of (v : PyVal) : option Q :=
  match v with
  | PInt z => Some (inject_Z z)
  | PFloat q _ => Some q
  | _ => None
  end.

Definition same_value (a b : PyVal) : bool :=
  match a, b with
  | PNone, PNone => true
  | PNaN, PNaN => true
  | PStr s, PStr t => String.eqb s t
  | _, _ =>
      match number_of a, number_of b with
      | Some p, Some q => Qeq_bool p q
      | _, _ => false
      end
  end.

Fixpoint all_distinct (l : list PyVal) : bool :=
  match l with
  | [] => true
  | v :: l' => negb (existsb (same_value v) l') && all_distinct l'
  end.

(** A list cannot be hashed. *)
Definition scalar_of (c : OutCell) : Exc PyVal :=
  match c with
  | Scalar v => Ret v
  | Lista _ => Raise TypeError
  end.

(** [series.is_unique] *)
Definition is_unique (col : list OutCell) : Exc bool :=
  vs <- mapM scalar_of col ;;
  Ret (all_distinct vs).

(** The number a price cell holds; order comparisons need one. *)
Definition price_of (c : OutCell) : Exc Q :=
  match c with
  | Scalar v =>
      match number_of v with
      | Some q => Ret q
      | None => Raise TypeError
      end
  | Lista _ => Raise TypeError
  end.

Definition qmin (a b : Q) : Q := if Qle_bool a b then a else b.
Definition qmax (a b : Q) : Q := if Qle_bool a b then b else a.

(** Assertion 3: the prices that are present lie in [0, 1000]. *)
Definition assert_precios (dim_book : DataFrame OutCell) : Exc unit :=
  precio <- column dim_book "precio" ;;
  let presentes := filter (fun c => negb (cell_isna c)) precio in
  if (0 <? List.length presentes)%nat
  then
    nums <- mapM price_of presentes ;;
    match nums with
    | [] => Ret tt
    | x :: xs =>
        let precio_min := fold_left qmin xs x in
        let precio_max := fold_left qmax xs x in
        assert_ (Qle_bool 0 precio_min && Qle_bool precio_max 1000)
                (PreciosFueraDeRango precio_min precio_max)
    end
  else Ret tt.

Definition assert_calidad (dim_book : DataFrame OutCell) : Exc unit :=
  completitud_titulo <- calculate_completeness dim_book "titulo" ;;
  _ <- assert_ (Qle_bool 90 completitud_titulo)
               (TitulosInsuficientes completitud_titulo) ;;
  ids <- column dim_book "book_id" ;;
  unicos <- is_unique ids ;;
  _ <- assert_ unicos BookIdDuplicados ;;
  _ <- assert_precios dim_book ;;
  _ <- assert_ (10 <=? nrows dim_book)%nat (PocosLibros (nrows dim_book)) ;;
  Ret tt.

(** *** The run: steps 2 to 6 and 9 of [main]

    [integrar] takes the two raw frames to [dim_book]; [ejecutar] then
    applies the blocking assertions, and hands [dim_book] on only when
    they pass.  Reading, the traceability table, the metrics and the
    writing of files are left out. *)

Definition preparar (mapear : DataFrame PyVal -> Exc (DataFrame PyVal))
    (raw : DataFrame PyVal) : Exc (DataFrame PyVal) :=
  staging <- mapear raw ;;
  norm <- normalizar_df staging ;;
  agregar_book_id norm.

Definition integrar (df_gr_raw df_gb_raw : DataFrame PyVal) (run_ts : string)
  : Exc (DataFrame OutCell) :=
  df_gr_norm <- preparar mapear_goodreads df_gr_raw ;;
  df_gb_norm <- preparar mapear_googlebooks df_gb_raw ;;
  df_merged <- consolidar_fuentes df_gr_norm df_gb_norm ;;
  deduplicar df_merged run_ts.


End integrate_pipeline.

(* ================================================================== *)
(** * The specification's statements, auxiliary notions and sample data *)
(* ================================================================== *)

Import utils_isbn utils_quality integrate_pipeline.

Module spec.

(** Text of a given shape: one test per character. *)
Fixpoint matches (pat : list (ascii -> bool)) (s : string) : bool :=
  match pat, s with
  | [], EmptyString => true
  | p :: pat', String c s' => p c && matches pat' s'
  | _, _ => false
  end.

Definition dash (c : ascii) : bool := Ascii.eqb c "-".

(** The literal shapes [YYYY-MM-DD], [YYYY-MM] and [YYYY]. *)
Definition shape_ymd : string -> bool :=
  matches [isdigit; isdigit; isdigit; isdigit; dash;
           isdigit; isdigit; dash; isdigit; isdigit].
Definition shape_ym : string -> bool :=
  matches [isdigit; isdigit; isdigit; isdigit; dash; isdigit; isdigit].
Definition shape_y : string -> bool :=
  matches [isdigit; isdigit; isdigit; isdigit].

(** The date normaliser as the specification words it: the three literal
    shapes, and null for null input and any other shape. *)
Definition normalizar_fecha_spec (fecha : PyVal) : PyVal :=
  match fecha with
  | PStr s =>
      if shape_ymd s then PStr s
      else if shape_ym s then PStr (s ++ "-01")
      else if shape_y s then PStr (s ++ "-01-01")
      else PNone
  | _ => PNone
  end.

(** Exactly three uppercase letters. *)
Definition three_capitals (s : string) : bool :=
  matches [is_upper; is_upper; is_upper] s.

(** The currency predicate as the specification words it, on the value
    as it is passed. *)
Definition currency_valid_spec (currency : PyVal) : bool :=
  match currency with
  | PStr s => three_capitals s || existsb (String.eqb s) common_currencies
  | _ => false
  end.

(** The key material of the hash tier as the specification words it:
    the four components, the empty text for one that is absent or null. *)
Definition component (row : Row) (name : string) : string :=
  let v := row_get row name PNone in
  if isna v then "" else str v.

Definition key_material_spec (row : Row) : string :=
  component row "titulo_normalizado" ++ "|" ++ component row "autor_normalizado"
  ++ "|" ++ component row "editorial" ++ "|" ++ component row "anio_publicacion".

Definition hash_book_id_spec (row : Row) : PyVal :=
  PStr ("hash_" ++ prefix 16 (hashlib.md5_hexdigest (key_material_spec row))).

(** The canonical keys of the rows of a frame, top to bottom. *)
Definition book_ids (df : DataFrame PyVal) : Exc (list Key) :=
  Exc_map (map key_of) (column df "book_id").

Definition count_key (k : Key) (ks : list Key) : nat :=
  List.length (filter (key_eqb k) ks).

(** Merge completeness as the specification words it. *)
Definition merge_completeness_spec (A B : DataFrame PyVal) : Prop :=
  exists m ka kb km,
    consolidar_fuentes A B = Ret m
    /\ book_ids A = Ret ka /\ book_ids B = Ret kb /\ book_ids m = Ret km
    /\ (forall k, In k ka \/ In k kb -> In k km)
    /\ (Nat.max (nrows A) (nrows B) <= nrows m <= nrows A + nrows B)%nat.

(** The non-null cells of a column, counted one cell at a time: the
    numerator of the non-null fraction. *)
Fixpoint non_null_count {C} `{Cell C} (col : list C) : nat :=
  match col with
  | [] => O
  | v :: rest =>
      if cell_isna v then non_null_count rest else S (non_null_count rest)
  end.

End spec.

(** Notions the statements and their proofs are worded with. *)
Module nociones.

Import spec.

(** The number of merged rows one key gives, from the number of rows
    that carry it on each side. *)
Definition merge_count (a b : nat) : nat :=
  match a, b with
  | O, _ => b
  | _, O => a
  | _, _ => a * b
  end.

(** A consolidated book with its timestamp replaced. *)
Definition con_timestamp (ts : string) (b : ConsolidatedBook) : ConsolidatedBook :=
  {| book_id := book_id b;
     titulo := titulo b;
     titulo_normalizado := titulo_normalizado b;
     subtitulo := subtitulo b;
     autor_principal := autor_principal b;
     autor_normalizado := autor_normalizado b;
     autores := autores b;
     editorial := editorial b;
     anio_publicacion := anio_publicacion b;
     fecha_publicacion := fecha_publicacion b;
     idioma := idioma b;
     isbn10 := isbn10 b;
     isbn13 := isbn13 b;
     paginas := paginas b;
     categorias := categorias b;
     precio := precio b;
     moneda := moneda b;
     rating := rating b;
     ratings_count := ratings_count b;
     fuente_ganadora := fuente_ganadora b;
     ts_ultima_actualizacion := ts |}.

(** [dim_book] without its last column, the timestamp. *)
Definition sin_timestamp (df : DataFrame OutCell) : DataFrame OutCell :=
  {| columns := removelast (columns df);
     rows := map (@removelast OutCell) (rows df) |}.

(** The keys of the rows of [dim_book], top to bottom. *)
Definition claves (filas : list ConsolidatedBook) : list Key :=
  map (fun b => key_of (book_id b)) filas.

(** The columns [aplicar_supervivencia] reads without asking first
    whether the group has them. *)
Definition required_columns : list string :=
  [ "book_id"; "subtitulo_gb"; "editorial_gb"; "editorial_gr";
    "anio_publicacion_gb"; "anio_publicacion_gr"; "idioma_gb";
    "isbn10_gb"; "isbn10_gr"; "isbn13_gb"; "isbn13_gr"; "paginas_gb";
    "categorias_gb"; "precio_gb"; "moneda_gb"; "rating_gr";
    "ratings_count_gr" ].

(** Every title cell of the frame is text or missing. *)
Definition titulos_de_texto (df : DataFrame PyVal) : Prop :=
  forall c i r,
    In c ["titulo_gr"; "titulo_gb"] ->
    index_of c (columns df) = Some i ->
    In r (rows df) ->
    isna (at_ i r) = true \/ exists s, at_ i r = PStr s.

(** The columns of a frame after [df[name] = ...]. *)
Definition columns_after_set (cols : list string) (name : string) : list string :=
  match index_of name cols with
  | Some _ => cols
  | None => (cols ++ [name])%list
  end.

(** The columns of a prepared frame, from those of its staging frame. *)
Definition prepared_columns (staging : list string) : list string :=
  fold_left columns_after_set
    ["titulo_normalizado"; "autor_normalizado"; "isbn10"; "isbn13"; "book_id"]
    staging.

(** The prices that are present in a consolidated set. *)
Definition present_prices (filas : list ConsolidatedBook) : list Q :=
  flat_map
    (fun b => if notna (precio b)
              then match number_of (precio b) with
                   | Some q => [q]
                   | None => []
                   end
              else [])
    filas.

(** A text with the character at one position replaced. *)
Fixpoint replace_at (i : nat) (c : ascii) (s : string) : string :=
  match s, i with
  | EmptyString, _ => EmptyString
  | String _ s', O => String c s'
  | String x s', S i' => String x (replace_at i' c s')
  end.

(** A text with the characters at one position and the next exchanged. *)
Fixpoint swap_at (i : nat) (s : string) : string :=
  match i, s with
  | O, String a (String b r) => String b (String a r)
  | S i', String a r => String a (swap_at i' r)
  | _, _ => s
  end.

(** What the figures of a validated column must satisfy: the error entry
    only for a frame without the column, and otherwise a valid count no
    greater than the count of non-null cells, itself no greater than the
    number of rows, with a percentage between 0 and 100. *)
Definition sound_figures (df : DataFrame PyVal) (name : string)
    (out : Exc ColumnValidation) : Prop :=
  match out with
  | Ret (ColumnNotFound _) => has_column name df = false
  | Ret (ColumnFigures total valid pct) =>
      has_column name df = true
      /\ (valid <= total <= nrows df)%nat
      /\ (0 <= pct <= 100)%Q
  | Raise _ => False
  end.

(** The title cells the resolver chooses from: the cells of the title
    columns the group has, row by row, the Goodreads one before the Google
    Books one, without the missing ones. *)
Definition titulos_validos (group : DataFrame PyVal) : list PyVal :=
  filter notna
    (values_flatten group
       (filter (fun c => has_column c group) ["titulo_gr"; "titulo_gb"])).



(** A character of ASCII text, and a value whose text is ASCII: the text
    on which the text functions of the embedding are those of Python. *)
Definition is_ascii (c : ascii) : bool := (code c <? 128)%N.

Definition texto_ascii (v : PyVal) : bool := all_str is_ascii (str v).

(** An ISBN character after cleaning: a digit or the capital X. *)
Definition isbn_clean_char (c : ascii) : bool := isdigit c || Ascii.eqb c "X".

(** A character of a normalised title word: a digit or a lowercase
    letter. *)
Definition word_char (c : ascii) : bool := isdigit c || is_lower c.

(** A book key of the identifier tiers: thirteen digits. *)
Definition thirteen_digits (s : string) : bool :=
  (String.length s =? 13)%nat && all_str isdigit s.

(** A lowercase hexadecimal digit. *)
Definition is_hex (c : ascii) : bool :=
  isdigit c || ((97 <=? code c) && (code c <=? 102))%N.

End nociones.

Module samples.

(** A record of the scraped source and one of the API source for the
    same book (the end-to-end scenario of the specification), as the two
    readers hand them over. *)
Definition goodreads_raw : DataFrame PyVal :=
  mkDataFrame
    ["row_number"; "title"; "author"; "rating"; "ratings_count";
     "published_year"; "book_url"; "isbn10"; "isbn13"]
    [[PInt 1; PStr "Effective C++"; PStr "Scott Meyers"; PFloat 4.5 "4.5";
      PInt 100; PNone; PStr "https://example.org/1"; PStr "0134685997"; PNone]].

Definition googlebooks_raw : DataFrame PyVal :=
  mkDataFrame
    ["row_number"; "title"; "subtitle"; "authors"; "publisher";
     "published_date"; "language"; "page_count"; "categories"; "isbn10";
     "isbn13"; "price_amount"; "price_currency"]
    [[PInt 1; PStr "Effective C++: 3rd Edition"; PNaN; PNaN;
      PStr "Addison-Wesley"; PStr "2005-05-12"; PStr "en"; PInt 320;
      PStr "Computers|Programming"; PNaN; PStr "9780134685991";
      PFloat 45 "45.0"; PStr "usd"]].

(** The merged frame the pipeline builds from the two records. *)
Definition merged : DataFrame PyVal :=
  match (df_gr <- preparar mapear_goodreads goodreads_raw ;;
         df_gb <- preparar mapear_googlebooks googlebooks_raw ;;
         consolidar_fuentes df_gr df_gb) with
  | Ret m => m
  | Raise _ => mkDataFrame [] []
  end.

(** The two records after staging, normalisation and keying. *)
Definition preparado_gr : DataFrame PyVal :=
  match preparar mapear_goodreads goodreads_raw with
  | Ret d => d
  | Raise _ => mkDataFrame [] []
  end.

Definition preparado_gb : DataFrame PyVal :=
  match preparar mapear_googlebooks googlebooks_raw with
  | Ret d => d
  | Raise _ => mkDataFrame [] []
  end.

(** The merged record under other keys: five rows, two of them with the
    key of the record, one with a hash key, one with the key [None] and
    one with the key NaN. *)
Definition con_clave (k : PyVal) (r : list PyVal) : list PyVal :=
  match index_of "book_id" (columns merged) with
  | Some i => set_nth i k r
  | None => r
  end.

Definition merged_repetidos : DataFrame PyVal :=
  mkDataFrame (columns merged)
    (flat_map
       (fun r => [r; con_clave PNone r; r;
                  con_clave (PStr "hash_00f1e2d3c4b5a697") r;
                  con_clave PNaN r])
       (rows merged)).

(** A frame of four rows whose second column has one missing cell. *)
Definition cuatro_filas : DataFrame PyVal :=
  mkDataFrame ["titulo"; "isbn13"]
    [[PStr "a"; PStr "9780134685991"];
     [PStr "b"; PNone];
     [PStr "c"; PStr "9780306406157"];
     [PNaN; PStr "9781861972712"]].

(** A normalised row without identifiers, publisher or year. *)
Definition fila_sin_isbn : Row :=
  (["isbn13"; "isbn10"; "titulo_normalizado"; "autor_normalizado";
    "editorial"; "anio_publicacion"],
   [PNone; PNone; PStr "dune"; PStr "frank herbert"; PNone; PNone]).

(** Two keyed record sets in which one key is carried by two rows of the
    first and three rows of the second. *)
Definition repetidos_gr : DataFrame PyVal :=
  mkDataFrame ["book_id"; "titulo"]
    [[PStr "9780134685991"; PStr "Effective C++"];
     [PStr "9780134685991"; PStr "Effective C++ (3rd)"]].

Definition repetidos_gb : DataFrame PyVal :=
  mkDataFrame ["book_id"; "titulo"]
    [[PStr "9780134685991"; PStr "Effective C++: 3rd Edition"];
     [PStr "9780134685991"; PStr "Effective C++"];
     [PStr "9780134685991"; PStr "Effective C++, Third Edition"]].

(** A keyed record set of one row. *)
Definition unico_gr : DataFrame PyVal :=
  mkDataFrame ["book_id"; "titulo"]
    [[PStr "9780134685991"; PStr "Effective C++"]].



End samples.

(* ================================================================== *)
(** * Properties *)
(* ================================================================== *)

Import spec nociones.

(** ** Text primitives *)

Lemma isdigit_not_space c : isdigit c = true -> isspace c = false.
Proof.
  unfold isdigit, isspace. intros H.
  apply andb_true_iff in H as [H1 H2].
  apply N.leb_le in H1. apply N.leb_le in H2.
  apply orb_false_iff; split; apply andb_false_iff.
  - right. apply N.leb_gt. lia.
  - right. apply N.leb_gt. lia.
Qed.

Lemma isdigit_not_lower c : isdigit c = true -> is_lower c = false.
Proof.
  unfold isdigit, is_lower. intros H.
  apply andb_true_iff in H as [H1 H2].
  apply N.leb_le in H1. apply N.leb_le in H2.
  apply andb_false_iff. left. apply N.leb_gt. lia.
Qed.

Lemma all_str_impl (p q : ascii -> bool) s :
  (forall c, p c = true -> q c = true) ->
  all_str p s = true -> all_str q s = true.
Proof.
  intros Hpq. induction s as [|c s IH]; simpl; [reflexivity|].
  intros H. apply andb_true_iff in H as [Hc Hs].
  rewrite (Hpq _ Hc), (IH Hs). reflexivity.
Qed.

Lemma rstrip_no_space s :
  all_str (fun c => negb (isspace c)) s = true -> rstrip s = s.
Proof.
  induction s as [|c s IH]; simpl; [reflexivity|].
  intros H. apply andb_true_iff in H as [Hc Hs].
  rewrite (IH Hs). apply negb_true_iff in Hc. rewrite Hc.
  destruct s; reflexivity.
Qed.

Lemma lstrip_no_space s :
  all_str (fun c => negb (isspace c)) s = true -> lstrip s = s.
Proof.
  destruct s as [|c s]; simpl; [reflexivity|].
  intros H. apply andb_true_iff in H as [Hc _].
  apply negb_true_iff in Hc. rewrite Hc. reflexivity.
Qed.

Lemma strip_no_space s :
  all_str (fun c => negb (isspace c)) s = true -> strip s = s.
Proof.
  intros H. unfold strip. rewrite (lstrip_no_space _ H). apply rstrip_no_space, H.
Qed.

Lemma strip_digits s : all_str isdigit s = true -> strip s = s.
Proof.
  intros H. apply strip_no_space. revert H. apply all_str_impl.
  intros c Hc. rewrite (isdigit_not_space _ Hc). reflexivity.
Qed.

Lemma filter_str_all p s : all_str p s = true -> filter_str p s = s.
Proof.
  induction s as [|c s IH]; simpl; [reflexivity|].
  intros H. apply andb_true_iff in H as [Hc Hs].
  rewrite Hc, (IH Hs). reflexivity.
Qed.

Lemma upper_digits s : all_str isdigit s = true -> upper s = s.
Proof.
  unfold upper. induction s as [|c s IH]; simpl; [reflexivity|].
  intros H. apply andb_true_iff in H as [Hc Hs].
  rewrite (IH Hs). unfold upper_char. rewrite (isdigit_not_lower _ Hc).
  reflexivity.
Qed.

(** ** ISBN checksums *)

Lemma int_of_char_ret c d :
  int_of_char c = Ret d -> isdigit c = true /\ 0 <= d <= 9.
Proof.
  unfold int_of_char. destruct (isdigit c) eqn:Hd; [|discriminate].
  intros H. injection H as <-. split; [reflexivity|].
  unfold isdigit in Hd. apply andb_true_iff in Hd as [H1 H2].
  apply N.leb_le in H1. apply N.leb_le in H2. lia.
Qed.

Lemma str_of_Z_digit z :
  0 <= z <= 9 ->
  exists c, str_of_Z z = String c "" /\ int_of_char c = Ret z.
Proof.
  intros H.
  assert (z = 0 \/ z = 1 \/ z = 2 \/ z = 3 \/ z = 4 \/ z = 5 \/ z = 6
          \/ z = 7 \/ z = 8 \/ z = 9) as Hz by lia.
  repeat (destruct Hz as [-> | Hz]; [eexists; split; reflexivity|]).
  subst z. eexists; split; reflexivity.
Qed.

Lemma clean_isbn_digits s :
  s <> "" -> all_str isdigit s = true -> clean_isbn (PStr s) = Some s.
Proof.
  intros Hne Hd. unfold clean_isbn. simpl str.
  rewrite (strip_digits _ Hd).
  assert (all_str isbn_char s = true) as Hi.
  { revert Hd. apply all_str_impl. intros c Hc. unfold isbn_char.
    rewrite Hc. reflexivity. }
  rewrite (filter_str_all _ _ Hi), (upper_digits _ Hd).
  destruct (String.eqb_spec s ""); [contradiction|reflexivity].
Qed.

(** What acceptance by [validate_isbn10] says of the cleaned text: ten
    characters, the first nine of them digits. *)
Lemma validate_isbn10_cleaned v :
  validate_isbn10 v = true ->
  exists a0 a1 a2 a3 a4 a5 a6 a7 a8 a9,
    clean_isbn v =
      Some (String a0 (String a1 (String a2 (String a3 (String a4
           (String a5 (String a6 (String a7 (String a8 (String a9 ""))))))))))
    /\ Forall (fun a => isdigit a = true) [a0; a1; a2; a3; a4; a5; a6; a7; a8].
Proof.
  unfold validate_isbn10.
  destruct (truthy v); simpl; [|discriminate].
  destruct (clean_isbn v) as [c|]; [|discriminate].
  destruct (len c =? 10) eqn:Hlen; simpl; [|discriminate].
  apply Z.eqb_eq in Hlen. unfold len in Hlen.
  do 10 (destruct c as [|? c]; [simpl in Hlen; lia|]).
  destruct c; [|simpl in Hlen; lia].
  intros H. do 10 eexists. split; [reflexivity|].
  unfold isbn10_check in H. cbn [fold_left seq getitem String.get bind] in H.
  repeat match type of H with
         | context [int_of_char ?a] =>
             let E := fresh "E" in
             destruct (int_of_char a) eqn:E;
             [apply int_of_char_ret in E as [E _]
             | try (cbn [bind] in H; discriminate H)]
         end; cbn [bind] in H.
  all: repeat constructor; try assumption.
Qed.

Lemma isdigit_int_of_char a :
  isdigit a = true -> exists d, int_of_char a = Ret d /\ 0 <= d <= 9.
Proof.
  intros H. destruct (int_of_char a) as [d|e] eqn:E.
  - exists d. split; [reflexivity|]. apply (int_of_char_ret _ _ E).
  - unfold int_of_char in E. rewrite H in E. discriminate.
Qed.

Ltac rewrite_digits :=
  repeat match goal with
         | H : int_of_char ?a = Ret _ |- context [int_of_char ?a] => rewrite H
         end.

(** C4. Every input [validate_isbn10] accepts is converted by
    [isbn10_to_isbn13] to a non-null text of 13 characters that begins
    with "978" and that [validate_isbn13] accepts; the conversion is a
    function of its input, so two calls agree; and
    [isbn10_to_isbn13("0134685997")] is ["9780134685991"]. *)
Theorem isbn10_to_isbn13_accepted :
  (forall v, validate_isbn10 v = true ->
     exists s, isbn10_to_isbn13 v = Ret (Some s)
               /\ String.length s = 13%nat
               /\ prefix 3 s = "978"
               /\ validate_isbn13 (PStr s) = true)
  /\ (forall v r1 r2,
        isbn10_to_isbn13 v = r1 -> isbn10_to_isbn13 v = r2 -> r1 = r2)
  /\ isbn10_to_isbn13 (PStr "0134685997") = Ret (Some "9780134685991").
Proof.
  split; [|split; [intros v r1 r2 <- <-; reflexivity | reflexivity]].
  intros v Hv.
  destruct (validate_isbn10_cleaned v Hv)
    as (a0 & a1 & a2 & a3 & a4 & a5 & a6 & a7 & a8 & a9 & Hc & Hd).
  repeat match goal with
         | H : Forall _ (_ :: _) |- _ => inversion H; subst; clear H
         | H : Forall _ [] |- _ => clear H
         end.
  repeat match goal with
         | H : isdigit ?a = true |- _ =>
             let d := fresh "d" in
             let E := fresh "E" in
             let R := fresh "R" in
             pose proof (isdigit_int_of_char a H) as (d & E & R); revert H
         end.
  intros.
  unfold isbn10_to_isbn13. rewrite Hv, Hc.
  cbn [negb bind prefix String.substring String.append digits_of
       list_ascii_of_string mapM].
  replace (int_of_char "9") with (Ret (A:=Z) 9) by reflexivity.
  replace (int_of_char "7") with (Ret (A:=Z) 7) by reflexivity.
  replace (int_of_char "8") with (Ret (A:=Z) 8) by reflexivity.
  rewrite_digits.
  cbn [bind weighted_sum12 fold_left seq nth_error Nat.even].
  match goal with
  | |- context [str_of_Z ?cd] =>
      set (check := cd);
      assert (0 <= check <= 9) as Hcheck
        by (subst check;
            match goal with
            | |- 0 <= ?x mod 10 <= 9 =>
                pose proof (Z.mod_pos_bound x 10); lia
            end)
  end.
  destruct (str_of_Z_digit check Hcheck) as (c & Hs & Hci).
  rewrite Hs. eexists. split; [reflexivity|].
  split; [reflexivity|]. split; [reflexivity|].
  destruct (int_of_char_ret _ _ Hci) as [Hcd _].
  unfold validate_isbn13.
  cbn [truthy String.eqb negb].
  rewrite clean_isbn_digits;
    [ | discriminate
      | cbn [all_str];
        repeat match goal with
               | H : isdigit ?a = true |- context [isdigit ?a] => rewrite H
               end; reflexivity ].
  cbn [len String.length Z.of_nat Z.eqb Pos.eqb Pos.of_succ_nat Pos.succ negb].
  unfold isbn13_check.
  cbn [digits_of list_ascii_of_string mapM].
  replace (int_of_char "9") with (Ret (A:=Z) 9) by reflexivity.
  replace (int_of_char "7") with (Ret (A:=Z) 7) by reflexivity.
  replace (int_of_char "8") with (Ret (A:=Z) 8) by reflexivity.
  rewrite_digits.
  cbn [bind weighted_sum12 fold_left seq nth_error Nat.even].
  fold check. rewrite Z.eqb_refl. reflexivity.
Qed.

Lemma isbn10_to_isbn13_accepted_witness :
  validate_isbn10 (PStr "0134685997") = true
  /\ exists s, isbn10_to_isbn13 (PStr "0134685997") = Ret (Some s)
               /\ String.length s = 13%nat
               /\ prefix 3 s = "978"
               /\ validate_isbn13 (PStr s) = true.
Proof.
  split; [reflexivity|].
  apply (proj1 isbn10_to_isbn13_accepted). reflexivity.
Defined.

(** ** Date normalisation *)

Lemma char_is_get s i c : char_is s i c = true <-> String.get i s = Some c.
Proof.
  unfold char_is. destruct (String.get i s) as [x|].
  - split.
    + intros H. apply Ascii.eqb_eq in H. now subst.
    + intros [= ->]. apply Ascii.eqb_refl.
  - split; discriminate.
Qed.

Lemma dash_not_space c : dash c = true -> isspace c = false.
Proof. unfold dash. intros H. apply Ascii.eqb_eq in H. now subst. Qed.

Lemma matches_length pat s :
  matches pat s = true -> String.length s = List.length pat.
Proof.
  revert s. induction pat as [|p pat IH]; intros [|c s] H;
    cbn [matches] in H; try discriminate H; [reflexivity|].
  apply andb_true_iff in H as [_ H]. cbn. f_equal. apply IH, H.
Qed.

(** Names the characters of a text of known shape. *)
Ltac explode s H :=
  let L := fresh "L" in
  pose proof (matches_length _ _ H) as L;
  repeat (destruct s as [|? s]; [cbn in L; discriminate L|]);
  destruct s; [|cbn in L; discriminate L];
  clear L.

(** Splits a shape hypothesis into one fact per character. *)
Ltac split_shape H :=
  cbn [matches] in H;
  repeat (let Hc := fresh "Hc" in
          apply andb_true_iff in H; destruct H as [Hc H]).

Ltac no_space_chars :=
  cbn [all_str];
  repeat match goal with
         | H : isdigit ?a = true |- context [isspace ?a] =>
             rewrite (isdigit_not_space a H)
         | H : dash ?a = true |- context [isspace ?a] =>
             rewrite (dash_not_space a H)
         end;
  reflexivity.

Ltac rewrite_dashes :=
  repeat match goal with
         | H : dash ?a = true |- _ =>
             apply Ascii.eqb_eq in H; subst a
         end.

Lemma normalizar_fecha_ymd s :
  shape_ymd s = true -> normalizar_fecha (PStr s) = PStr s.
Proof.
  unfold shape_ymd. intros H.
  explode s H.
  split_shape H.
  unfold normalizar_fecha. cbn [isna str].
  rewrite strip_no_space by no_space_chars.
  rewrite_dashes. reflexivity.
Qed.

Lemma normalizar_fecha_ym s :
  shape_ym s = true -> normalizar_fecha (PStr s) = PStr (s ++ "-01").
Proof.
  unfold shape_ym. intros H.
  explode s H.
  split_shape H.
  unfold normalizar_fecha. cbn [isna str].
  rewrite strip_no_space by no_space_chars.
  rewrite_dashes. reflexivity.
Qed.

Lemma normalizar_fecha_y s :
  shape_y s = true -> normalizar_fecha (PStr s) = PStr (s ++ "-01-01").
Proof.
  unfold shape_y. intros H.
  explode s H.
  split_shape H.
  unfold normalizar_fecha. cbn [isna str].
  rewrite strip_no_space by no_space_chars.
  unfold str_isdigit. cbn [all_str].
  repeat match goal with
         | H : isdigit ?a = true |- context [isdigit ?a] => rewrite H
         end.
  reflexivity.
Qed.

(** C5, as the specification words it, fails: ["abcd-ef-gh"] has none of
    the three literal shapes, yet it is returned, not null. *)
Lemma normalizar_fecha_spec_counterexample :
  normalizar_fecha_spec (PStr "abcd-ef-gh") = PNone
  /\ normalizar_fecha (PStr "abcd-ef-gh") = PStr "abcd-ef-gh"
  /\ normalizar_fecha (PStr "abcd-ef-gh")
     <> normalizar_fecha_spec (PStr "abcd-ef-gh").
Proof. repeat split; try reflexivity. discriminate. Qed.

(** C5, amended. A literal [YYYY-MM-DD] is returned unchanged, a literal
    [YYYY-MM] gets ["-01"] appended, a four-digit year gets ["-01-01"]
    appended, and null input gives null.  For any other input the outcome
    is decided on [t], the text of the input without its surrounding
    white space, by length and dash positions alone: [t] itself when it
    has 10 characters with dashes at positions 4 and 7, [t] and ["-01"]
    when it has 7 characters with a dash at position 4, [t] and
    ["-01-01"] when it is four digits, null otherwise. *)
Theorem normalizar_fecha_shapes :
  (forall s, shape_ymd s = true -> normalizar_fecha (PStr s) = PStr s)
  /\ (forall s, shape_ym s = true ->
        normalizar_fecha (PStr s) = PStr (s ++ "-01"))
  /\ (forall s, shape_y s = true ->
        normalizar_fecha (PStr s) = PStr (s ++ "-01-01"))
  /\ (forall v, isna v = true -> normalizar_fecha v = PNone)
  /\ (forall v, isna v = false ->
        let t := strip (str v) in
        let dashed10 := String.length t = 10%nat
                        /\ String.get 4 t = Some "-"%char
                        /\ String.get 7 t = Some "-"%char in
        let dashed7 := String.length t = 7%nat
                       /\ String.get 4 t = Some "-"%char in
        let year4 := String.length t = 4%nat /\ all_str isdigit t = true in
        (dashed10 -> normalizar_fecha v = PStr t)
        /\ (~ dashed10 -> dashed7 -> normalizar_fecha v = PStr (t ++ "-01"))
        /\ (~ dashed10 -> ~ dashed7 -> year4 ->
              normalizar_fecha v = PStr (t ++ "-01-01"))
        /\ (~ dashed10 -> ~ dashed7 -> ~ year4 -> normalizar_fecha v = PNone)).
Proof.
  split; [exact normalizar_fecha_ymd|].
  split; [exact normalizar_fecha_ym|].
  split; [exact normalizar_fecha_y|].
  split.
  { intros v Hv. unfold normalizar_fecha. rewrite Hv. reflexivity. }
  intros v Hv t dashed10 dashed7 year4.
  unfold normalizar_fecha. rewrite Hv. fold t.
  assert (((len t =? 10) && char_is t 4 "-" && char_is t 7 "-") = true
          <-> dashed10) as H10.
  { unfold dashed10, len. rewrite !andb_true_iff, Z.eqb_eq, !char_is_get.
    intuition lia. }
  assert (((len t =? 7) && char_is t 4 "-") = true <-> dashed7) as H7.
  { unfold dashed7, len. rewrite !andb_true_iff, Z.eqb_eq, !char_is_get.
    intuition lia. }
  assert (((len t =? 4) && str_isdigit t) = true <-> year4) as H4.
  { unfold year4, len, str_isdigit.
    rewrite !andb_true_iff, Z.eqb_eq, negb_true_iff.
    split.
    - intros [Hl [_ Hd]]. split; [lia|exact Hd].
    - intros [Hl Hd]. split; [lia|]. split; [|exact Hd].
      destruct t; [discriminate Hl|reflexivity]. }
  destruct ((len t =? 10) && char_is t 4 "-" && char_is t 7 "-") eqn:E10.
  - assert dashed10 as D by (apply H10; reflexivity).
    repeat split; intros; try reflexivity; contradiction.
  - assert (~ dashed10) as D by (intros D; apply H10 in D; discriminate).
    destruct ((len t =? 7) && char_is t 4 "-") eqn:E7.
    + assert dashed7 as D7 by (apply H7; reflexivity).
      repeat split; intros; try reflexivity; contradiction.
    + assert (~ dashed7) as D7 by (intros D7; apply H7 in D7; discriminate).
      destruct ((len t =? 4) && str_isdigit t) eqn:E4.
      * assert year4 as D4 by (apply H4; reflexivity).
        repeat split; intros; try reflexivity; contradiction.
      * assert (~ year4) as D4 by (intros D4; apply H4 in D4; discriminate).
        repeat split; intros; try reflexivity; contradiction.
Qed.

Lemma normalizar_fecha_shapes_witness :
  shape_ymd "2005-05-12" = true
  /\ normalizar_fecha (PStr "2005-05-12") = PStr "2005-05-12".
Proof.
  split; [reflexivity|].
  apply (proj1 normalizar_fecha_shapes). reflexivity.
Defined.

(** ** Currency codes *)

Lemma rstrip_last_not_space s c :
  last_char (rstrip s) = Some c -> isspace c = false.
Proof.
  induction s as [|a s IH]; cbn [rstrip]; [discriminate|].
  destruct (rstrip s) as [|b r] eqn:E.
  - destruct (isspace a) eqn:Ha; cbn; [discriminate|].
    intros [= <-]. exact Ha.
  - intros H. apply IH. exact H.
Qed.

Lemma strip_last_not_space s c :
  last_char (strip s) = Some c -> isspace c = false.
Proof. apply rstrip_last_not_space. Qed.

Lemma last_char_map f s :
  last_char (map_str f s) = option_map f (last_char s).
Proof.
  induction s as [|a s IH]; [reflexivity|].
  cbn [map_str]. destruct s as [|b s]; [reflexivity|].
  cbn [map_str last_char] in *. exact IH.
Qed.

Lemma upper_char_line_feed c : upper_char c = "010"%char -> c = "010"%char.
Proof.
  unfold upper_char. destruct (is_lower c) eqn:Hl; [|trivial].
  intros H. exfalso.
  unfold is_lower in Hl. apply andb_true_iff in Hl as [H1 H2].
  apply N.leb_le in H1. apply N.leb_le in H2.
  apply (f_equal N_of_ascii) in H.
  rewrite N_ascii_embedding in H by (unfold code in *; lia).
  cbn in H. unfold code in *. lia.
Qed.

(** After trimming and upper-casing no line feed ends the text, so the
    pattern matches three capitals and nothing else. *)
Lemma re_match_AZ3_stripped s :
  re_match_AZ3 (upper (strip s)) <> None
  <-> three_capitals (upper (strip s)) = true.
Proof.
  pose proof (strip_last_not_space s) as Hlast.
  unfold upper in *.
  assert (forall c, last_char (map_str upper_char (strip s)) = Some c ->
                    c <> "010"%char) as Hnl.
  { intros c Hc ->. rewrite last_char_map in Hc.
    destruct (last_char (strip s)) as [x|] eqn:Ex; [|discriminate].
    injection Hc as Hc. apply upper_char_line_feed in Hc. subst x.
    specialize (Hlast _ eq_refl). discriminate. }
  destruct (map_str upper_char (strip s)) as [|a [|b [|c r]]];
    cbn [re_match_AZ3 three_capitals matches].
  - split; congruence.
  - rewrite andb_false_r. split; congruence.
  - rewrite !andb_false_r. split; congruence.
  - destruct r as [|d r].
    + cbn [String.eqb orb]. rewrite !andb_true_r, <- andb_assoc.
      destruct (is_upper a && (is_upper b && is_upper c));
        split; congruence.
    + rewrite !andb_false_r.
      destruct (is_upper a && is_upper b && is_upper c
                && (String.eqb (String d r) ""
                    || String.eqb (String d r) (String "010" "")))
        eqn:E; [|split; congruence].
      exfalso. apply andb_true_iff in E as [_ E].
      cbn [String.eqb orb] in E.
      destruct (Ascii.eqb_spec d "010"); [|discriminate].
      destruct r; [|discriminate]. subst d.
      apply (Hnl "010"%char); reflexivity.
Qed.

(** C6, as the specification words it, fails: ["usd"] is not three
    uppercase letters and is not on the allow-list, yet the predicate
    accepts it. *)
Lemma currency_valid_spec_counterexample :
  obj_truthy (validate_iso4217_currency (PStr "usd")) = true
  /\ currency_valid_spec (PStr "usd") = false.
Proof. split; reflexivity. Qed.

(** C6, amended. The predicate returns a true value if and only if the
    value is not null and its text, trimmed of surrounding white space
    and upper-cased, is exactly three uppercase letters or a member of
    the allow-list. *)
Theorem validate_iso4217_currency_iff (currency : PyVal) :
  obj_truthy (validate_iso4217_currency currency) = true
  <-> isna currency = false
      /\ (three_capitals (upper (strip (str currency))) = true
          \/ In (upper (strip (str currency))) common_currencies).
Proof.
  unfold validate_iso4217_currency.
  destruct (isna currency); cbn [obj_truthy].
  { split; [discriminate|intros [H _]; discriminate]. }
  set (t := upper (strip (str currency))).
  destruct (existsb (String.eqb t) common_currencies) eqn:E; cbn [obj_truthy].
  - split; [|reflexivity]. intros _. split; [reflexivity|]. right.
    apply existsb_exists in E as (x & Hin & Hx).
    apply String.eqb_eq in Hx. now subst x.
  - pose proof (re_match_AZ3_stripped (str currency)) as Hre. fold t in Hre.
    destruct (re_match_AZ3 t) as [m|]; cbn [obj_truthy].
    + split; [|reflexivity]. intros _. split; [reflexivity|]. left.
      apply Hre. discriminate.
    + split; [discriminate|]. intros [_ [H|H]].
      * apply Hre in H. congruence.
      * exfalso. assert (existsb (String.eqb t) common_currencies = true) as C.
        { apply existsb_exists. exists t. split; [exact H|apply String.eqb_refl]. }
        congruence.
Qed.

Lemma validate_iso4217_currency_iff_witness :
  obj_truthy (validate_iso4217_currency (PStr " usd ")) = true.
Proof.
  apply (proj2 (validate_iso4217_currency_iff (PStr " usd "))).
  split; [reflexivity|]. left. reflexivity.
Defined.

(** ** Completeness of a column *)

Lemma has_column_index_of {C} name (df : DataFrame C) :
  has_column name df = true <-> exists i, index_of name (columns df) = Some i.
Proof.
  unfold has_column. induction (columns df) as [|c cols IH]; cbn.
  - split; [discriminate|]. intros [i Hi]. discriminate.
  - destruct (String.eqb name c); cbn.
    + split; [intros _; now exists O|reflexivity].
    + rewrite IH. split.
      * intros [i Hi]. exists (S i). now rewrite Hi.
      * intros [i Hi]. destruct (index_of name cols) as [j|]; [now exists j|].
        discriminate.
Qed.

Lemma has_column_false_index_of {C} name (df : DataFrame C) :
  has_column name df = false <-> index_of name (columns df) = None.
Proof.
  pose proof (has_column_index_of name df) as H.
  destruct (has_column name df), (index_of name (columns df)) as [i|].
  - split; discriminate.
  - destruct (proj1 H eq_refl). discriminate.
  - assert (false = true) by (apply H; now exists i). discriminate.
  - split; reflexivity.
Qed.

Lemma column_length {C} `{Cell C} (df : DataFrame C) name col :
  column df name = Ret col -> List.length col = nrows df.
Proof.
  unfold column. destruct (index_of name (columns df)); [|discriminate].
  intros [= <-]. apply length_map.
Qed.

Lemma count_notna_le {C} `{Cell C} (col : list C) :
  (count_notna col <= List.length col)%nat.
Proof. apply filter_length_le. Qed.

Lemma fraction_bounds (n t : nat) :
  (n <= t)%nat -> (0 < t)%nat ->
  (0 <= inject_Z (Z.of_nat n) / inject_Z (Z.of_nat t) * 100 <= 100)%Q.
Proof.
  intros Hn Ht.
  assert (0 < inject_Z (Z.of_nat t))%Q as Hpos.
  { change 0%Q with (inject_Z 0). rewrite <- Zlt_Qlt. lia. }
  assert (0 <= inject_Z (Z.of_nat n))%Q as Hn0.
  { change 0%Q with (inject_Z 0). rewrite <- Zle_Qle. lia. }
  assert (inject_Z (Z.of_nat n) <= inject_Z (Z.of_nat t))%Q as Hle.
  { rewrite <- Zle_Qle. lia. }
  assert (0 <= inject_Z (Z.of_nat n) / inject_Z (Z.of_nat t))%Q as H0.
  { apply Qle_shift_div_l; [exact Hpos|]. lra. }
  assert (inject_Z (Z.of_nat n) / inject_Z (Z.of_nat t) <= 1)%Q as H1.
  { apply Qle_shift_div_r; [exact Hpos|]. lra. }
  split; lra.
Qed.

Lemma calculate_completeness_absent {C} `{Cell C}
    (df : DataFrame C) (name : string) :
  has_column name df = false \/ nrows df = 0%nat ->
  calculate_completeness df name = Ret 0%Q.
Proof.
  unfold calculate_completeness. intros [Hc|Hz].
  - rewrite Hc. reflexivity.
  - destruct (has_column name df); cbn [negb]; [|reflexivity].
    rewrite Hz. reflexivity.
Qed.

Lemma calculate_completeness_present {C} `{Cell C}
    (df : DataFrame C) (name : string) :
  has_column name df = true -> nrows df <> 0%nat ->
  exists col,
    column df name = Ret col
    /\ calculate_completeness df name
       = Ret (inject_Z (Z.of_nat (count_notna col))
              / inject_Z (Z.of_nat (nrows df)) * 100)%Q.
Proof.
  intros Hc Hz. unfold calculate_completeness. rewrite Hc. cbn [negb].
  destruct (Nat.eqb_spec (nrows df) 0) as [E|_]; [contradiction|].
  apply has_column_index_of in Hc as [i Hi].
  assert (column df name = Ret (map (at_ i) (rows df))) as Hcol
    by (unfold column; now rewrite Hi).
  rewrite Hcol. cbn [bind]. eexists. split; [reflexivity|].
  unfold truediv. destruct (nrows df); [contradiction|reflexivity].
Qed.

Lemma calculate_completeness_returns {C} `{Cell C}
    (df : DataFrame C) (name : string) :
  exists q, calculate_completeness df name = Ret q /\ (0 <= q <= 100)%Q.
Proof.
  destruct (has_column name df) eqn:Hc.
  - destruct (Nat.eq_dec (nrows df) 0) as [Hz|Hz].
    + rewrite calculate_completeness_absent by (right; exact Hz).
      exists 0%Q. split; [reflexivity|]. split; lra.
    + destruct (calculate_completeness_present df name Hc Hz)
        as (col & Hcol & ->).
      eexists. split; [reflexivity|].
      apply fraction_bounds; [|lia].
      rewrite <- (column_length df name col Hcol). apply count_notna_le.
  - rewrite calculate_completeness_absent by (left; exact Hc).
    exists 0%Q. split; [reflexivity|]. split; lra.
Qed.

Lemma count_notna_non_null_count {C} `{Cell C} (col : list C) :
  count_notna col = non_null_count col.
Proof.
  unfold count_notna. induction col as [|v col IH]; [reflexivity|].
  cbn [filter non_null_count]. destruct (cell_isna v); cbn [negb List.length];
    now rewrite IH.
Qed.

Lemma non_null_count_le {C} `{Cell C} (col : list C) :
  (non_null_count col <= List.length col)%nat.
Proof.
  induction col as [|v col IH]; [reflexivity|].
  cbn [non_null_count List.length]. destruct (cell_isna v); lia.
Qed.

Lemma non_null_count_all {C} `{Cell C} (col : list C) :
  non_null_count col = List.length col
  <-> Forall (fun v => cell_isna v = false) col.
Proof.
  induction col as [|v col IH]; [split; [constructor|reflexivity]|].
  cbn [non_null_count List.length].
  pose proof (non_null_count_le col) as Hle.
  destruct (cell_isna v) eqn:E.
  - split; [lia|]. intros HF. inversion HF; subst. congruence.
  - split.
    + intros Hn. constructor; [exact E|]. apply IH. lia.
    + intros HF. inversion HF; subst. f_equal. now apply IH.
Qed.

Lemma non_null_count_none {C} `{Cell C} (col : list C) :
  non_null_count col = 0%nat <-> Forall (fun v => cell_isna v = true) col.
Proof.
  induction col as [|v col IH]; [split; [constructor|reflexivity]|].
  cbn [non_null_count]. destruct (cell_isna v) eqn:E.
  - split.
    + intros Hn. constructor; [exact E|]. now apply IH.
    + intros HF. inversion HF; subst. now apply IH.
  - split; [discriminate|]. intros HF. inversion HF; subst. congruence.
Qed.

Lemma fraction_full (n t : nat) :
  (0 < t)%nat ->
  (inject_Z (Z.of_nat n) / inject_Z (Z.of_nat t) * 100 == 100)%Q <-> n = t.
Proof.
  intros Ht. destruct (Z.of_nat t) as [|p|p] eqn:Et; try lia.
  unfold Qeq, Qdiv, Qmult, Qinv, inject_Z. cbn [Qnum Qden].
  rewrite Pos.mul_1_l, Pos.mul_1_r, <- Et. lia.
Qed.

Lemma fraction_zero (n t : nat) :
  (0 < t)%nat ->
  (inject_Z (Z.of_nat n) / inject_Z (Z.of_nat t) * 100 == 0)%Q <-> n = 0%nat.
Proof.
  intros Ht. destruct (Z.of_nat t) as [|p|p] eqn:Et; try lia.
  unfold Qeq, Qdiv, Qmult, Qinv, inject_Z. cbn [Qnum Qden]. lia.
Qed.

(** The value on a frame that has the column and at least one row, with
    the non-null cells counted one at a time. *)
Lemma calculate_completeness_fraction {C} `{Cell C}
    (df : DataFrame C) (name : string) :
  has_column name df = true -> nrows df <> 0%nat ->
  exists col,
    column df name = Ret col
    /\ List.length col = nrows df
    /\ calculate_completeness df name
       = Ret (inject_Z (Z.of_nat (non_null_count col))
              / inject_Z (Z.of_nat (nrows df)) * 100)%Q
    /\ (forall q,
           calculate_completeness df name = Ret q ->
           ((q == 100)%Q <-> Forall (fun v => cell_isna v = false) col)
           /\ ((q == 0)%Q <-> Forall (fun v => cell_isna v = true) col)).
Proof.
  intros Hc Hz.
  destruct (calculate_completeness_present df name Hc Hz) as (col & Hcol & E).
  pose proof (column_length df name col Hcol) as Hlen.
  rewrite count_notna_non_null_count in E.
  exists col. split; [exact Hcol|]. split; [exact Hlen|].
  split; [exact E|].
  intros q Hq. rewrite E in Hq. injection Hq as <-. split.
  - rewrite fraction_full by lia. rewrite <- Hlen. apply non_null_count_all.
  - rewrite fraction_zero by lia. apply non_null_count_none.
Qed.

(** C10. [calculate_completeness] always returns, and never divides by
    zero: it gives 0.0 when the column is absent or the frame has no row,
    and otherwise the fraction of non-null cells of the column, counted
    one cell at a time, times 100; the value lies in [0, 100], is 100
    exactly when no cell of the column is null, and is 0 exactly when
    every cell is. *)
Theorem calculate_completeness_total {C} `{Cell C}
    (df : DataFrame C) (name : string) :
  (has_column name df = false \/ nrows df = 0%nat ->
     calculate_completeness df name = Ret 0%Q)
  /\ (has_column name df = true -> nrows df <> 0%nat ->
        exists col,
          column df name = Ret col
          /\ List.length col = nrows df
          /\ calculate_completeness df name
             = Ret (inject_Z (Z.of_nat (non_null_count col))
                    / inject_Z (Z.of_nat (nrows df)) * 100)%Q
          /\ (forall q,
                 calculate_completeness df name = Ret q ->
                 ((q == 100)%Q <-> Forall (fun v => cell_isna v = false) col)
                 /\ ((q == 0)%Q <-> Forall (fun v => cell_isna v = true) col)))
  /\ (exists q, calculate_completeness df name = Ret q /\ (0 <= q <= 100)%Q).
Proof.
  split; [apply calculate_completeness_absent|].
  split; [apply calculate_completeness_fraction|].
  apply calculate_completeness_returns.
Qed.

Lemma calculate_completeness_total_witness :
  exists q,
    calculate_completeness samples.cuatro_filas "isbn13" = Ret q
    /\ (q == 75)%Q
    /\ ~ (q == 100)%Q
    /\ ~ Forall (fun v => isna v = false) [PStr "9780134685991"; PNone;
                                           PStr "9780306406157";
                                           PStr "9781861972712"].
Proof.
  destruct (proj1 (proj2 (calculate_completeness_total
                            samples.cuatro_filas "isbn13")))
    as (col & Hcol & Hlen & Hq & Hiff).
  - reflexivity.
  - discriminate.
  - vm_compute in Hcol. injection Hcol as <-.
    eexists. split; [exact Hq|]. split; [reflexivity|].
    assert (~ Forall (fun v => isna v = false)
                     [PStr "9780134685991"; PNone; PStr "9780306406157";
                      PStr "9781861972712"]) as Hmixed.
    { intros HF. inversion HF as [|? ? _ HF']; subst.
      inversion HF' as [|? ? Hn _]; subst. discriminate Hn. }
    split; [|exact Hmixed].
    intros H100. apply Hmixed. apply (proj1 (proj1 (Hiff _ Hq)) H100).
Defined.

(** ** The price assertion of the quality gate *)

Lemma column_frame_of_series filas name i :
  filas <> [] ->
  index_of name consolidated_columns = Some i ->
  column (frame_of_series filas) name
  = Ret (map (fun b => at_ i (series_of b)) filas).
Proof.
  intros Hne Hi. unfold column, frame_of_series. cbn [columns rows].
  destruct filas as [|b filas]; [contradiction|].
  rewrite Hi, map_map. reflexivity.
Qed.

Lemma mapM_price_of filas :
  (forall b, In b filas -> notna (precio b) = true ->
             number_of (precio b) <> None) ->
  mapM price_of
       (filter (fun c => negb (cell_isna c))
               (map (fun b => Scalar (precio b)) filas))
  = Ret (present_prices filas).
Proof.
  induction filas as [|b filas IH]; intros Hnum; [reflexivity|].
  specialize (IH (fun b' Hin => Hnum b' (or_intror Hin))).
  cbn [map filter].
  change (negb (cell_isna (Scalar (precio b)))) with (notna (precio b)).
  change (present_prices (b :: filas))
    with ((if notna (precio b)
           then match number_of (precio b) with
                | Some q => [q]
                | None => []
                end
           else []) ++ present_prices filas)%list.
  destruct (notna (precio b)) eqn:Hp.
  - cbn [mapM price_of bind]. rewrite IH.
    destruct (number_of (precio b)) as [q|] eqn:Hq.
    + reflexivity.
    + exfalso. apply (Hnum b); [now left|exact Hp|exact Hq].
  - exact IH.
Qed.

Lemma in_present_prices filas q :
  In q (present_prices filas)
  <-> exists b, In b filas /\ notna (precio b) = true
                /\ number_of (precio b) = Some q.
Proof.
  unfold present_prices. rewrite in_flat_map. split.
  - intros (b & Hin & Hq). exists b. split; [exact Hin|].
    destruct (notna (precio b)); [|contradiction].
    destruct (number_of (precio b)) as [p|]; [|contradiction].
    destruct Hq as [->|[]]. split; reflexivity.
  - intros (b & Hin & Hp & Hq). exists b. split; [exact Hin|].
    rewrite Hp, Hq. now left.
Qed.

Lemma qmin_ge c a b : (c <= qmin a b)%Q <-> (c <= a)%Q /\ (c <= b)%Q.
Proof.
  unfold qmin. destruct (Qle_bool a b) eqn:E.
  - apply Qle_bool_iff in E. split; [intros; split; lra|tauto].
  - assert (~ (a <= b)%Q) as N
      by (intros N; apply Qle_bool_iff in N; congruence).
    split; [intros; split; lra|tauto].
Qed.

Lemma qmax_le c a b : (qmax a b <= c)%Q <-> (a <= c)%Q /\ (b <= c)%Q.
Proof.
  unfold qmax. destruct (Qle_bool a b) eqn:E.
  - apply Qle_bool_iff in E. split; [intros; split; lra|tauto].
  - assert (~ (a <= b)%Q) as N
      by (intros N; apply Qle_bool_iff in N; congruence).
    split; [intros; split; lra|tauto].
Qed.

Lemma fold_qmin_ge c xs x :
  (c <= fold_left qmin xs x)%Q <-> forall y, In y (x :: xs) -> (c <= y)%Q.
Proof.
  revert x. induction xs as [|z xs IH]; intros x; cbn [fold_left].
  - split; [intros H y [<-|[]]; exact H|intros H; apply H; now left].
  - rewrite IH. split.
    + intros H y [<-|[<-|Hy]].
      * apply (qmin_ge c x z), H. now left.
      * apply (qmin_ge c x z), H. now left.
      * apply H. now right.
    + intros H y [<-|Hy].
      * apply qmin_ge. split; apply H; [now left|right; now left].
      * apply H. right. now right.
Qed.

Lemma fold_qmax_le c xs x :
  (fold_left qmax xs x <= c)%Q <-> forall y, In y (x :: xs) -> (y <= c)%Q.
Proof.
  revert x. induction xs as [|z xs IH]; intros x; cbn [fold_left].
  - split; [intros H y [<-|[]]; exact H|intros H; apply H; now left].
  - rewrite IH. split.
    + intros H y [<-|[<-|Hy]].
      * apply (qmax_le c x z), H. now left.
      * apply (qmax_le c x z), H. now left.
      * apply H. now right.
    + intros H y [<-|Hy].
      * apply qmax_le. split; apply H; [now left|right; now left].
      * apply H. right. now right.
Qed.

(** What [assert_precios] does on a consolidated set, in terms of the
    prices that are present. *)
Lemma assert_precios_present filas :
  filas <> [] ->
  (forall b, In b filas -> notna (precio b) = true ->
             number_of (precio b) <> None) ->
  (assert_precios (frame_of_series filas) = Ret tt
   /\ forall q, In q (present_prices filas) -> (0 <= q <= 1000)%Q)
  \/ (exists lo hi,
        assert_precios (frame_of_series filas)
        = Raise (AssertionError (PreciosFueraDeRango lo hi))
        /\ ~ forall q, In q (present_prices filas) -> (0 <= q <= 1000)%Q).
Proof.
  intros Hne Hnum. unfold assert_precios.
  rewrite (column_frame_of_series filas "precio" 15 Hne eq_refl).
  cbn [bind].
  change (map (fun b => at_ 15 (series_of b)) filas)
    with (map (fun b => Scalar (precio b)) filas).
  pose proof (mapM_price_of filas Hnum) as HM.
  destruct (filter (fun c => negb (cell_isna c))
                   (map (fun b => Scalar (precio b)) filas)) as [|c cs] eqn:Ef.
  - left. split; [reflexivity|]. cbn in HM. injection HM as <-. intros q [].
  - cbn [List.length Nat.ltb Nat.leb]. rewrite HM. cbn [bind].
    destruct (present_prices filas) as [|x xs] eqn:Ep.
    + left. split; [reflexivity|]. intros q [].
    + unfold assert_.
      destruct (Qle_bool 0 (fold_left qmin xs x)
                && Qle_bool (fold_left qmax xs x) 1000) eqn:E.
      * left. split; [reflexivity|].
        apply andb_true_iff in E as [E1 E2].
        apply Qle_bool_iff in E1. apply Qle_bool_iff in E2.
        intros q Hq. split.
        -- apply (proj1 (fold_qmin_ge 0 xs x) E1 q Hq).
        -- apply (proj1 (fold_qmax_le 1000 xs x) E2 q Hq).
      * right. do 2 eexists. split; [reflexivity|].
        intros Hall.
        assert (Qle_bool 0 (fold_left qmin xs x) = true) as E1.
        { apply Qle_bool_iff, fold_qmin_ge. intros y Hy. apply Hall, Hy. }
        assert (Qle_bool (fold_left qmax xs x) 1000 = true) as E2.
        { apply Qle_bool_iff, fold_qmax_le. intros y Hy. apply Hall, Hy. }
        rewrite E1, E2 in E. discriminate.
Qed.




(** ** Keys, sorting and counting *)

Lemma key_eqb_eq a b : key_eqb a b = true <-> a = b.
Proof.
  destruct a as [[pn pd]| s |], b as [[qn qd]| t |]; cbn;
    try (split; [discriminate|intros [=]]); try tauto.
  - rewrite andb_true_iff, Z.eqb_eq, Pos.eqb_eq. split.
    + intros [-> ->]. reflexivity.
    + intros [= -> ->]. split; reflexivity.
  - rewrite String.eqb_eq. split; [intros ->; reflexivity|intros [= ->]; reflexivity].
Qed.

Lemma key_eqb_refl a : key_eqb a a = true.
Proof. apply key_eqb_eq. reflexivity. Qed.

Lemma key_eqb_neq a b : key_eqb a b = false <-> a <> b.
Proof.
  pose proof (key_eqb_eq a b) as H. destruct (key_eqb a b).
  - split; [discriminate|]. intros N. exfalso. apply N, H. reflexivity.
  - split; [|reflexivity]. intros _ E. apply H in E. discriminate.
Qed.

Lemma key_eqb_sym a b : key_eqb a b = key_eqb b a.
Proof.
  destruct (key_eqb a b) eqn:E.
  - apply key_eqb_eq in E. subst. symmetry. apply key_eqb_refl.
  - apply key_eqb_neq in E. symmetry. apply key_eqb_neq. congruence.
Qed.

Lemma unique_keys_In k l : In k (unique_keys l) <-> In k l.
Proof.
  induction l as [|x l IH]; cbn [unique_keys]; [tauto|].
  cbn [In]. rewrite filter_In, IH, negb_true_iff, key_eqb_neq.
  destruct (key_eqb x k) eqn:E.
  - apply key_eqb_eq in E. tauto.
  - apply key_eqb_neq in E. tauto.
Qed.

Lemma unique_keys_NoDup l : NoDup (unique_keys l).
Proof.
  induction l as [|x l IH]; cbn [unique_keys]; constructor.
  - rewrite filter_In, negb_true_iff, key_eqb_neq. tauto.
  - apply NoDup_filter, IH.
Qed.

Lemma insert_key_perm k l : Permutation (insert_key k l) (k :: l).
Proof.
  induction l as [|x l IH]; cbn [insert_key]; [reflexivity|].
  destruct (key_leb k x); [reflexivity|].
  rewrite IH. apply perm_swap.
Qed.

Lemma sort_keys_perm l : Permutation (sort_keys l) l.
Proof.
  induction l as [|x l IH]; cbn [sort_keys]; [reflexivity|].
  rewrite insert_key_perm. now constructor.
Qed.

Lemma group_keys_In k l : In k (sort_keys (unique_keys l)) <-> In k l.
Proof.
  split; intros H.
  - apply unique_keys_In.
    apply (Permutation_in _ (sort_keys_perm (unique_keys l)) H).
  - apply (Permutation_in _ (Permutation_sym (sort_keys_perm (unique_keys l)))).
    apply unique_keys_In, H.
Qed.

Lemma group_keys_NoDup l : NoDup (sort_keys (unique_keys l)).
Proof.
  apply (Permutation_NoDup (l := unique_keys l)).
  - symmetry. apply sort_keys_perm.
  - apply unique_keys_NoDup.
Qed.

Lemma list_sum_cons x l : list_sum (x :: l) = (x + list_sum l)%nat.
Proof. reflexivity. Qed.

Lemma list_sum_add {A} (f g : A -> nat) l :
  list_sum (map (fun x => f x + g x)%nat l)
  = (list_sum (map f l) + list_sum (map g l))%nat.
Proof.
  induction l as [|x l IH]; [reflexivity|].
  cbn [map]. rewrite !list_sum_cons, IH. lia.
Qed.

Lemma list_sum_le {A} (f g : A -> nat) l :
  (forall x, In x l -> (f x <= g x)%nat) ->
  (list_sum (map f l) <= list_sum (map g l))%nat.
Proof.
  induction l as [|x l IH]; [reflexivity|]. intros H.
  cbn [map]. rewrite !list_sum_cons.
  pose proof (H x (or_introl eq_refl)).
  pose proof (IH (fun y Hy => H y (or_intror Hy))). lia.
Qed.

Lemma length_flat_map_sum {A B} (g : A -> list B) l :
  List.length (flat_map g l) = list_sum (map (fun x => List.length (g x)) l).
Proof.
  induction l as [|x l IH]; [reflexivity|].
  cbn [flat_map map]. rewrite list_sum_cons, length_app, IH. reflexivity.
Qed.

Lemma list_sum_zero {A} (l : list A) :
  list_sum (map (fun _ => 0%nat) l) = 0%nat.
Proof. induction l as [|x l IH]; [reflexivity|]. cbn [map]. now rewrite list_sum_cons. Qed.

(** One key of a duplicate-free list matches a given key. *)
Lemma indicator_sum x ks :
  NoDup ks -> In x ks ->
  list_sum (map (fun k => if key_eqb x k then 1 else 0)%nat ks) = 1%nat.
Proof.
  induction 1 as [|k ks Hk Hnd IH]; cbn [In]; [tauto|].
  cbn [map]. rewrite list_sum_cons.
  intros [->|Hin].
  - rewrite key_eqb_refl.
    assert (list_sum (map (fun k => if key_eqb x k then 1 else 0)%nat ks) = 0%nat)
      as ->; [|reflexivity].
    clear IH Hnd. induction ks as [|y ks IH]; [reflexivity|].
    cbn [map]. rewrite list_sum_cons.
    destruct (key_eqb x y) eqn:E.
    + apply key_eqb_eq in E. subst. exfalso. apply Hk. now left.
    + rewrite IH; [reflexivity|]. intros H. apply Hk. now right.
  - destruct (key_eqb x k) eqn:E.
    + apply key_eqb_eq in E. subst. contradiction.
    + rewrite (IH Hin). reflexivity.
Qed.

(** The groups of a duplicate-free list of keys that covers a frame
    partition its rows. *)
Lemma rows_with_key_partition i rs ks :
  NoDup ks ->
  (forall r, In r rs -> In (key_of (at_ i r)) ks) ->
  list_sum (map (fun k => List.length (rows_with_key i k rs)) ks)
  = List.length rs.
Proof.
  intros Hnd. induction rs as [|r rs IH]; intros Hcov.
  - apply (list_sum_zero ks).
  - rewrite (map_ext
               (fun k => List.length (rows_with_key i k (r :: rs)))
               (fun k => (if key_eqb (key_of (at_ i r)) k then 1 else 0)
                         + List.length (rows_with_key i k rs))%nat).
    + rewrite list_sum_add, indicator_sum, IH; auto.
      * intros r' Hr'. apply Hcov. now right.
      * apply Hcov. now left.
    + intros k. unfold rows_with_key. cbn [filter].
      destruct (key_eqb (key_of (at_ i r)) k); reflexivity.
Qed.

Lemma rows_with_key_count i k rs :
  List.length (rows_with_key i k rs) = count_key k (keys_at i rs).
Proof.
  unfold rows_with_key, count_key, keys_at.
  induction rs as [|r rs IH]; [reflexivity|].
  cbn [map filter]. rewrite (key_eqb_sym k).
  destruct (key_eqb (key_of (at_ i r)) k); cbn [List.length]; rewrite IH;
    reflexivity.
Qed.

Lemma rows_with_key_nonempty i rs r :
  In r rs -> rows_with_key i (key_of (at_ i r)) rs <> [].
Proof.
  intros Hin E.
  assert (In r (rows_with_key i (key_of (at_ i r)) rs)) as H.
  { apply filter_In. split; [exact Hin|apply key_eqb_refl]. }
  rewrite E in H. exact H.
Qed.

(** ** The outer merge *)

Lemma index_of_lt name cols i :
  index_of name cols = Some i -> (i < List.length cols)%nat.
Proof.
  revert i. induction cols as [|c cols IH]; cbn; [discriminate|].
  intros i. destruct (String.eqb name c).
  - intros [= <-]. lia.
  - destruct (index_of name cols) as [j|]; [|discriminate].
    intros [= <-]. specialize (IH j eq_refl). lia.
Qed.

Lemma index_of_map_app (f : string -> string) key cols rest i :
  (forall c, c <> key -> f c <> key) -> f key = key ->
  index_of key cols = Some i ->
  index_of key (map f cols ++ rest) = Some i.
Proof.
  intros Hne Hkey. revert i.
  induction cols as [|c cols IH]; cbn [index_of map app]; [discriminate|].
  intros i. destruct (String.eqb_spec key c) as [<-|Hc].
  - rewrite Hkey, String.eqb_refl. trivial.
  - destruct (String.eqb_spec key (f c)) as [E|_].
    + exfalso. apply (Hne c); congruence.
    + destruct (index_of key cols) as [j|]; [|discriminate].
      intros [= <-]. rewrite (IH j eq_refl). reflexivity.
Qed.

Lemma last_char_app s1 s2 :
  s2 <> "" -> last_char (s1 ++ s2) = last_char s2.
Proof.
  intros Hne. induction s1 as [|c s1 IH]; [reflexivity|].
  cbn [String.append last_char]. rewrite <- IH.
  destruct (s1 ++ s2) eqn:E; [|reflexivity].
  destruct s1; cbn in E; [contradiction|discriminate].
Qed.

Lemma suffixed_gr_not_key others c :
  c <> "book_id" -> suffixed "book_id" others "_gr" c <> "book_id".
Proof.
  intros Hc. unfold suffixed.
  destruct (negb (String.eqb c "book_id") && existsb (String.eqb c) others);
    [|exact Hc].
  intros E. apply (f_equal last_char) in E.
  rewrite last_char_app in E by discriminate. discriminate.
Qed.

Lemma suffixed_key key others suffix : suffixed key others suffix key = key.
Proof. unfold suffixed. rewrite String.eqb_refl. reflexivity. Qed.

Lemma length_flat_map_const {A B} (g : A -> list B) l n :
  (forall x, List.length (g x) = n) ->
  List.length (flat_map g l) = (List.length l * n)%nat.
Proof.
  intros H. induction l as [|x l IH]; [reflexivity|].
  cbn [flat_map List.length]. rewrite length_app, H, IH. lia.
Qed.

Lemma merge_rows_for_key_length kl kr nl nr lrows rrows k :
  List.length (merge_rows_for_key kl kr nl nr lrows rrows k)
  = merge_count (List.length (rows_with_key kl k lrows))
                (List.length (rows_with_key kr k rrows)).
Proof.
  unfold merge_rows_for_key.
  destruct (rows_with_key kl k lrows) as [|l ls];
    destruct (rows_with_key kr k rrows) as [|r rs].
  - reflexivity.
  - rewrite length_map. reflexivity.
  - rewrite length_map. reflexivity.
  - rewrite (length_flat_map_const _ _ (List.length (r :: rs)))
      by (intros; apply length_map).
    reflexivity.
Qed.

Lemma merge_count_ge_l a b : (a <= merge_count a b)%nat.
Proof. destruct a, b; cbn [merge_count]; nia. Qed.

Lemma merge_count_ge_r a b : (b <= merge_count a b)%nat.
Proof. destruct a, b; cbn [merge_count]; nia. Qed.

Lemma merge_count_le_sum a b :
  (a <= 1)%nat \/ (b <= 1)%nat -> (merge_count a b <= a + b)%nat.
Proof. destruct a, b; cbn [merge_count]; nia. Qed.

Lemma at_set_nth i v (r : list PyVal) :
  (i < List.length r)%nat -> at_ i (set_nth i v r) = v.
Proof.
  unfold at_. revert i. induction r as [|x r IH]; intros [|i] H;
    cbn in *; try lia; [reflexivity|]. apply IH. lia.
Qed.

Lemma at_app_l i (r r' : list PyVal) :
  (i < List.length r)%nat -> at_ i (r ++ r') = at_ i r.
Proof. intros H. unfold at_. now apply app_nth1. Qed.

Lemma length_set_nth {C} i (v : C) r :
  List.length (set_nth i v r) = List.length r.
Proof.
  revert i. induction r as [|x r IH]; intros [|i]; cbn; auto.
Qed.

(** Every key of either side is the key of some merged row. *)
Lemma merge_rows_for_key_has_key kl kr nl nr lrows rrows k :
  (kl < nl)%nat ->
  Forall (fun r => List.length r = nl) lrows ->
  In k (keys_at kl lrows) \/ In k (keys_at kr rrows) ->
  exists row,
    In row (merge_rows_for_key kl kr nl nr lrows rrows k)
    /\ key_of (at_ kl row) = k.
Proof.
  intros Hkl Hwf Hk. unfold merge_rows_for_key.
  assert (forall l, In l (rows_with_key kl k lrows) ->
                    (kl < List.length l)%nat /\ key_of (at_ kl l) = k) as Hl.
  { intros l Hin. apply filter_In in Hin as [Hin E].
    apply key_eqb_eq in E. rewrite Forall_forall in Hwf.
    rewrite (Hwf l Hin). auto. }
  assert (forall r, In r (rows_with_key kr k rrows) -> key_of (at_ kr r) = k)
    as Hr.
  { intros r Hin. apply filter_In in Hin as [_ E]. now apply key_eqb_eq. }
  destruct (rows_with_key kl k lrows) as [|l ls] eqn:El;
    destruct (rows_with_key kr k rrows) as [|r rs] eqn:Er.
  - exfalso. unfold keys_at in Hk.
    destruct Hk as [Hk|Hk]; apply in_map_iff in Hk as (x & Hx & Hin).
    + apply (rows_with_key_nonempty kl lrows x Hin). now rewrite Hx.
    + apply (rows_with_key_nonempty kr rrows x Hin). now rewrite Hx.
  - eexists. split; [left; reflexivity|].
    rewrite at_app_l by (rewrite length_set_nth, repeat_length; exact Hkl).
    rewrite at_set_nth by (rewrite repeat_length; exact Hkl).
    apply Hr. now left.
  - destruct (Hl l (or_introl eq_refl)) as [Hlen Hkey].
    eexists. split; [left; reflexivity|].
    rewrite at_app_l by exact Hlen. exact Hkey.
  - destruct (Hl l (or_introl eq_refl)) as [Hlen Hkey].
    eexists. split; [cbn [flat_map map]; left; reflexivity|].
    rewrite at_app_l by exact Hlen. exact Hkey.
Qed.

Lemma book_ids_index df i :
  index_of "book_id" (columns df) = Some i ->
  book_ids df = Ret (keys_at i (rows df)).
Proof.
  intros Hi. unfold book_ids, column, Exc_map. rewrite Hi. cbn [bind].
  unfold keys_at. rewrite map_map. reflexivity.
Qed.

Lemma book_ids_inv df ks :
  book_ids df = Ret ks ->
  exists i, index_of "book_id" (columns df) = Some i /\ ks = keys_at i (rows df).
Proof.
  unfold book_ids, column, Exc_map.
  destruct (index_of "book_id" (columns df)) as [i|]; [|discriminate].
  cbn [bind]. intros [= <-]. exists i. split; [reflexivity|].
  unfold keys_at. rewrite map_map. reflexivity.
Qed.

(** C3, as the specification words it, fails: with one key carried by two
    rows of the first set and three rows of the second, the merge gives
    six rows, more than the five of the two sets together. *)
Lemma merge_completeness_spec_counterexample :
  ~ merge_completeness_spec samples.repetidos_gr samples.repetidos_gb.
Proof.
  intros (m & ka & kb & km & Hm & _ & _ & _ & _ & _ & Hupper).
  vm_compute in Hm. injection Hm as <-.
  vm_compute in Hupper. lia.
Qed.

(** C3, amended. For two record sets with canonical keys assigned, the
    merge returns a set in which every key present in either input is the
    key of at least one row, and whose row count is at least
    [max(|A|, |B|)]; the count is at most [|A| + |B|] when no key is
    carried by more than one row on both sides at once. *)
Theorem consolidar_fuentes_complete (A B : DataFrame PyVal) (ka kb : list Key) :
  wf A ->
  book_ids A = Ret ka ->
  book_ids B = Ret kb ->
  exists m km,
    consolidar_fuentes A B = Ret m
    /\ book_ids m = Ret km
    /\ (forall k, In k ka \/ In k kb -> In k km)
    /\ (Nat.max (nrows A) (nrows B) <= nrows m)%nat
    /\ ((forall k, (count_key k ka <= 1)%nat \/ (count_key k kb <= 1)%nat) ->
        (nrows m <= nrows A + nrows B)%nat).
Proof.
  intros Hwf HA HB.
  apply book_ids_inv in HA as (kl & Hkl & ->).
  apply book_ids_inv in HB as (kr & Hkr & ->).
  unfold consolidar_fuentes, merge_outer. rewrite Hkl, Hkr.
  set (keys := sort_keys (unique_keys
                 (keys_at kl (rows A) ++ keys_at kr (rows B))%list)).
  set (per_key := merge_rows_for_key kl kr (List.length (columns A))
                    (List.length (columns B)) (rows A) (rows B)).
  eexists. eexists. split; [reflexivity|].
  assert (index_of "book_id"
            (merged_columns "book_id" "_gr" "_gb" kr (columns A) (columns B))
          = Some kl) as Hkm.
  { unfold merged_columns. apply index_of_map_app.
    - apply suffixed_gr_not_key.
    - apply suffixed_key.
    - exact Hkl. }
  split; [apply book_ids_index; cbn [columns]; exact Hkm|].
  cbn [rows]. unfold nrows. cbn [rows].
  assert (forall k, In k keys
                    <-> In k (keys_at kl (rows A)) \/ In k (keys_at kr (rows B)))
    as Hkeys.
  { intros k. unfold keys. rewrite group_keys_In. apply in_app_iff. }
  assert (NoDup keys) as Hnd by apply group_keys_NoDup.
  assert (list_sum (map (fun k => List.length (rows_with_key kl k (rows A))) keys)
          = List.length (rows A)) as HsumA.
  { apply rows_with_key_partition; [exact Hnd|].
    intros r Hr. apply Hkeys. left. unfold keys_at.
    apply in_map_iff. now exists r. }
  assert (list_sum (map (fun k => List.length (rows_with_key kr k (rows B))) keys)
          = List.length (rows B)) as HsumB.
  { apply rows_with_key_partition; [exact Hnd|].
    intros r Hr. apply Hkeys. right. unfold keys_at.
    apply in_map_iff. now exists r. }
  assert (List.length (flat_map per_key keys)
          = list_sum (map (fun k =>
                merge_count (List.length (rows_with_key kl k (rows A)))
                            (List.length (rows_with_key kr k (rows B)))) keys))
    as Hlen.
  { rewrite length_flat_map_sum. apply f_equal, map_ext.
    intros k. apply merge_rows_for_key_length. }
  split; [|split].
  - intros k Hk.
    destruct (merge_rows_for_key_has_key kl kr (List.length (columns A))
                (List.length (columns B)) (rows A) (rows B) k)
      as (row & Hrow & Hkey); [eapply index_of_lt, Hkl|exact Hwf|exact Hk|].
    unfold keys_at. apply in_map_iff. exists row. split; [exact Hkey|].
    apply in_flat_map. exists k. split; [apply Hkeys, Hk|exact Hrow].
  - rewrite Hlen. apply Nat.max_lub.
    + rewrite <- HsumA. apply list_sum_le. intros; apply merge_count_ge_l.
    + rewrite <- HsumB. apply list_sum_le. intros; apply merge_count_ge_r.
  - intros Hone. rewrite Hlen, <- HsumA, <- HsumB, <- list_sum_add.
    apply list_sum_le. intros k _. apply merge_count_le_sum.
    rewrite !rows_with_key_count. apply Hone.
Qed.

Lemma consolidar_fuentes_complete_witness :
  exists m,
    consolidar_fuentes samples.unico_gr samples.repetidos_gb = Ret m
    /\ (3 <= nrows m <= 4)%nat.
Proof.
  destruct (consolidar_fuentes_complete
              samples.unico_gr samples.repetidos_gb
              [KStr "9780134685991"]
              [KStr "9780134685991"; KStr "9780134685991"; KStr "9780134685991"])
    as (m & km & Hm & _ & _ & Hlower & Hupper).
  - repeat constructor.
  - reflexivity.
  - reflexivity.
  - exists m. split; [exact Hm|]. split; [exact Hlower|].
    apply Hupper. intros k. left. unfold count_key. cbn [filter].
    destruct (key_eqb k (KStr "9780134685991")); cbn; lia.
Defined.

(** ** Survivorship and deduplication *)

Lemma mapM_ext_map {A B} (f1 f2 : A -> Exc B) (g : B -> B) l :
  (forall x, f2 x = Exc_map g (f1 x)) ->
  mapM f2 l = Exc_map (map g) (mapM f1 l).
Proof.
  intros H. induction l as [|x l IH]; [reflexivity|].
  cbn [mapM]. rewrite H, IH. unfold Exc_map.
  destruct (f1 x); cbn [bind]; [|reflexivity].
  destruct (mapM f1 l); reflexivity.
Qed.

Lemma mapM_Forall2 {A B} (f : A -> Exc B) l out :
  mapM f l = Ret out -> Forall2 (fun x y => f x = Ret y) l out.
Proof.
  revert out. induction l as [|x l IH]; cbn [mapM]; intros out.
  - intros [= <-]. constructor.
  - destruct (f x) as [y|] eqn:Ey; cbn [bind]; [|discriminate].
    destruct (mapM f l) as [ys|]; cbn [bind]; [|discriminate].
    intros [= <-]. constructor; [exact Ey|]. apply IH. reflexivity.
Qed.

Lemma mapM_returns {A B} (f : A -> Exc B) l :
  (forall x, In x l -> exists y, f x = Ret y) ->
  exists out, mapM f l = Ret out.
Proof.
  induction l as [|x l IH]; intros H; [now exists []|].
  destruct (H x (or_introl eq_refl)) as [y Hy].
  destruct (IH (fun z Hz => H z (or_intror Hz))) as [ys Hys].
  exists (y :: ys). cbn [mapM]. rewrite Hy, Hys. reflexivity.
Qed.

Lemma aplicar_supervivencia_timestamp group ts1 ts2 :
  aplicar_supervivencia group ts2
  = Exc_map (con_timestamp ts2) (aplicar_supervivencia group ts1).
Proof.
  unfold aplicar_supervivencia, Exc_map, prefer.
  repeat match goal with
         | |- context [bind ?m _] =>
             match m with
             | context [bind] => fail 1
             | _ => destruct m; cbn [bind]; try reflexivity
             end
         end.
Qed.

Lemma deduplicar_filas_timestamp df ts1 ts2 :
  deduplicar_filas df ts2
  = Exc_map (map (con_timestamp ts2)) (deduplicar_filas df ts1).
Proof.
  unfold deduplicar_filas.
  destruct (groupby df "book_id") as [groups|e]; [|reflexivity].
  cbn [bind]. apply mapM_ext_map.
  intros kg. apply aplicar_supervivencia_timestamp.
Qed.

Lemma sin_timestamp_con_timestamp ts filas :
  sin_timestamp (frame_of_series (map (con_timestamp ts) filas))
  = sin_timestamp (frame_of_series filas).
Proof.
  unfold sin_timestamp, frame_of_series. cbn [columns rows]. f_equal.
  - destruct filas; reflexivity.
  - rewrite !map_map. apply map_ext. intros b. reflexivity.
Qed.

Lemma aplicar_supervivencia_ts group ts b :
  aplicar_supervivencia group ts = Ret b -> ts_ultima_actualizacion b = ts.
Proof.
  unfold aplicar_supervivencia, Exc_map, prefer.
  repeat match goal with
         | |- context [bind ?m _] =>
             match m with
             | context [bind] => fail 1
             | _ => destruct m; cbn [bind]; try discriminate
             end
         end.
  all: intros [= <-]; reflexivity.
Qed.

(** C8. The resolver is a function of the merged input and the run
    timestamp, so two runs on the same input agree; and the timestamp
    reaches nothing but the timestamp field: a run with another timestamp
    gives the same rows with that field replaced (and fails exactly when
    the first does), the two [dim_book] frames are equal once the
    timestamp column is left out, and every row carries the timestamp of
    its run. *)
Theorem deduplicar_deterministic (df_merged : DataFrame PyVal) (ts1 ts2 : string) :
  deduplicar_filas df_merged ts2
  = Exc_map (map (con_timestamp ts2)) (deduplicar_filas df_merged ts1)
  /\ Exc_map sin_timestamp (deduplicar df_merged ts1)
     = Exc_map sin_timestamp (deduplicar df_merged ts2)
  /\ Exc_map (map ts_ultima_actualizacion) (deduplicar_filas df_merged ts1)
     = Exc_map (map (fun _ => ts1)) (deduplicar_filas df_merged ts1).
Proof.
  split; [apply deduplicar_filas_timestamp|]. split.
  - unfold deduplicar. rewrite (deduplicar_filas_timestamp df_merged ts1 ts2).
    unfold Exc_map. destruct (deduplicar_filas df_merged ts1) as [filas|e];
      cbn [bind]; [|reflexivity].
    rewrite sin_timestamp_con_timestamp. reflexivity.
  - unfold Exc_map.
    destruct (deduplicar_filas df_merged ts1) as [filas|e] eqn:E;
      cbn [bind]; [|reflexivity].
    f_equal. unfold deduplicar_filas in E.
    destruct (groupby df_merged "book_id") as [groups|]; [|discriminate].
    cbn [bind] in E. apply mapM_Forall2 in E.
    induction E as [|kg b groups filas Hb _ IH]; [reflexivity|].
    cbn [map]. rewrite IH, (aplicar_supervivencia_ts _ _ _ Hb). reflexivity.
Qed.

(** *** One row per key *)

Lemma aplicar_supervivencia_book_id group ts b :
  aplicar_supervivencia group ts = Ret b ->
  iloc0 group "book_id" = Ret (book_id b).
Proof.
  unfold aplicar_supervivencia.
  destruct (iloc0 group "book_id") as [v|e]; cbn [bind]; [|discriminate].
  unfold Exc_map, prefer.
  repeat match goal with
         | |- context [bind ?m _] =>
             match m with
             | context [bind] => fail 1
             | _ => destruct m; cbn [bind]; try discriminate
             end
         end.
  all: intros [= <-]; reflexivity.
Qed.

Lemma groupby_inv df groups :
  groupby df "book_id" = Ret groups ->
  exists i,
    index_of "book_id" (columns df) = Some i
    /\ groups
       = map (fun k => (k, {| columns := columns df;
                              rows := rows_with_key i k (rows df) |}))
             (sort_keys (unique_keys (keys_at i (rows df)))).
Proof.
  unfold groupby.
  destruct (index_of "book_id" (columns df)) as [i|]; [|discriminate].
  intros [= <-]. exists i. split; reflexivity.
Qed.

Lemma iloc0_group cols (rs : list (list PyVal)) name i v :
  index_of name cols = Some i ->
  iloc0 {| columns := cols; rows := rs |} name = Ret v ->
  exists r rest, rs = r :: rest /\ v = at_ i r.
Proof.
  intros Hi. unfold iloc0, column. cbn [columns rows]. rewrite Hi.
  cbn [bind]. destruct rs as [|r rest]; cbn [map]; [discriminate|].
  intros [= <-]. exists r, rest. split; reflexivity.
Qed.

(** The rows the resolver returns carry the keys of the groups, in the
    order of the groups. *)
Lemma deduplicar_filas_claves df ts filas :
  deduplicar_filas df ts = Ret filas ->
  exists ks, book_ids df = Ret ks
             /\ claves filas = sort_keys (unique_keys ks).
Proof.
  unfold deduplicar_filas.
  destruct (groupby df "book_id") as [groups|] eqn:Eg; [|discriminate].
  cbn [bind]. intros HM.
  apply groupby_inv in Eg as (i & Hi & ->).
  exists (keys_at i (rows df)). split; [apply book_ids_index, Hi|].
  apply mapM_Forall2 in HM. unfold claves.
  remember (sort_keys (unique_keys (keys_at i (rows df)))) as keys eqn:Ek.
  clear Ek. revert filas HM.
  induction keys as [|k keys IH]; intros filas HM; cbn [map] in HM;
    inversion HM as [|kg b groups' filas' Hb Hrest]; subst; [reflexivity|].
  cbn [map]. rewrite (IH _ Hrest). f_equal.
  cbn [snd] in Hb. apply aplicar_supervivencia_book_id in Hb.
  destruct (iloc0_group _ _ _ _ _ Hi Hb) as (r & rest & Hrows & ->).
  assert (In r (rows_with_key i k (rows df))) as Hin
    by (rewrite Hrows; now left).
  apply filter_In in Hin as [_ E]. now apply key_eqb_eq.
Qed.

Lemma same_value_key a b : same_value a b = true -> key_of a = key_of b.
Proof.
  destruct a, b; cbn [same_value number_of key_of];
    try discriminate; try reflexivity.
  - intros H. apply String.eqb_eq in H. now subst.
  - intros H. apply Qeq_bool_iff in H. f_equal. now apply Qred_complete.
  - intros H. apply Qeq_bool_iff in H. f_equal. now apply Qred_complete.
  - intros H. apply Qeq_bool_iff in H. f_equal. now apply Qred_complete.
  - intros H. apply Qeq_bool_iff in H. f_equal. now apply Qred_complete.
Qed.

Lemma all_distinct_keys vs : NoDup (map key_of vs) -> all_distinct vs = true.
Proof.
  induction vs as [|v vs IH]; [reflexivity|].
  cbn [map all_distinct]. intros H. inversion H as [|? ? Hnot Hnd]; subst.
  rewrite (IH Hnd), andb_true_r. apply negb_true_iff.
  destruct (existsb (same_value v) vs) eqn:E; [|reflexivity].
  exfalso. apply existsb_exists in E as (w & Hw & Hs).
  apply Hnot. apply same_value_key in Hs. rewrite Hs.
  apply in_map, Hw.
Qed.

Lemma mapM_price_of_raise l e : mapM price_of l = Raise e -> e = TypeError.
Proof.
  induction l as [|c l IH]; cbn [mapM]; [discriminate|].
  destruct c as [v|]; cbn [price_of]; [|cbn [bind]; congruence].
  destruct (number_of v); cbn [bind]; [|congruence].
  destruct (mapM price_of l); cbn [bind]; [discriminate|].
  intros [= <-]. now apply IH.
Qed.

Lemma assert_precios_not_duplicates df :
  assert_precios df <> Raise (AssertionError BookIdDuplicados).
Proof.
  unfold assert_precios.
  destruct (column df "precio") as [col|e] eqn:Ec; cbn [bind].
  2:{ unfold column in Ec. destruct (index_of "precio" (columns df));
        [discriminate|]. injection Ec as <-. discriminate. }
  destruct (0 <? List.length _)%nat; [|discriminate].
  destruct (mapM price_of _) as [nums|e] eqn:Em; cbn [bind].
  2:{ apply mapM_price_of_raise in Em. subst. discriminate. }
  destruct nums; [discriminate|]. unfold assert_.
  destruct (_ && _); discriminate.
Qed.

(** On what the resolver returns, the gate never reports duplicate keys. *)
Lemma assert_calidad_no_duplicates filas :
  NoDup (claves filas) ->
  assert_calidad (frame_of_series filas)
  <> Raise (AssertionError BookIdDuplicados).
Proof.
  intros Hnd. unfold assert_calidad.
  destruct (calculate_completeness_returns (frame_of_series filas) "titulo")
    as (q & Hq & _).
  destruct filas as [|b0 filas'] eqn:Ef.
  { rewrite calculate_completeness_absent by (left; reflexivity).
    cbn [bind]. discriminate. }
  rewrite <- Ef in *. assert (filas <> []) as Hne by (subst; discriminate).
  clear Ef. rewrite Hq. cbn [bind]. unfold assert_ at 1.
  destruct (Qle_bool 90 q); [|discriminate]. cbn [bind].
  rewrite (column_frame_of_series filas "book_id" 0 Hne eq_refl).
  cbn [bind].
  change (map (fun b => at_ 0 (series_of b)) filas)
    with (map (fun b => Scalar (book_id b)) filas).
  assert (mapM scalar_of (map (fun b => Scalar (book_id b)) filas)
          = Ret (map book_id filas)) as HM.
  { clear. induction filas as [|b filas IH]; [reflexivity|].
    cbn [map mapM scalar_of bind]. rewrite IH. reflexivity. }
  unfold is_unique. rewrite HM. cbn [bind].
  rewrite all_distinct_keys
    by (unfold claves in Hnd; rewrite map_map; exact Hnd).
  cbn [assert_ bind].
  pose proof (assert_precios_not_duplicates (frame_of_series filas)) as Hp.
  destruct (assert_precios (frame_of_series filas)) as [[]|e]; cbn [bind].
  - unfold assert_. destruct (10 <=? _)%nat; discriminate.
  - exact Hp.
Qed.

(** *** The resolver returns *)

Lemma iloc0_returns (group : DataFrame PyVal) r rest name :
  rows group = r :: rest ->
  has_column name group = true ->
  exists v, iloc0 group name = Ret v.
Proof.
  intros Hrows Hc. apply has_column_index_of in Hc as [i Hi].
  unfold iloc0, column. rewrite Hi, Hrows. cbn [bind map].
  now eexists.
Qed.

Lemma max_by_len_returns items :
  items <> [] ->
  (forall v, In v items -> exists s, v = PStr s) ->
  exists v, max_by_len items = Ret v.
Proof.
  intros Hne Htext. unfold max_by_len.
  destruct (mapM_returns (fun t => n <- py_len t ;; Ret (t, n)) items)
    as [keyed Hk].
  { intros v Hv. destruct (Htext v Hv) as [s ->]. now eexists. }
  rewrite Hk. cbn [bind].
  destruct keyed as [|first rest]; [|now eexists].
  destruct items as [|v items]; [contradiction|].
  cbn [mapM] in Hk. destruct (Htext v (or_introl eq_refl)) as [s ->].
  cbn [py_len bind] in Hk.
  destruct (mapM _ items); cbn [bind] in Hk; discriminate.
Qed.

Lemma values_flatten_In (group : DataFrame PyVal) cols v :
  In v (values_flatten group cols) ->
  exists c i r, In c cols /\ index_of c (columns group) = Some i
                /\ In r (rows group) /\ v = at_ i r.
Proof.
  unfold values_flatten. intros H.
  apply in_flat_map in H as (r & Hr & H).
  apply in_flat_map in H as (c & Hc & H).
  destruct (index_of c (columns group)) as [i|] eqn:Hi; [|contradiction].
  destruct H as [<-|[]]. now exists c, i, r.
Qed.

Lemma titulo_returns (group : DataFrame PyVal) :
  titulos_de_texto group ->
  let titulos_validos :=
    filter notna
      (values_flatten group
         (filter (fun c => has_column c group) ["titulo_gr"; "titulo_gb"])) in
  exists v,
    match titulos_validos with
    | [] => Ret PNone
    | _ :: _ => max_by_len titulos_validos
    end = Ret v.
Proof.
  intros Htext tv.
  destruct tv as [|t tv'] eqn:E; [now eexists|].
  rewrite <- E. apply max_by_len_returns; [rewrite E; discriminate|].
  intros v Hv. subst tv. apply filter_In in Hv as [Hv Hna].
  apply values_flatten_In in Hv as (c & i & r & Hc & Hi & Hr & ->).
  apply filter_In in Hc as [Hc _].
  destruct (Htext c i r Hc Hi Hr) as [Hn|Hs]; [|exact Hs].
  unfold notna in Hna. rewrite Hn in Hna. discriminate.
Qed.

Lemma aplicar_supervivencia_returns (group : DataFrame PyVal) ts r rest :
  rows group = r :: rest ->
  (forall c, In c required_columns -> has_column c group = true) ->
  titulos_de_texto group ->
  exists b, aplicar_supervivencia group ts = Ret b.
Proof.
  intros Hrows Hreq Htext.
  pose proof (fun name => iloc0_returns group r rest name Hrows) as Hi.
  unfold aplicar_supervivencia, prefer, count_side. cbv zeta.
  destruct (titulo_returns group Htext) as [vt Hvt]. cbv zeta in Hvt.
  rewrite Hvt, Hrows.
  repeat first
    [ progress cbn [bind Exc_map]
    | match goal with
      | |- context [iloc0 group ?c] =>
          let v := fresh "v" in
          let Hc := fresh "Hc" in
          assert (has_column c group = true) as Hc
            by (first
                  [ assumption
                  | apply Hreq; cbn [required_columns In];
                    repeat (first [left; reflexivity | right]) ]);
          destruct (Hi c Hc) as [v ->]; clear Hc
      end
    | match goal with
      | |- context [if has_column ?c group then _ else _] =>
          destruct (has_column c group) eqn:?
      end
    | match goal with
      | |- context [if notna ?v then Ret ?v else _] => destruct (notna v)
      end ].
  all: eexists; reflexivity.
Qed.

Lemma deduplicar_filas_returns df ts :
  (forall c, In c required_columns -> has_column c df = true) ->
  titulos_de_texto df ->
  exists filas, deduplicar_filas df ts = Ret filas.
Proof.
  intros Hreq Htext. unfold deduplicar_filas, groupby.
  destruct (proj1 (has_column_index_of "book_id" df)) as [i Hi].
  { apply Hreq. cbn. tauto. }
  rewrite Hi. cbn [bind]. apply mapM_returns.
  intros [k g] Hin. apply in_map_iff in Hin as (k' & [= <- <-] & Hk).
  cbn [snd]. apply (proj1 (group_keys_In _ _)) in Hk. unfold keys_at in Hk.
  apply in_map_iff in Hk as (r & Hr & Hin).
  pose proof (rows_with_key_nonempty i (rows df) r Hin) as Hne.
  rewrite Hr in Hne.
  destruct (rows_with_key i k' (rows df)) as [|r0 rest] eqn:Erows;
    [contradiction|].
  apply (aplicar_supervivencia_returns _ ts r0 rest).
  - reflexivity.
  - exact Hreq.
  - intros c j x Hc Hj Hx. cbn [columns rows] in *. apply (Htext c j x Hc Hj).
    rewrite <- Erows in Hx. apply (proj1 (filter_In _ _ _) Hx).
Qed.

Lemma count_key_NoDup k l : NoDup l -> In k l -> count_key k l = 1%nat.
Proof.
  unfold count_key. induction 1 as [|x l Hx Hnd IH]; cbn [In filter]; [tauto|].
  intros [->|Hin].
  - rewrite key_eqb_refl. cbn [List.length]. f_equal.
    destruct (filter (key_eqb k) l) as [|y ys] eqn:E; [reflexivity|].
    exfalso. assert (In y (filter (key_eqb k) l)) as Hy by (rewrite E; now left).
    apply filter_In in Hy as [Hy Hk]. apply key_eqb_eq in Hk. now subst.
  - destruct (key_eqb k x) eqn:E; [|now apply IH].
    apply key_eqb_eq in E. now subst.
Qed.

Lemma wf_frame_of_series filas : wf (frame_of_series filas).
Proof.
  unfold wf, frame_of_series. cbn [columns rows].
  apply Forall_forall. intros r Hr.
  apply in_map_iff in Hr as (b & <- & Hb).
  destruct filas; [contradiction|reflexivity].
Qed.

(** The frame [deduplicar] returns, read through its own rows and its
    [book_id] column. *)
Lemma deduplicar_keys df ts out :
  deduplicar df ts = Ret out ->
  exists ks vs,
    book_ids df = Ret ks
    /\ nrows out = List.length vs
    /\ (vs <> [] -> column out "book_id" = Ret (map Scalar vs))
    /\ map key_of vs = sort_keys (unique_keys ks)
    /\ wf out
    /\ assert_calidad out <> Raise (AssertionError BookIdDuplicados).
Proof.
  unfold deduplicar, Exc_map.
  destruct (deduplicar_filas df ts) as [filas|e] eqn:E; cbn [bind];
    [|discriminate].
  intros [= <-].
  destruct (deduplicar_filas_claves df ts filas E) as (ks & Hks & Hcl).
  exists ks, (map book_id filas).
  split; [exact Hks|]. split.
  { unfold nrows, frame_of_series. cbn [rows]. now rewrite !length_map. }
  split.
  { intros Hne.
    rewrite (column_frame_of_series filas "book_id" 0);
      [|intros ->; now apply Hne|reflexivity].
    now rewrite map_map. }
  split; [rewrite map_map; exact Hcl|].
  split; [apply wf_frame_of_series|].
  apply assert_calidad_no_duplicates. rewrite Hcl. apply group_keys_NoDup.
Qed.

(** C9. Whatever frame [deduplicar] returns has exactly one row for each
    distinct key of its input, the missing key included, and no other
    row: it has as many rows as its [book_id] column has cells, and the
    keys of those cells, top to bottom, are the distinct input keys in
    sorted order, none twice.  The gate's key-uniqueness assertion
    therefore never fails on it, nor on the [dim_book] of a run of the
    pipeline.  And [deduplicar] does return when the merged frame has the
    columns the resolver reads and its titles are text. *)
Theorem deduplicar_one_row_per_key (df_merged : DataFrame PyVal) (ts : string) :
  (forall out,
      deduplicar df_merged ts = Ret out ->
      exists ks vs,
        book_ids df_merged = Ret ks
        /\ wf out
        /\ nrows out = List.length vs
        /\ (vs <> [] -> column out "book_id" = Ret (map Scalar vs))
        /\ map key_of vs = sort_keys (unique_keys ks)
        /\ NoDup (map key_of vs)
        /\ (forall k, In k ks -> count_key k (map key_of vs) = 1%nat)
        /\ (forall k, In k (map key_of vs) -> In k ks)
        /\ assert_calidad out <> Raise (AssertionError BookIdDuplicados))
  /\ (forall gr gb out,
         integrar gr gb ts = Ret out ->
         assert_calidad out <> Raise (AssertionError BookIdDuplicados))
  /\ ((forall c, In c required_columns -> has_column c df_merged = true) ->
      titulos_de_texto df_merged ->
      exists out, deduplicar df_merged ts = Ret out).
Proof.
  split; [|split].
  - intros out H.
    destruct (deduplicar_keys df_merged ts out H)
      as (ks & vs & Hks & Hn & Hcol & Hkeys & Hwf & Hd).
    assert (NoDup (map key_of vs)) as Hnd
      by (rewrite Hkeys; apply group_keys_NoDup).
    exists ks, vs. repeat split; auto.
    + intros k Hk. apply count_key_NoDup; [exact Hnd|].
      rewrite Hkeys. exact (proj2 (group_keys_In k ks) Hk).
    + intros k Hk. rewrite Hkeys in Hk.
      exact (proj1 (group_keys_In k ks) Hk).
  - intros gr gb out. unfold integrar.
    destruct (preparar mapear_goodreads gr); cbn [bind]; [|discriminate].
    destruct (preparar mapear_googlebooks gb); cbn [bind]; [|discriminate].
    destruct (consolidar_fuentes _ _) as [m|]; cbn [bind]; [|discriminate].
    intros H.
    destruct (deduplicar_keys m ts out H) as (? & ? & _ & _ & _ & _ & _ & Hd).
    exact Hd.
  - intros Hreq Htext. unfold deduplicar, Exc_map.
    destruct (deduplicar_filas_returns df_merged ts Hreq Htext) as [filas ->].
    now eexists.
Qed.

Lemma deduplicar_one_row_per_key_witness :
  exists out,
    deduplicar samples.merged_repetidos "2024-01-01T00:00:00" = Ret out
    /\ nrows samples.merged_repetidos = 5%nat
    /\ nrows out = 3%nat
    /\ column out "book_id"
       = Ret [Scalar (PStr "9780134685991");
              Scalar (PStr "hash_00f1e2d3c4b5a697");
              Scalar PNone]
    /\ assert_calidad out <> Raise (AssertionError BookIdDuplicados).
Proof.
  destruct (proj2 (proj2 (deduplicar_one_row_per_key
                            samples.merged_repetidos "2024-01-01T00:00:00")))
    as [out Hout].
  - intros c Hc. cbn [required_columns In] in Hc.
    repeat (destruct Hc as [<-|Hc]; [vm_compute; reflexivity|]).
    contradiction.
  - intros c i r Hc Hi Hr. cbn [In] in Hc. vm_compute in Hr.
    repeat (destruct Hr as [<-|Hr]; [right|]); try contradiction;
      destruct Hc as [<-|[<-|[]]]; vm_compute in Hi; injection Hi as <-;
      eexists; vm_compute; reflexivity.
  - exists out. split; [exact Hout|]. split; [reflexivity|].
    destruct (proj1 (deduplicar_one_row_per_key
                       samples.merged_repetidos "2024-01-01T00:00:00") out Hout)
      as (ks & vs & Hks & _ & Hn & Hcol & Hkeys & _ & _ & _ & Hd).
    vm_compute in Hks. injection Hks as <-.
    assert (List.length vs = 3%nat) as Hlen.
    { rewrite <- (length_map key_of), Hkeys. vm_compute. reflexivity. }
    split; [now rewrite Hn|]. split; [|exact Hd].
    assert (Hout' := Hout). vm_compute in Hout'. injection Hout' as <-.
    vm_compute. reflexivity.
Defined.

(** ** The hash tier of the canonical key *)

Lemma hex_length bs : String.length (hashlib.hex bs) = (2 * List.length bs)%nat.
Proof.
  induction bs as [|b bs IH]; [reflexivity|].
  cbn [hashlib.hex String.length List.length]. rewrite IH. lia.
Qed.

Lemma md5_hexdigest_length s : String.length (hashlib.md5_hexdigest s) = 32%nat.
Proof.
  unfold hashlib.md5_hexdigest. rewrite hex_length. unfold hashlib.digest.
  destruct (fold_left hashlib.compress _ hashlib.init) as [[[a b] c] d].
  reflexivity.
Qed.

Lemma prefix_length n s :
  (n <= String.length s)%nat -> String.length (prefix n s) = n.
Proof.
  unfold prefix. revert s. induction n as [|n IH]; intros s H.
  - destruct s; reflexivity.
  - destruct s as [|c s]; [cbn in H; lia|].
    cbn [String.substring String.length]. f_equal. apply IH.
    cbn in H. lia.
Qed.

(** In the hash tier the key is the tag ["hash_"] and sixteen
    hexadecimal characters of the MD5 digest of the key material. *)
Lemma generar_book_id_hash_shape row v13 v10 :
  row_getitem row "isbn13" = Ret v13 ->
  notna v13 && validate_isbn13 v13 = false ->
  row_getitem row "isbn10" = Ret v10 ->
  (notna v10 = false \/ isbn10_to_isbn13 v10 = Ret None) ->
  exists material,
    generar_book_id row
    = Ret (PStr ("hash_" ++ prefix 16 (hashlib.md5_hexdigest material)))
    /\ String.length (prefix 16 (hashlib.md5_hexdigest material)) = 16%nat.
Proof.
  intros H13 Hv13 H10 Hv10. unfold generar_book_id.
  rewrite H13. cbn [bind]. rewrite Hv13, H10. cbn [bind].
  assert ((if notna v10 then isbn10_to_isbn13 v10 else Ret None) = Ret None)
    as ->.
  { destruct Hv10 as [->| ->]; [reflexivity|]. now destruct (notna v10). }
  cbn [bind opt_str truthy]. eexists. split; [reflexivity|].
  apply prefix_length. rewrite md5_hexdigest_length. lia.
Qed.

(** Where the three text components are text or [None] and the year is
    present, the key material is the one the specification words. *)
Lemma generar_book_id_hash_agrees row v13 v10 :
  row_getitem row "isbn13" = Ret v13 ->
  notna v13 && validate_isbn13 v13 = false ->
  row_getitem row "isbn10" = Ret v10 ->
  (notna v10 = false \/ isbn10_to_isbn13 v10 = Ret None) ->
  (forall c, In c ["titulo_normalizado"; "autor_normalizado"; "editorial"] ->
             row_get row c (PStr "") = PNone
             \/ exists s, row_get row c (PStr "") = PStr s) ->
  isna (row_get row "anio_publicacion" (PStr "")) = false ->
  generar_book_id row = Ret (hash_book_id_spec row).
Proof.
  intros H13 Hv13 H10 Hv10 Htext Hyear. unfold generar_book_id.
  rewrite H13. cbn [bind]. rewrite Hv13, H10. cbn [bind].
  assert ((if notna v10 then isbn10_to_isbn13 v10 else Ret None) = Ret None)
    as ->.
  { destruct Hv10 as [->| ->]; [reflexivity|]. now destruct (notna v10). }
  cbn [bind opt_str truthy]. unfold hash_book_id_spec, key_material_spec.
  assert (forall c,
             (row_get row c (PStr "") = PNone
              \/ exists s, row_get row c (PStr "") = PStr s) ->
             str (or_ (row_get row c (PStr "")) (PStr "")) = component row c)
    as Hcomp.
  { intros c Hc. unfold component, row_get in *.
    destruct (index_of c (fst row)) as [i|]; [|reflexivity].
    destruct Hc as [->|[s ->]]; [reflexivity|].
    unfold or_. cbn [truthy isna str]. now destruct s. }
  rewrite !Hcomp by (apply Htext; cbn; tauto).
  assert (str (or_ (PStr (str (row_get row "anio_publicacion" (PStr ""))))
                   (PStr ""))
          = component row "anio_publicacion") as ->.
  { unfold component, row_get in *.
    destruct (index_of "anio_publicacion" (fst row)) as [i|]; [|reflexivity].
    rewrite Hyear. unfold or_. cbn [truthy str].
    now destruct (str (at_ i (snd row))). }
  reflexivity.
Qed.

(** C1, at a row the code can receive: no identifier, and no year.  The
    generator hashes ["dune|frank herbert||None"], the text of [None] in
    place of the empty text the specification words for a null year, and
    so returns another key than the one the claim describes. *)
Theorem generar_book_id_null_year :
  generar_book_id samples.fila_sin_isbn = Ret (PStr "hash_1d6434d56884ca12")
  /\ "hash_" ++ prefix 16 (hashlib.md5_hexdigest "dune|frank herbert||None")
     = "hash_1d6434d56884ca12"
  /\ key_material_spec samples.fila_sin_isbn = "dune|frank herbert||"
  /\ hash_book_id_spec samples.fila_sin_isbn = PStr "hash_522f5c56830132dd".
Proof. repeat split; vm_compute; reflexivity. Qed.

(** ** The publication date of the consolidated book *)

Lemma columns_set_column (df : DataFrame PyVal) name values :
  columns (set_column df name values) = columns_after_set (columns df) name.
Proof.
  unfold set_column, columns_after_set.
  destruct (index_of name (columns df)); reflexivity.
Qed.

Lemma columns_apply_if_present df name f :
  columns (apply_if_present df name f) = columns df.
Proof.
  unfold apply_if_present. destruct (column df name) as [col|] eqn:E;
    [|reflexivity].
  rewrite columns_set_column. unfold columns_after_set, column in *.
  destruct (index_of name (columns df)); [reflexivity|discriminate].
Qed.

Lemma normalizar_df_columns df df' :
  normalizar_df df = Ret df' ->
  columns df'
  = fold_left columns_after_set
      ["titulo_normalizado"; "autor_normalizado"; "isbn10"; "isbn13"]
      (columns df).
Proof.
  unfold normalizar_df.
  repeat match goal with
         | |- context [bind (column ?d ?c) _] =>
             destruct (column d c); cbn [bind]; [|discriminate]
         end.
  intros [= <-].
  repeat first [rewrite columns_set_column | rewrite columns_apply_if_present].
  reflexivity.
Qed.

Lemma preparar_columns mapear raw staging_cols df :
  (forall st, mapear raw = Ret st -> columns st = staging_cols) ->
  preparar mapear raw = Ret df ->
  columns df = prepared_columns staging_cols.
Proof.
  intros Hmap. unfold preparar.
  destruct (mapear raw) as [st|] eqn:Est; cbn [bind]; [|discriminate].
  destruct (normalizar_df st) as [norm|] eqn:En; cbn [bind]; [|discriminate].
  unfold agregar_book_id.
  destruct (mapM _ (rows norm)) as [ids|]; cbn [bind]; [|discriminate].
  destruct (str_accessor ids); cbn [bind]; [|discriminate].
  intros [= <-]. rewrite columns_set_column.
  rewrite (normalizar_df_columns _ _ En), (Hmap st eq_refl). reflexivity.
Qed.

Lemma mapear_goodreads_columns raw st :
  mapear_goodreads raw = Ret st ->
  columns st
  = [ "source_name"; "source_row_number"; "titulo"; "autor"; "rating";
      "ratings_count"; "anio_publicacion"; "isbn10"; "isbn13"; "book_url";
      "editorial"; "idioma"; "paginas"; "categorias"; "precio"; "moneda";
      "subtitulo"; "autores_lista" ].
Proof.
  unfold mapear_goodreads.
  repeat match goal with
         | |- context [bind (column ?d ?c) _] =>
             destruct (column d c); cbn [bind]; [|discriminate]
         end.
  intros [= <-]. reflexivity.
Qed.

Lemma mapear_googlebooks_columns raw st :
  mapear_googlebooks raw = Ret st ->
  columns st
  = [ "source_name"; "source_row_number"; "titulo"; "subtitulo"; "autor";
      "autores_lista"; "editorial"; "anio_publicacion"; "fecha_publicacion";
      "idioma"; "paginas"; "categorias"; "isbn10"; "isbn13"; "precio";
      "moneda"; "rating"; "ratings_count"; "book_url" ].
Proof.
  unfold mapear_googlebooks.
  repeat match goal with
         | |- context [bind (column ?d ?c) _] =>
             destruct (column d c); cbn [bind]; [|discriminate]
         end.
  intros [= <-]. reflexivity.
Qed.

(** The merged frame of a run has the date of the API source under its
    own name: the scraped source has no such column, so the merge adds no
    suffix to it. *)
Lemma merged_frame_columns gr gb df_gr df_gb m :
  preparar mapear_goodreads gr = Ret df_gr ->
  preparar mapear_googlebooks gb = Ret df_gb ->
  consolidar_fuentes df_gr df_gb = Ret m ->
  has_column "fecha_publicacion" m = true
  /\ has_column "fecha_publicacion_gb" m = false.
Proof.
  intros Hgr Hgb.
  apply (preparar_columns _ _ _ _ (mapear_goodreads_columns gr)) in Hgr.
  apply (preparar_columns _ _ _ _ (mapear_googlebooks_columns gb)) in Hgb.
  unfold consolidar_fuentes, merge_outer. rewrite Hgr, Hgb.
  cbv [prepared_columns fold_left columns_after_set index_of String.eqb
       Ascii.eqb Bool.eqb option_map app].
  intros [= <-]. unfold has_column. cbn [columns]. split; vm_compute; reflexivity.
Qed.

Lemma aplicar_supervivencia_fecha group ts b :
  has_column "fecha_publicacion_gb" group = false ->
  aplicar_supervivencia group ts = Ret b ->
  fecha_publicacion b = PNone.
Proof.
  intros Hno. unfold aplicar_supervivencia. rewrite Hno.
  unfold Exc_map, prefer.
  repeat match goal with
         | |- context [bind ?m _] =>
             match m with
             | context [bind] => fail 1
             | Ret PNone => fail 1
             | _ => destruct m; cbn [bind]; try discriminate
             end
         end.
  all: cbn [bind]; intros [= <-]; reflexivity.
Qed.

(** In every run the consolidated publication date is null. *)
Lemma integrar_fecha_nula gr gb ts out :
  integrar gr gb ts = Ret out ->
  exists filas,
    out = frame_of_series filas
    /\ forall b, In b filas -> fecha_publicacion b = PNone.
Proof.
  unfold integrar.
  destruct (preparar mapear_goodreads gr) as [df_gr|] eqn:Egr; cbn [bind];
    [|discriminate].
  destruct (preparar mapear_googlebooks gb) as [df_gb|] eqn:Egb; cbn [bind];
    [|discriminate].
  destruct (consolidar_fuentes df_gr df_gb) as [m|] eqn:Em; cbn [bind];
    [|discriminate].
  destruct (merged_frame_columns _ _ _ _ _ Egr Egb Em) as [_ Hno].
  unfold deduplicar, Exc_map, deduplicar_filas.
  destruct (groupby m "book_id") as [groups|] eqn:Eg; cbn [bind];
    [|discriminate].
  destruct (mapM _ groups) as [filas|] eqn:EM; cbn [bind]; [|discriminate].
  intros [= <-]. exists filas. split; [reflexivity|].
  apply groupby_inv in Eg as (i & _ & ->).
  apply mapM_Forall2 in EM.
  intros b Hb.
  assert (exists kg, In kg (map (fun k => (k, {| columns := columns m;
                                                  rows := rows_with_key i k (rows m) |}))
                                (sort_keys (unique_keys (keys_at i (rows m)))))
                     /\ aplicar_supervivencia (snd kg) ts = Ret b)
    as (kg & Hkg & Hap).
  { clear -EM Hb. induction EM as [|x y l l' Hxy _ IH]; [contradiction|].
    destruct Hb as [<-|Hb].
    - exists x. split; [now left|exact Hxy].
    - destruct (IH Hb) as (kg & Hin & H). exists kg. split; [now right|exact H]. }
  apply in_map_iff in Hkg as (k & <- & _). cbn [snd] in Hap.
  eapply aplicar_supervivencia_fecha; [|exact Hap]. exact Hno.
Qed.

(** C2, at a run of one record per source for the same book.  The API
    source gives the date 2005-05-12, it survives normalisation, and the
    consolidated row for the book has no publication date. *)
Theorem fecha_publicacion_lost :
  exists df_gb dim_book,
    preparar mapear_googlebooks samples.googlebooks_raw = Ret df_gb
    /\ column df_gb "fecha_publicacion" = Ret [PStr "2005-05-12"]
    /\ integrar samples.goodreads_raw samples.googlebooks_raw
                "2024-01-01T00:00:00" = Ret dim_book
    /\ column dim_book "book_id" = Ret [Scalar (PStr "9780134685991")]
    /\ column dim_book "fecha_publicacion" = Ret [Scalar PNone].
Proof.
  do 2 eexists.
  split; [vm_compute; reflexivity|].
  split; [vm_compute; reflexivity|].
  split; [vm_compute; reflexivity|].
  split; vm_compute; reflexivity.
Qed.

(* ================================================================== *)
(** * Further properties of the code *)
(* ================================================================== *)

(** ** More on text *)

Lemma code_ascii_of_N n : (n < 256)%N -> code (ascii_of_N n) = n.
Proof. intros H. unfold code. now apply N_ascii_embedding. Qed.

Lemma code_lt c : (code c < 256)%N.
Proof. unfold code. apply N_ascii_bounded. Qed.

Lemma code_inj a b : code a = code b -> a = b.
Proof.
  unfold code. intros H. rewrite <- (ascii_N_embedding a), <- (ascii_N_embedding b).
  now rewrite H.
Qed.

Lemma isspace_lower_char c : isspace (lower_char c) = isspace c.
Proof.
  unfold lower_char. destruct (is_upper c) eqn:E; [|reflexivity].
  unfold is_upper in E. apply andb_true_iff in E as [H1 H2].
  apply N.leb_le in H1. apply N.leb_le in H2.
  unfold isspace. rewrite code_ascii_of_N by lia.
  repeat match goal with
         | |- context [(?a <=? ?b)%N] => destruct (N.leb_spec a b)
         end; cbn; try reflexivity; lia.
Qed.

Lemma isspace_upper_char c : isspace (upper_char c) = isspace c.
Proof.
  unfold upper_char. destruct (is_lower c) eqn:E; [|reflexivity].
  unfold is_lower in E. apply andb_true_iff in E as [H1 H2].
  apply N.leb_le in H1. apply N.leb_le in H2.
  unfold isspace. rewrite code_ascii_of_N by lia.
  repeat match goal with
         | |- context [(?a <=? ?b)%N] => destruct (N.leb_spec a b)
         end; cbn; try reflexivity; lia.
Qed.

Lemma lstrip_map f s :
  (forall c, isspace (f c) = isspace c) ->
  lstrip (map_str f s) = map_str f (lstrip s).
Proof.
  intros Hf. induction s as [|c s IH]; [reflexivity|].
  cbn [map_str lstrip]. rewrite Hf. destruct (isspace c); [exact IH|reflexivity].
Qed.

Lemma rstrip_map f s :
  (forall c, isspace (f c) = isspace c) ->
  rstrip (map_str f s) = map_str f (rstrip s).
Proof.
  intros Hf. induction s as [|c s IH]; [reflexivity|].
  cbn [map_str rstrip]. rewrite IH, Hf.
  destruct (rstrip s); cbn [map_str]; [|reflexivity].
  destruct (isspace c); reflexivity.
Qed.

Lemma strip_map f s :
  (forall c, isspace (f c) = isspace c) ->
  strip (map_str f s) = map_str f (strip s).
Proof.
  intros Hf. unfold strip. rewrite lstrip_map, rstrip_map by exact Hf.
  reflexivity.
Qed.

Lemma strip_lower s : strip (lower s) = lower (strip s).
Proof. apply strip_map, isspace_lower_char. Qed.

Lemma strip_upper s : strip (upper s) = upper (strip s).
Proof. apply strip_map, isspace_upper_char. Qed.

Lemma lstrip_head s c r : lstrip s = String c r -> isspace c = false.
Proof.
  induction s as [|a s IH]; cbn [lstrip]; [discriminate|].
  destruct (isspace a) eqn:E; [exact IH|]. intros [= <- _]. exact E.
Qed.

Lemma rstrip_idem s : rstrip (rstrip s) = rstrip s.
Proof.
  induction s as [|c s IH]; [reflexivity|]. cbn [rstrip].
  destruct (rstrip s) as [|b r] eqn:E.
  - destruct (isspace c) eqn:Ec; [reflexivity|]. cbn [rstrip]. now rewrite Ec.
  - cbn [rstrip]. cbn [rstrip] in IH. rewrite IH. reflexivity.
Qed.

Lemma rstrip_keeps_head c r :
  isspace c = false -> exists r', rstrip (String c r) = String c r'.
Proof.
  intros Hc. cbn [rstrip]. destruct (rstrip r); [|now eexists].
  rewrite Hc. now eexists.
Qed.

Lemma strip_head s c r : strip s = String c r -> isspace c = false.
Proof.
  unfold strip. destruct (lstrip s) as [|a u] eqn:E; [discriminate|].
  pose proof (lstrip_head _ _ _ E) as Ha.
  destruct (rstrip_keeps_head a u Ha) as [r' ->]. now intros [= <- _].
Qed.

Lemma strip_fixed s :
  (forall c r, s = String c r -> isspace c = false) ->
  (forall c, last_char s = Some c -> isspace c = false) ->
  strip s = s.
Proof.
  intros Hh Hl. unfold strip.
  assert (lstrip s = s) as ->.
  { destruct s as [|c r]; [reflexivity|]. cbn [lstrip].
    now rewrite (Hh c r eq_refl). }
  clear Hh. induction s as [|c s IH]; [reflexivity|]. cbn [rstrip].
  destruct s as [|b s'].
  - cbn [rstrip]. now rewrite (Hl c eq_refl).
  - rewrite IH by (intros x Hx; apply Hl; exact Hx). reflexivity.
Qed.

Lemma strip_idem s : strip (strip s) = strip s.
Proof.
  apply strip_fixed.
  - intros c r H. apply (strip_head s c r H).
  - intros c H. apply (strip_last_not_space s c H).
Qed.

Lemma map_str_idem f s :
  (forall c, f (f c) = f c) -> map_str f (map_str f s) = map_str f s.
Proof.
  intros Hf. induction s as [|c s IH]; [reflexivity|].
  cbn [map_str]. now rewrite Hf, IH.
Qed.

Lemma is_upper_lower_char c : is_upper (lower_char c) = false.
Proof.
  unfold lower_char. destruct (is_upper c) eqn:E; [|exact E].
  unfold is_upper in *. apply andb_true_iff in E as [H1 H2].
  apply N.leb_le in H1. apply N.leb_le in H2.
  rewrite code_ascii_of_N by lia.
  apply andb_false_iff. right. apply N.leb_gt. lia.
Qed.

Lemma is_lower_upper_char c : is_lower (upper_char c) = false.
Proof.
  unfold upper_char. destruct (is_lower c) eqn:E; [|exact E].
  unfold is_lower in *. apply andb_true_iff in E as [H1 H2].
  apply N.leb_le in H1. apply N.leb_le in H2.
  rewrite code_ascii_of_N by lia.
  apply andb_false_iff. left. apply N.leb_gt. lia.
Qed.

Lemma lower_char_idem c : lower_char (lower_char c) = lower_char c.
Proof.
  unfold lower_char at 1. now rewrite is_upper_lower_char.
Qed.

Lemma upper_char_idem c : upper_char (upper_char c) = upper_char c.
Proof.
  unfold upper_char at 1. now rewrite is_lower_upper_char.
Qed.

Lemma lower_idem s : lower (lower s) = lower s.
Proof. apply map_str_idem, lower_char_idem. Qed.

Lemma upper_idem s : upper (upper s) = upper s.
Proof. apply map_str_idem, upper_char_idem. Qed.

Lemma all_str_forall p s :
  all_str p s = true <-> forall c, In c (list_ascii_of_string s) -> p c = true.
Proof.
  induction s as [|a s IH]; cbn [all_str list_ascii_of_string In].
  - split; [intros _ c []|reflexivity].
  - rewrite andb_true_iff, IH. split.
    + intros [Ha Hs] c [<-|Hc]; auto.
    + intros H. split; [apply H; now left|intros c Hc; apply H; now right].
Qed.

(** ** ISBN cleaning *)

Lemma isbn_clean_char_not_space c : isbn_clean_char c = true -> isspace c = false.
Proof.
  unfold isbn_clean_char. intros H. apply orb_true_iff in H as [H|H].
  - now apply isdigit_not_space.
  - apply Ascii.eqb_eq in H. now subst.
Qed.

Lemma isbn_clean_char_not_lower c : isbn_clean_char c = true -> is_lower c = false.
Proof.
  unfold isbn_clean_char. intros H. apply orb_true_iff in H as [H|H].
  - now apply isdigit_not_lower.
  - apply Ascii.eqb_eq in H. now subst.
Qed.

Lemma isbn_clean_char_isbn_char c : isbn_clean_char c = true -> isbn_char c = true.
Proof.
  unfold isbn_clean_char, isbn_char. intros H.
  apply orb_true_iff in H as [-> | ->]; [reflexivity|].
  destruct (isdigit c); reflexivity.
Qed.

Lemma upper_char_isbn_char c :
  isbn_char c = true -> isbn_clean_char (upper_char c) = true.
Proof.
  unfold isbn_char, isbn_clean_char. intros H.
  apply orb_true_iff in H as [H|H]; [apply orb_true_iff in H as [H|H]|].
  - unfold upper_char. rewrite (isdigit_not_lower _ H), H. reflexivity.
  - apply Ascii.eqb_eq in H. subst. reflexivity.
  - apply Ascii.eqb_eq in H. subst. reflexivity.
Qed.

Lemma upper_filter_clean s :
  all_str isbn_clean_char (upper (filter_str isbn_char s)) = true.
Proof.
  unfold upper. induction s as [|c s IH]; [reflexivity|].
  cbn [filter_str]. destruct (isbn_char c) eqn:E; [|exact IH].
  cbn [map_str all_str]. now rewrite (upper_char_isbn_char _ E), IH.
Qed.

Lemma clean_isbn_fixed c :
  c <> "" -> all_str isbn_clean_char c = true -> clean_isbn (PStr c) = Some c.
Proof.
  intros Hne Hc. unfold clean_isbn. cbn [str].
  rewrite strip_no_space
    by (revert Hc; apply all_str_impl; intros x Hx;
        now rewrite (isbn_clean_char_not_space _ Hx)).
  rewrite filter_str_all
    by (revert Hc; apply all_str_impl; exact isbn_clean_char_isbn_char).
  assert (upper c = c) as ->.
  { clear Hne. unfold upper. induction c as [|x c IH]; [reflexivity|].
    cbn [all_str] in Hc. apply andb_true_iff in Hc as [Hx Hc].
    cbn [map_str]. rewrite (IH Hc). unfold upper_char.
    now rewrite (isbn_clean_char_not_lower _ Hx). }
  destruct (String.eqb_spec c ""); [contradiction|reflexivity].
Qed.

Lemma clean_isbn_chars v c :
  clean_isbn v = Some c -> c <> "" /\ all_str isbn_clean_char c = true.
Proof.
  unfold clean_isbn.
  destruct v; try discriminate;
    (destruct (String.eqb _ ""); [discriminate|];
     match goal with
     | |- context [upper (filter_str isbn_char ?t)] =>
         pose proof (upper_filter_clean t) as Hc;
         destruct (String.eqb_spec (upper (filter_str isbn_char t)) "") as [|Hne];
         [discriminate|]
     end;
     intros [= <-]; split; assumption).
Qed.

(** X1. What [clean_isbn] returns is never empty, holds nothing but
    digits and the capital X, and is left unchanged by a second
    cleaning. *)
Theorem clean_isbn_idempotent (v : PyVal) (c : string) :
  clean_isbn v = Some c ->
  c <> ""
  /\ all_str isbn_clean_char c = true
  /\ clean_isbn (PStr c) = Some c.
Proof.
  intros H. destruct (clean_isbn_chars v c H) as [Hne Hc].
  split; [exact Hne|]. split; [exact Hc|]. now apply clean_isbn_fixed.
Qed.

Lemma clean_isbn_idempotent_witness :
  clean_isbn (PStr " 0-8044-2957-x ") = Some "080442957X"
  /\ clean_isbn (PStr "080442957X") = Some "080442957X".
Proof.
  split; [reflexivity|].
  apply (clean_isbn_idempotent (PStr " 0-8044-2957-x ") "080442957X").
  reflexivity.
Defined.

(** The verdict of a validator on a text is its verdict on the cleaned
    text. *)
Lemma validate_isbn10_cleaned_text s c :
  clean_isbn (PStr s) = Some c ->
  validate_isbn10 (PStr s) = validate_isbn10 (PStr c).
Proof.
  intros H. destruct (clean_isbn_chars _ _ H) as [Hne Hc].
  unfold validate_isbn10. rewrite H, (clean_isbn_fixed c Hne Hc).
  cbn [truthy].
  destruct (String.eqb_spec s "") as [->|_]; [discriminate H|].
  destruct (String.eqb_spec c ""); [contradiction|reflexivity].
Qed.

Lemma validate_isbn13_cleaned_text s c :
  clean_isbn (PStr s) = Some c ->
  validate_isbn13 (PStr s) = validate_isbn13 (PStr c).
Proof.
  intros H. destruct (clean_isbn_chars _ _ H) as [Hne Hc].
  unfold validate_isbn13. rewrite H, (clean_isbn_fixed c Hne Hc).
  cbn [truthy].
  destruct (String.eqb_spec s "") as [->|_]; [discriminate H|].
  destruct (String.eqb_spec c ""); [contradiction|reflexivity].
Qed.

(** X2. [normalize_isbn] on a text returns the cleaned text, and its
    validity flag is the verdict of the two validators on the text as it
    was given: the flag is set exactly when one of them accepts, and the
    type then names which. *)
Theorem normalize_isbn_valid (s : string) :
  isbn (normalize_isbn (PStr s)) = clean_isbn (PStr s)
  /\ valid (normalize_isbn (PStr s))
     = validate_isbn10 (PStr s) || validate_isbn13 (PStr s)
  /\ (validate_isbn10 (PStr s) = true ->
      type (normalize_isbn (PStr s)) = Some "isbn10")
  /\ (validate_isbn13 (PStr s) = true ->
      type (normalize_isbn (PStr s)) = Some "isbn13").
Proof.
  unfold normalize_isbn.
  destruct (clean_isbn (PStr s)) as [c|] eqn:E.
  2:{ cbn [isbn valid type]. unfold validate_isbn10, validate_isbn13.
      rewrite E. destruct (negb (truthy (PStr s))); repeat split; discriminate. }
  pose proof (validate_isbn10_cleaned_text s c E) as H10.
  pose proof (validate_isbn13_cleaned_text s c E) as H13.
  assert (len c <> 10 -> validate_isbn10 (PStr s) = false) as N10.
  { intros N. unfold validate_isbn10. rewrite E.
    destruct (negb (truthy (PStr s))); [reflexivity|].
    destruct (Z.eqb_spec (len c) 10); [contradiction|reflexivity]. }
  assert (len c <> 13 -> validate_isbn13 (PStr s) = false) as N13.
  { intros N. unfold validate_isbn13. rewrite E.
    destruct (negb (truthy (PStr s))); [reflexivity|].
    destruct (Z.eqb_spec (len c) 13); [contradiction|reflexivity]. }
  destruct (Z.eqb_spec (len c) 10) as [L10|L10]; cbn [isbn valid type].
  - rewrite N13 by lia. rewrite <- H10, orb_false_r.
    repeat split; discriminate.
  - rewrite (N10 L10). destruct (Z.eqb_spec (len c) 13) as [L13|L13];
      cbn [isbn valid type].
    + rewrite <- H13. repeat split; discriminate.
    + rewrite (N13 L13). repeat split; discriminate.
Qed.

Lemma normalize_isbn_valid_witness :
  validate_isbn13 (PStr "978-0-13-468599-1") = true
  /\ type (normalize_isbn (PStr "978-0-13-468599-1")) = Some "isbn13".
Proof.
  split; [reflexivity|].
  apply (proj2 (proj2 (proj2 (normalize_isbn_valid "978-0-13-468599-1")))).
  reflexivity.
Defined.

(** ** The conversion to ISBN-13 *)

(** The result of the conversion, character by character. *)
Lemma isbn10_to_isbn13_form v :
  validate_isbn10 v = true ->
  exists a0 a1 a2 a3 a4 a5 a6 a7 a8 a9 check,
    clean_isbn v =
      Some (String a0 (String a1 (String a2 (String a3 (String a4
           (String a5 (String a6 (String a7 (String a8 (String a9 ""))))))))))
    /\ Forall (fun a => isdigit a = true)
              [a0; a1; a2; a3; a4; a5; a6; a7; a8; check]
    /\ isbn10_to_isbn13 v =
         Ret (Some (String "9" (String "7" (String "8"
              (String a0 (String a1 (String a2 (String a3 (String a4
              (String a5 (String a6 (String a7 (String a8
              (String check ""))))))))))))))
    /\ validate_isbn13
         (PStr (String "9" (String "7" (String "8"
              (String a0 (String a1 (String a2 (String a3 (String a4
              (String a5 (String a6 (String a7 (String a8
              (String check ""))))))))))))))
       = true.
Proof.
  intros Hv.
  destruct (validate_isbn10_cleaned v Hv)
    as (a0 & a1 & a2 & a3 & a4 & a5 & a6 & a7 & a8 & a9 & Hc & Hd).
  exists a0, a1, a2, a3, a4, a5, a6, a7, a8, a9.
  pose proof Hd as Hd'.
  repeat match goal with
         | H : Forall _ (_ :: _) |- _ => inversion H; subst; clear H
         | H : Forall _ [] |- _ => clear H
         end.
  repeat match goal with
         | H : isdigit ?a = true |- _ =>
             let d := fresh "d" in
             let E := fresh "E" in
             let R := fresh "R" in
             pose proof (isdigit_int_of_char a H) as (d & E & R); revert H
         end.
  intros.
  unfold isbn10_to_isbn13. rewrite Hv, Hc.
  cbn [negb bind prefix String.substring String.append digits_of
       list_ascii_of_string mapM].
  replace (int_of_char "9") with (Ret (A:=Z) 9) by reflexivity.
  replace (int_of_char "7") with (Ret (A:=Z) 7) by reflexivity.
  replace (int_of_char "8") with (Ret (A:=Z) 8) by reflexivity.
  rewrite_digits.
  cbn [bind weighted_sum12 fold_left seq nth_error Nat.even].
  match goal with
  | |- context [str_of_Z ?cd] =>
      set (check := cd);
      assert (0 <= check <= 9) as Hcheck
        by (subst check;
            match goal with
            | |- 0 <= ?x mod 10 <= 9 =>
                pose proof (Z.mod_pos_bound x 10); lia
            end)
  end.
  destruct (str_of_Z_digit check Hcheck) as (c & Hs & Hci).
  rewrite Hs. exists c.
  destruct (int_of_char_ret _ _ Hci) as [Hcd _].
  split; [reflexivity|].
  split.
  { repeat constructor; try assumption. }
  split; [reflexivity|].
  unfold validate_isbn13.
  cbn [truthy String.eqb negb].
  rewrite clean_isbn_digits;
    [ | discriminate
      | cbn [all_str];
        repeat match goal with
               | H : isdigit ?a = true |- context [isdigit ?a] => rewrite H
               end; reflexivity ].
  cbn [len String.length Z.of_nat Z.eqb Pos.eqb Pos.of_succ_nat Pos.succ negb].
  unfold isbn13_check.
  cbn [digits_of list_ascii_of_string mapM].
  replace (int_of_char "9") with (Ret (A:=Z) 9) by reflexivity.
  replace (int_of_char "7") with (Ret (A:=Z) 7) by reflexivity.
  replace (int_of_char "8") with (Ret (A:=Z) 8) by reflexivity.
  rewrite_digits.
  cbn [bind weighted_sum12 fold_left seq nth_error Nat.even].
  fold check. rewrite Z.eqb_refl. reflexivity.
Qed.

(** X3. [isbn10_to_isbn13] raises on no input: it returns [None] for
    every input [validate_isbn10] rejects, and for every other input the
    text made of ["978"], the first nine characters of the cleaned
    input, all digits, and one more digit. *)
Theorem isbn10_to_isbn13_total (v : PyVal) :
  (validate_isbn10 v = false -> isbn10_to_isbn13 v = Ret None)
  /\ (validate_isbn10 v = true ->
      exists cleaned check,
        clean_isbn v = Some cleaned
        /\ all_str isdigit (prefix 9 cleaned) = true
        /\ isdigit check = true
        /\ isbn10_to_isbn13 v
           = Ret (Some ("978" ++ prefix 9 cleaned ++ String check ""))).
Proof.
  split.
  - intros H. unfold isbn10_to_isbn13. now rewrite H.
  - intros H.
    destruct (isbn10_to_isbn13_form v H)
      as (a0 & a1 & a2 & a3 & a4 & a5 & a6 & a7 & a8 & a9 & check
          & Hc & Hd & Hr & _).
    eexists. exists check. split; [exact Hc|].
    repeat match goal with
           | H : Forall _ (_ :: _) |- _ => inversion H; subst; clear H
           | H : Forall _ [] |- _ => clear H
           end.
    split.
    { cbn [prefix String.substring all_str].
      repeat match goal with
             | H : isdigit ?a = true |- context [isdigit ?a] => rewrite H
             end; reflexivity. }
    split; [assumption|exact Hr].
Qed.

Lemma isbn10_to_isbn13_total_witness :
  exists cleaned check,
    clean_isbn (PStr "0-8044-2957-X") = Some cleaned
    /\ all_str isdigit (prefix 9 cleaned) = true
    /\ isdigit check = true
    /\ isbn10_to_isbn13 (PStr "0-8044-2957-X")
       = Ret (Some ("978" ++ prefix 9 cleaned ++ String check "")).
Proof.
  apply (proj2 (isbn10_to_isbn13_total (PStr "0-8044-2957-X"))).
  reflexivity.
Defined.

(** What acceptance by [validate_isbn10] says: the nine digits, the
    value of the tenth character, and the weighted sum. *)
Lemma validate_isbn10_equation v :
  validate_isbn10 v = true ->
  exists a0 a1 a2 a3 a4 a5 a6 a7 a8 a9 d0 d1 d2 d3 d4 d5 d6 d7 d8 last,
    clean_isbn v =
      Some (String a0 (String a1 (String a2 (String a3 (String a4
           (String a5 (String a6 (String a7 (String a8 (String a9 ""))))))))))
    /\ int_of_char a0 = Ret d0 /\ int_of_char a1 = Ret d1
    /\ int_of_char a2 = Ret d2 /\ int_of_char a3 = Ret d3
    /\ int_of_char a4 = Ret d4 /\ int_of_char a5 = Ret d5
    /\ int_of_char a6 = Ret d6 /\ int_of_char a7 = Ret d7
    /\ int_of_char a8 = Ret d8
    /\ ((a9 = "X"%char /\ last = 10) \/ int_of_char a9 = Ret last)
    /\ (10 * d0 + 9 * d1 + 8 * d2 + 7 * d3 + 6 * d4 + 5 * d5 + 4 * d6
        + 3 * d7 + 2 * d8 + last) mod 11 = 0.
Proof.
  intros Hv. pose proof Hv as Hv'. unfold validate_isbn10 in Hv.
  destruct (truthy v); cbn [negb] in Hv; [|discriminate].
  destruct (clean_isbn v) as [c|] eqn:Ec; [|discriminate].
  destruct (clean_isbn_chars v c Ec) as [_ Hchars].
  destruct (len c =? 10) eqn:Hlen; cbn [negb] in Hv; [|discriminate].
  apply Z.eqb_eq in Hlen. unfold len in Hlen.
  do 10 (destruct c as [|? c]; [simpl in Hlen; lia|]).
  destruct c; [|simpl in Hlen; lia].
  unfold isbn10_check in Hv.
  cbn [fold_left seq getitem String.get bind] in Hv.
  repeat match type of Hv with
         | context [bind (int_of_char ?a) _] =>
             let E := fresh "E" in
             destruct (int_of_char a) eqn:E; cbn [bind] in Hv;
             [|discriminate Hv]
         end.
  match type of Hv with
  | context [Ascii.eqb (upper_char ?a9) "X"] =>
      destruct (Ascii.eqb (upper_char a9) "X") eqn:EX
  end.
  - cbn [bind] in Hv.
    do 10 eexists. do 9 eexists. exists 10.
    split; [reflexivity|].
    repeat (split; [eassumption|]).
    split.
    + left. split; [|reflexivity].
      cbn [all_str] in Hchars.
      repeat (apply andb_true_iff in Hchars; destruct Hchars as [? Hchars]).
      match goal with
      | H : isbn_clean_char ?a = true |- ?a = _ =>
          unfold isbn_clean_char in H; apply orb_true_iff in H as [H|H];
          [|now apply Ascii.eqb_eq in H]
      end.
      apply Ascii.eqb_eq in EX. unfold upper_char in EX.
      match goal with
      | H : isdigit ?a = true |- ?a = _ =>
          rewrite (isdigit_not_lower _ H) in EX; exact EX
      end.
    + destruct (_ mod 11 =? 0) eqn:Em; [|discriminate Hv].
      apply Z.eqb_eq in Em. rewrite <- Em. f_equal. lia.
  - destruct (int_of_char _) as [last|] eqn:El in Hv; cbn [bind] in Hv;
      [|discriminate].
    do 10 eexists. do 9 eexists. exists last.
    split; [reflexivity|].
    repeat (split; [eassumption|]).
    split; [right; exact El|].
    destruct (_ mod 11 =? 0) eqn:Em; [|discriminate Hv].
    apply Z.eqb_eq in Em. rewrite <- Em. f_equal. lia.
Qed.

Lemma int_of_char_inj a b d :
  int_of_char a = Ret d -> int_of_char b = Ret d -> a = b.
Proof.
  unfold int_of_char.
  destruct (isdigit a); [|discriminate]. destruct (isdigit b); [|discriminate].
  intros [= Ha] [= Hb]. apply code_inj. lia.
Qed.

(** X4. The conversion sends two accepted inputs to the same ISBN-13
    only when their cleaned texts are the same: no two ISBN-10 share a
    converted key. *)
Theorem isbn10_to_isbn13_injective (v w : PyVal) :
  validate_isbn10 v = true ->
  validate_isbn10 w = true ->
  isbn10_to_isbn13 v = isbn10_to_isbn13 w ->
  clean_isbn v = clean_isbn w.
Proof.
  intros Hv Hw Heq.
  destruct (isbn10_to_isbn13_form v Hv)
    as (a0 & a1 & a2 & a3 & a4 & a5 & a6 & a7 & a8 & a9 & ca
        & Hca & _ & Hra & _).
  destruct (isbn10_to_isbn13_form w Hw)
    as (b0 & b1 & b2 & b3 & b4 & b5 & b6 & b7 & b8 & b9 & cb
        & Hcb & _ & Hrb & _).
  rewrite Hra, Hrb in Heq. injection Heq as -> -> -> -> -> -> -> -> -> _.
  destruct (validate_isbn10_equation v Hv)
    as (x0 & x1 & x2 & x3 & x4 & x5 & x6 & x7 & x8 & x9
        & d0 & d1 & d2 & d3 & d4 & d5 & d6 & d7 & d8 & la
        & Hxa & E0 & E1 & E2 & E3 & E4 & E5 & E6 & E7 & E8 & Hla & Hma).
  destruct (validate_isbn10_equation w Hw)
    as (y0 & y1 & y2 & y3 & y4 & y5 & y6 & y7 & y8 & y9
        & e0 & e1 & e2 & e3 & e4 & e5 & e6 & e7 & e8 & lb
        & Hyb & F0 & F1 & F2 & F3 & F4 & F5 & F6 & F7 & F8 & Hlb & Hmb).
  rewrite Hca in Hxa. injection Hxa as <- <- <- <- <- <- <- <- <- <-.
  rewrite Hcb in Hyb. injection Hyb as <- <- <- <- <- <- <- <- <- <-.
  rewrite E0 in F0. rewrite E1 in F1. rewrite E2 in F2. rewrite E3 in F3.
  rewrite E4 in F4. rewrite E5 in F5. rewrite E6 in F6. rewrite E7 in F7.
  rewrite E8 in F8.
  injection F0 as <-. injection F1 as <-. injection F2 as <-.
  injection F3 as <-. injection F4 as <-. injection F5 as <-.
  injection F6 as <-. injection F7 as <-. injection F8 as <-.
  rewrite Hca, Hcb. do 10 f_equal.
  assert (0 <= la <= 10) as Ra.
  { destruct Hla as [[_ ->]|H]; [lia|]. apply int_of_char_ret in H. lia. }
  assert (0 <= lb <= 10) as Rb.
  { destruct Hlb as [[_ ->]|H]; [lia|]. apply int_of_char_ret in H. lia. }
  assert (la = lb) as <-.
  { apply Z.mod_divide in Hma; [|lia]. apply Z.mod_divide in Hmb; [|lia].
    destruct Hma as [p Hp]. destruct Hmb as [q Hq]. lia. }
  destruct Hla as [[-> Ea]|Ha], Hlb as [[-> Eb]|Hb]; try reflexivity.
  - apply int_of_char_ret in Hb. lia.
  - apply int_of_char_ret in Ha. lia.
  - f_equal. eapply int_of_char_inj; eassumption.
Qed.

Lemma isbn10_to_isbn13_injective_witness :
  clean_isbn (PStr "0-13-468599-7") = clean_isbn (PStr "0134685997").
Proof.
  apply (isbn10_to_isbn13_injective (PStr "0-13-468599-7") (PStr "0134685997"));
    reflexivity.
Defined.

(** ** Error detection by the ISBN-13 check digit *)

(** The verdict on thirteen digits, from their values. *)
Lemma validate_isbn13_digits a0 a1 a2 a3 a4 a5 a6 a7 a8 a9 a10 a11 a12
      d0 d1 d2 d3 d4 d5 d6 d7 d8 d9 d10 d11 d12 :
  int_of_char a0 = Ret d0 -> int_of_char a1 = Ret d1 ->
  int_of_char a2 = Ret d2 -> int_of_char a3 = Ret d3 ->
  int_of_char a4 = Ret d4 -> int_of_char a5 = Ret d5 ->
  int_of_char a6 = Ret d6 -> int_of_char a7 = Ret d7 ->
  int_of_char a8 = Ret d8 -> int_of_char a9 = Ret d9 ->
  int_of_char a10 = Ret d10 -> int_of_char a11 = Ret d11 ->
  int_of_char a12 = Ret d12 ->
  validate_isbn13
    (PStr (String a0 (String a1 (String a2 (String a3 (String a4 (String a5
          (String a6 (String a7 (String a8 (String a9 (String a10
          (String a11 (String a12 ""))))))))))))))
  = ((10 - (d0 + 3 * d1 + d2 + 3 * d3 + d4 + 3 * d5 + d6 + 3 * d7 + d8
            + 3 * d9 + d10 + 3 * d11) mod 10) mod 10 =? d12).
Proof.
  intros.
  unfold validate_isbn13. cbn [truthy String.eqb negb].
  rewrite clean_isbn_digits;
    [ | discriminate
      | cbn [all_str];
        repeat match goal with
               | H : int_of_char ?a = Ret _ |- context [isdigit ?a] =>
                   rewrite (proj1 (int_of_char_ret _ _ H))
               end; reflexivity ].
  cbn [len String.length Z.of_nat Z.eqb Pos.eqb Pos.of_succ_nat Pos.succ negb].
  unfold isbn13_check. cbn [digits_of list_ascii_of_string mapM].
  rewrite_digits.
  cbn [bind weighted_sum12 fold_left seq nth_error Nat.even].
  f_equal. f_equal. f_equal. f_equal. lia.
Qed.

(** X5. One wrong digit is always caught: in a text of thirteen digits
    that [validate_isbn13] accepts, replacing the digit at any one
    position by another digit gives a text it rejects. *)
Theorem validate_isbn13_single_error (s : string) (i : nat) (c : ascii) :
  String.length s = 13%nat ->
  all_str isdigit s = true ->
  validate_isbn13 (PStr s) = true ->
  (i < 13)%nat ->
  isdigit c = true ->
  String.get i s <> Some c ->
  validate_isbn13 (PStr (replace_at i c s)) = false.
Proof.
  intros Hlen Hd Hv Hi Hc Hne.
  do 13 (destruct s as [|? s]; [cbn in Hlen; discriminate Hlen|]).
  destruct s; [|cbn in Hlen; discriminate Hlen]. clear Hlen.
  cbn [all_str] in Hd.
  repeat (apply andb_true_iff in Hd; destruct Hd as [? Hd]). clear Hd.
  destruct (isdigit_int_of_char c Hc) as (dc & Ec & Rc). clear Hc.
  repeat match goal with
         | H : isdigit ?a = true |- _ =>
             let d := fresh "d" in
             let E := fresh "E" in
             let R := fresh "R" in
             pose proof (isdigit_int_of_char a H) as (d & E & R); clear H
         end.
  erewrite validate_isbn13_digits in Hv by eassumption.
  apply Z.eqb_eq in Hv.
  do 13 (destruct i as [|i];
         [ cbn [replace_at]; cbn [String.get] in Hne;
           erewrite validate_isbn13_digits by eassumption;
           apply Z.eqb_neq;
           match type of Hne with
           | Some ?a <> Some c =>
               match goal with
               | E : int_of_char a = Ret ?d |- _ =>
                   assert (d <> dc)
                     by (intros ->; apply Hne; f_equal;
                         eapply int_of_char_inj; eassumption)
               end
           end;
           clear Hne;
           repeat match goal with
                  | E : int_of_char _ = _ |- _ => clear E
                  end;
           Z.div_mod_to_equations; lia
         | ]).
  lia.
Qed.

Lemma validate_isbn13_single_error_witness :
  validate_isbn13 (PStr (replace_at 5 "7" "9780134685991")) = false.
Proof.
  apply validate_isbn13_single_error; try reflexivity.
  - lia.
  - discriminate.
Defined.

(** ** Normalisers and validators *)

Lemma strip_append_fixed s t c :
  strip s = s -> s <> "" -> last_char t = Some c -> isspace c = false ->
  strip (s ++ t) = s ++ t.
Proof.
  intros Hs Hne Ht Hc.
  assert (t <> "") as Htne by (intros ->; discriminate Ht).
  apply strip_fixed.
  - destruct s as [|a s]; [contradiction|].
    cbn [String.append]. intros x r [= <- _].
    apply (strip_head (String a s) a s Hs).
  - intros x. rewrite last_char_app by assumption. rewrite Ht.
    intros [= <-]. exact Hc.
Qed.

(** X6. Normalising a language code does not change the verdict of the
    language validator: [validate_bcp47_language] gives the same answer on
    a value and on what [normalizar_idioma] makes of it. *)
Theorem validate_bcp47_language_normalizar_idioma (v : PyVal) :
  validate_bcp47_language (normalizar_idioma v) = validate_bcp47_language v.
Proof.
  unfold normalizar_idioma, validate_bcp47_language.
  destruct (isna v) eqn:E; [reflexivity|].
  cbn [isna str].
  now rewrite strip_idem, strip_lower, lower_idem.
Qed.

(** X7. Normalising a currency code does not change what the currency
    validator returns: [validate_iso4217_currency] gives the same object on
    a value and on what [normalizar_moneda] makes of it. *)
Theorem validate_iso4217_currency_normalizar_moneda (v : PyVal) :
  validate_iso4217_currency (normalizar_moneda v) = validate_iso4217_currency v.
Proof.
  unfold normalizar_moneda, validate_iso4217_currency.
  destruct (isna v) eqn:E; [reflexivity|].
  cbn [isna str].
  now rewrite strip_idem, strip_upper, upper_idem.
Qed.

Lemma len_eqb s n : (len s =? Z.of_nat n) = true -> String.length s = n.
Proof. unfold len. intros H. apply Z.eqb_eq in H. lia. Qed.

(** Names the characters of a text of known length. *)
Ltac explode_len s L :=
  repeat (destruct s as [|? s]; [cbn in L; discriminate L|]);
  destruct s; [|cbn in L; discriminate L];
  clear L.

Lemma normalizar_fecha_text v t :
  normalizar_fecha v = PStr t -> normalizar_fecha (PStr t) = PStr t.
Proof.
  unfold normalizar_fecha at 1.
  destruct (isna v); [discriminate|].
  pose proof (strip_idem (str v)) as Hr.
  set (r := strip (str v)) in *. clearbody r.
  destruct ((len r =? 10) && char_is r 4 "-" && char_is r 7 "-") eqn:C1.
  { intros [= <-]. unfold normalizar_fecha. cbn [isna str].
    rewrite Hr, C1. reflexivity. }
  destruct ((len r =? 7) && char_is r 4 "-") eqn:C2.
  { intros [= <-]. apply andb_true_iff in C2 as [L G].
    apply (len_eqb r 7) in L.
    assert (strip (r ++ "-01") = r ++ "-01") as Hs.
    { apply (strip_append_fixed r "-01" "1"); try reflexivity; try assumption.
      intros ->. discriminate L. }
    explode_len r L.
    unfold char_is in G. cbn [String.get] in G.
    apply Ascii.eqb_eq in G. subst.
    unfold normalizar_fecha. cbn [isna str]. rewrite Hs. reflexivity. }
  destruct ((len r =? 4) && str_isdigit r) eqn:C3; [|discriminate].
  intros [= <-]. apply andb_true_iff in C3 as [L G].
  apply (len_eqb r 4) in L.
  assert (strip (r ++ "-01-01") = r ++ "-01-01") as Hs.
  { apply (strip_append_fixed r "-01-01" "1"); try reflexivity; try assumption.
    intros ->. discriminate L. }
  explode_len r L.
  unfold normalizar_fecha. cbn [isna str]. rewrite Hs. reflexivity.
Qed.

Lemma normalizar_fecha_none_or_text v :
  normalizar_fecha v = PNone \/ exists t, normalizar_fecha v = PStr t.
Proof.
  unfold normalizar_fecha.
  destruct (isna v); [now left|].
  repeat match goal with
         | |- context [if ?b then _ else _] => destruct b
         end; try (now left); right; eexists; reflexivity.
Qed.

(** X8. The date normaliser is idempotent: applying [normalizar_fecha] to
    its own result gives that result again, whether it is a text or
    null. *)
Theorem normalizar_fecha_idempotent (v : PyVal) :
  normalizar_fecha (normalizar_fecha v) = normalizar_fecha v.
Proof.
  destruct (normalizar_fecha_none_or_text v) as [E|[t E]]; rewrite E.
  - reflexivity.
  - apply (normalizar_fecha_text v t E).
Qed.

Lemma is_ascii_lower_char c : is_ascii c = true -> is_ascii (lower_char c) = true.
Proof.
  unfold is_ascii, lower_char. intros H. apply N.ltb_lt in H.
  destruct (is_upper c) eqn:E; [|now apply N.ltb_lt].
  unfold is_upper in E. apply andb_true_iff in E as [_ E2].
  apply N.leb_le in E2. rewrite code_ascii_of_N by lia.
  apply N.ltb_lt. lia.
Qed.

Lemma all_str_lstrip p s : all_str p s = true -> all_str p (lstrip s) = true.
Proof.
  induction s as [|c s IH]; [reflexivity|]. cbn [lstrip].
  destruct (isspace c); [|now intros]. cbn [all_str]. intros H.
  apply andb_true_iff in H as [_ H]. now apply IH.
Qed.

Lemma all_str_rstrip p s : all_str p s = true -> all_str p (rstrip s) = true.
Proof.
  induction s as [|c s IH]; [reflexivity|]. cbn [all_str rstrip]. intros H.
  apply andb_true_iff in H as [Hc H]. specialize (IH H).
  destruct (rstrip s) as [|b r].
  - destruct (isspace c); [reflexivity|]. cbn [all_str]. now rewrite Hc.
  - cbn [all_str] in *. now rewrite Hc, IH.
Qed.

Lemma all_str_strip p s : all_str p s = true -> all_str p (strip s) = true.
Proof. intros H. unfold strip. now apply all_str_rstrip, all_str_lstrip. Qed.

(** The normalised author of a value of ASCII text is ASCII text again. *)
Lemma normalizar_autor_ascii v :
  texto_ascii v = true -> texto_ascii (normalizar_autor v) = true.
Proof.
  unfold texto_ascii, normalizar_autor. intros H.
  destruct (isna v); [reflexivity|]. cbn [str].
  apply all_str_strip. unfold lower.
  induction (str v) as [|c s IH]; [reflexivity|].
  cbn [all_str map_str] in *. apply andb_true_iff in H as [Hc Hs].
  now rewrite (is_ascii_lower_char c Hc), IH.
Qed.

(** X9. The author, language and currency normalisers are idempotent.
    On a value of ASCII text, [normalizar_autor] gives ASCII text and
    leaves its own result unchanged; [normalizar_idioma] and
    [normalizar_moneda], which strip no accents, leave their own results
    unchanged on every value. *)
Theorem normalizar_texto_idempotent (v : PyVal) :
  (texto_ascii v = true ->
   texto_ascii (normalizar_autor v) = true
   /\ normalizar_autor (normalizar_autor v) = normalizar_autor v)
  /\ normalizar_idioma (normalizar_idioma v) = normalizar_idioma v
  /\ normalizar_moneda (normalizar_moneda v) = normalizar_moneda v.
Proof.
  split.
  { intros Ha. split; [apply normalizar_autor_ascii, Ha|].
    unfold normalizar_autor. destruct (isna v); [reflexivity|].
    cbn [isna str].
    now rewrite (strip_lower (str v)), lower_idem, strip_lower, strip_idem. }
  unfold normalizar_idioma, normalizar_moneda.
  destruct (isna v); [split; reflexivity|].
  cbn [isna str].
  rewrite (strip_lower (str v)), lower_idem, strip_lower, strip_idem.
  rewrite (strip_upper (str v)), upper_idem, strip_upper, strip_idem.
  split; reflexivity.
Qed.

Lemma normalizar_texto_idempotent_witness :
  texto_ascii (normalizar_autor (PStr "  Scott MEYERS ")) = true
  /\ normalizar_autor (normalizar_autor (PStr "  Scott MEYERS "))
     = normalizar_autor (PStr "  Scott MEYERS ").
Proof.
  apply (proj1 (normalizar_texto_idempotent (PStr "  Scott MEYERS "))).
  reflexivity.
Defined.

Lemma re_match_classes_length pat s :
  re_match_classes pat s = true ->
  (forall c, last_char s = Some c -> isspace c = false) ->
  String.length s = List.length pat.
Proof.
  revert s. induction pat as [|p pat IH]; intros [|c s] H Hl;
    cbn [re_match_classes] in H; try discriminate H; try reflexivity.
  - destruct s; [|discriminate H].
    apply Ascii.eqb_eq in H. subst c.
    specialize (Hl _ eq_refl). discriminate Hl.
  - apply andb_true_iff in H as [_ H]. cbn [String.length List.length].
    f_equal. apply IH; [exact H|].
    intros x Hx. apply Hl. cbn [last_char].
    destruct s; [discriminate Hx|exact Hx].
Qed.

Ltac split_classes H :=
  cbn [re_match_classes] in H;
  repeat (let Hc := fresh "Hc" in
          apply andb_true_iff in H; destruct H as [Hc H]);
  clear H;
  repeat match goal with
         | H : Ascii.eqb "-" ?a = true |- _ =>
             apply Ascii.eqb_eq in H; subst a
         end.

Lemma validate_iso_date_normalizar_fecha_text v :
  validate_iso_date v = true ->
  exists t, normalizar_fecha v = PStr t /\ validate_iso_date (PStr t) = true.
Proof.
  unfold validate_iso_date at 1, normalizar_fecha.
  destruct (isna v); [discriminate|].
  pose proof (strip_idem (str v)) as Hr.
  pose proof (strip_last_not_space (str v)) as Hl.
  set (r := strip (str v)) in *. clearbody r.
  destruct (String.eqb r "") eqn:Hne; [discriminate|].
  apply String.eqb_neq in Hne.
  destruct (re_match_classes pat_ymd r) eqn:M1.
  { intros H. pose proof (re_match_classes_length _ _ M1 Hl) as L.
    exists r.
    assert (validate_iso_date (PStr r) = true) as Hv.
    { unfold validate_iso_date. cbn [isna str]. rewrite Hr.
      rewrite (proj2 (String.eqb_neq r "") Hne), M1. exact H. }
    split; [|exact Hv].
    clear Hv H Hr Hl Hne.
    explode_len r L. split_classes M1. reflexivity. }
  destruct (re_match_classes pat_ym r) eqn:M2.
  { intros H. pose proof (re_match_classes_length _ _ M2 Hl) as L.
    exists (r ++ "-01").
    assert (strip (r ++ "-01") = r ++ "-01") as Hs
      by (apply (strip_append_fixed r "-01" "1"); auto).
    clear Hr Hl Hne M1.
    explode_len r L. split_classes M2.
    split; [reflexivity|].
    unfold validate_iso_date. cbn [isna str]. rewrite Hs.
    cbn [String.append String.eqb Ascii.eqb Bool.eqb] in H |- *.
    cbn [pat_ymd re_match_classes].
    repeat match goal with
           | H : isdigit ?a = true |- context [isdigit ?a] => rewrite H
           end.
    cbn [andb Ascii.eqb Bool.eqb isdigit code N_of_ascii N_of_digits N.add
         N.mul N.leb N.compare Pos.compare Pos.compare_cont].
    exact H. }
  destruct (re_match_classes pat_y r) eqn:M3; [|discriminate].
  intros H. pose proof (re_match_classes_length _ _ M3 Hl) as L.
  exists (r ++ "-01-01").
  assert (strip (r ++ "-01-01") = r ++ "-01-01") as Hs
    by (apply (strip_append_fixed r "-01-01" "1"); auto).
  clear Hr Hl Hne M1 M2.
  explode_len r L. split_classes M3.
  unfold str_isdigit. cbn [all_str String.length len].
  repeat match goal with
         | H : isdigit ?a = true |- context [isdigit ?a] => rewrite H
         end.
  split; [reflexivity|].
  unfold validate_iso_date. cbn [isna str]. rewrite Hs.
  cbn [String.append String.eqb Ascii.eqb Bool.eqb].
  cbn [pat_ymd re_match_classes].
  repeat match goal with
         | H : isdigit ?a = true |- context [isdigit ?a] => rewrite H
         end.
  replace (isdigit "0") with true by reflexivity.
  replace (isdigit "1") with true by reflexivity.
  replace (Ascii.eqb "-" "-") with true by reflexivity.
  cbn [andb].
  unfold int_of_digits in H. cbn [list_ascii_of_string mapM] in H.
  unfold int_of_char in H.
  repeat match goal with
         | Hd : isdigit ?a = true |- _ =>
             rewrite Hd in H; revert Hd
         end.
  intros.
  cbn [bind fold_left] in H.
  apply andb_true_iff in H as [Hlo Hhi].
  apply Z.leb_le in Hlo.
  unfold fromisoformat. cbn [all_str].
  repeat match goal with
         | H : isdigit ?a = true |- context [isdigit ?a] => rewrite H
         end.
  replace (isdigit "0") with true by reflexivity.
  replace (isdigit "1") with true by reflexivity.
  replace (Ascii.eqb "-" "-") with true by reflexivity.
  cbn [andb].
  unfold digit_value at 1 2 3 4.
  replace (digit_value "0") with 0 by reflexivity.
  replace (digit_value "1") with 1 by reflexivity.
  change (10 * 0 + 1) with 1.
  change (days_in_month _ 1) with 31.
  rewrite (proj2 (Z.leb_le 1 _)) by lia.
  reflexivity.
Qed.

(** X10. A date of ASCII text the validator accepts survives
    normalisation: when [validate_iso_date] accepts a value whose text is
    ASCII, [normalizar_fecha] gives a text for it, never null, and
    [validate_iso_date] accepts that text too. *)
Theorem validate_iso_date_normalizar_fecha (v : PyVal) :
  texto_ascii v = true ->
  validate_iso_date v = true ->
  notna (normalizar_fecha v) = true
  /\ validate_iso_date (normalizar_fecha v) = true.
Proof.
  intros _ H.
  destruct (validate_iso_date_normalizar_fecha_text v H) as (t & -> & Ht).
  split; [reflexivity|exact Ht].
Qed.

Lemma validate_iso_date_normalizar_fecha_witness :
  notna (normalizar_fecha (PStr " 1999-02 ")) = true
  /\ validate_iso_date (normalizar_fecha (PStr " 1999-02 ")) = true.
Proof.
  apply validate_iso_date_normalizar_fecha; reflexivity.
Defined.

(** ** Title normalisation *)

Lemma all_str_app p s t :
  all_str p (s ++ t) = all_str p s && all_str p t.
Proof.
  induction s as [|c s IH]; [reflexivity|].
  cbn [String.append all_str]. now rewrite IH, andb_assoc.
Qed.

Lemma all_str_of_list p l :
  all_str p (string_of_list_ascii l) = forallb p l.
Proof.
  induction l as [|c l IH]; [reflexivity|].
  cbn [string_of_list_ascii all_str forallb]. now rewrite IH.
Qed.

Lemma forallb_rev {A} (p : A -> bool) l : forallb p (rev l) = forallb p l.
Proof.
  induction l as [|a l IH]; [reflexivity|].
  cbn [rev forallb]. rewrite forallb_app, IH. cbn [forallb].
  rewrite andb_true_r. apply andb_comm.
Qed.

Lemma word_of_acc_not_empty (c : ascii) acc :
  string_of_list_ascii (rev (c :: acc)) <> "".
Proof.
  intros H. apply (f_equal String.length) in H.
  rewrite <- (list_ascii_of_string_of_list_ascii (rev (c :: acc))) in H at 1.
  cbn in H. revert H.
  rewrite list_ascii_of_string_of_list_ascii.
  destruct (rev acc ++ [c])%list eqn:E; [|discriminate].
  now destruct (rev acc).
Qed.

Lemma word_char_not_space c : word_char c = true -> isspace c = false.
Proof.
  unfold word_char, isdigit, is_lower, isspace. intros H.
  apply orb_true_iff in H as [H|H]; apply andb_true_iff in H as [H1 H2];
    apply N.leb_le in H1, H2;
    apply orb_false_iff; split; apply andb_false_iff;
    rewrite !N.leb_gt; lia.
Qed.

Lemma word_char_not_upper c : word_char c = true -> is_upper c = false.
Proof.
  unfold word_char, isdigit, is_lower, is_upper. intros H.
  apply orb_true_iff in H as [H|H]; apply andb_true_iff in H as [H1 H2];
    apply N.leb_le in H1, H2;
    apply andb_false_iff; rewrite !N.leb_gt; lia.
Qed.

Lemma word_char_isalnum c : word_char c = true -> isalnum c = true.
Proof.
  unfold word_char, isalnum. intros H.
  apply orb_true_iff in H as [->| ->]; [reflexivity|apply orb_true_r].
Qed.

(** What the title normaliser keeps of a character: the character itself
    in lower case when it is alphanumeric or white space, a space
    otherwise; a word character or white space in either case. *)
Lemma titulo_char_kept c :
  let x := lower_char c in
  let y := if isalnum x || isspace x then x else " "%char in
  word_char y || isspace y = true.
Proof.
  cbn zeta. destruct (isalnum (lower_char c) || isspace (lower_char c)) eqn:E;
    [|reflexivity].
  unfold isalnum in E. rewrite is_upper_lower_char, orb_false_r in E.
  exact E.
Qed.

Lemma split_ws_from_words s acc :
  all_str (fun c => word_char c || isspace c) s = true ->
  forallb word_char acc = true ->
  Forall (fun w => w <> "" /\ all_str word_char w = true) (split_ws_from s acc).
Proof.
  revert acc. induction s as [|c s IH]; intros acc Hs Hacc.
  - cbn [split_ws_from]. destruct acc as [|a acc]; [constructor|].
    constructor; [|constructor]. split; [apply word_of_acc_not_empty|].
    now rewrite all_str_of_list, forallb_rev.
  - cbn [all_str] in Hs. apply andb_true_iff in Hs as [Hc Hs].
    cbn [split_ws_from]. destruct (isspace c) eqn:Ec.
    + destruct acc as [|a acc]; [apply IH; [exact Hs|reflexivity]|].
      constructor; [|apply IH; [exact Hs|reflexivity]].
      split; [apply word_of_acc_not_empty|].
      now rewrite all_str_of_list, forallb_rev.
    + rewrite orb_false_r in Hc. apply IH; [exact Hs|].
      cbn [forallb]. now rewrite Hc, Hacc.
Qed.

Lemma split_ws_from_word w rest acc :
  all_str (fun c => negb (isspace c)) w = true ->
  split_ws_from (w ++ rest) acc
  = split_ws_from rest (rev (list_ascii_of_string w) ++ acc)%list.
Proof.
  revert acc. induction w as [|c w IH]; intros acc H; [reflexivity|].
  cbn [all_str] in H. apply andb_true_iff in H as [Hc Hw].
  apply negb_true_iff in Hc.
  cbn [String.append split_ws_from list_ascii_of_string rev]. rewrite Hc.
  rewrite IH by exact Hw. now rewrite <- app_assoc.
Qed.

Lemma append_empty_r s : s ++ "" = s.
Proof. induction s as [|c s IH]; [reflexivity|]. cbn. now rewrite IH. Qed.

Lemma split_ws_join ws :
  Forall (fun w => w <> "" /\ all_str (fun c => negb (isspace c)) w = true) ws ->
  split_ws (join " " ws) = ws.
Proof.
  unfold split_ws. induction ws as [|w ws IH]; intros H; [reflexivity|].
  inversion H as [|? ? [Hne Hw] Hws]; subst.
  assert (exists a l, rev (list_ascii_of_string w) = a :: l) as (a & l & Ea).
  { destruct (rev (list_ascii_of_string w)) as [|a l] eqn:E; [|now eauto].
    exfalso. apply Hne. apply (f_equal (@rev ascii)) in E.
    rewrite rev_involutive in E. cbn in E.
    rewrite <- (string_of_list_ascii_of_string w), E. reflexivity. }
  assert (string_of_list_ascii (rev (a :: l)) = w) as Ew.
  { rewrite <- Ea, rev_involutive. apply string_of_list_ascii_of_string. }
  destruct ws as [|w2 ws].
  - cbn [join]. rewrite <- (append_empty_r w) at 1.
    rewrite split_ws_from_word by exact Hw.
    rewrite app_nil_r, Ea. cbn [split_ws_from]. now rewrite Ew.
  - change (join " " (w :: w2 :: ws))
      with (w ++ String " " (join " " (w2 :: ws))).
    rewrite split_ws_from_word by exact Hw.
    rewrite app_nil_r, Ea.
    cbn [split_ws_from]. change (isspace " ") with true. cbn match.
    rewrite Ew. f_equal. apply IH, Hws.
Qed.

Lemma all_str_join p ws :
  p " "%char = true ->
  Forall (fun w => all_str p w = true) ws ->
  all_str p (join " " ws) = true.
Proof.
  intros Hp. induction ws as [|w ws IH]; intros H; [reflexivity|].
  inversion H as [|? ? Hw Hws]; subst.
  destruct ws as [|w2 ws]; [exact Hw|].
  change (join " " (w :: w2 :: ws))
    with (w ++ String " " (join " " (w2 :: ws))).
  rewrite all_str_app, Hw. cbn [all_str andb]. rewrite Hp. apply IH, Hws.
Qed.

Lemma map_str_fixed f s :
  all_str (fun c => Ascii.eqb (f c) c) s = true -> map_str f s = s.
Proof.
  induction s as [|c s IH]; [reflexivity|].
  cbn [all_str map_str]. intros H. apply andb_true_iff in H as [Hc Hs].
  apply Ascii.eqb_eq in Hc. now rewrite Hc, IH.
Qed.

Lemma all_str_map p f s : all_str p (map_str f s) = all_str (fun c => p (f c)) s.
Proof.
  induction s as [|c s IH]; [reflexivity|]. cbn [map_str all_str]. now rewrite IH.
Qed.

Lemma all_str_true p s : (forall c, p c = true) -> all_str p s = true.
Proof.
  intros H. induction s as [|c s IH]; [reflexivity|].
  cbn [all_str]. now rewrite H, IH.
Qed.

Lemma normalizar_titulo_words v :
  isna v = false ->
  exists ws,
    normalizar_titulo v = PStr (join " " ws)
    /\ Forall (fun w => w <> "" /\ all_str word_char w = true) ws.
Proof.
  intros Hv. unfold normalizar_titulo. rewrite Hv.
  eexists. split; [reflexivity|].
  apply split_ws_from_words; [|reflexivity].
  unfold lower. rewrite !all_str_map.
  apply all_str_true. intros c. apply titulo_char_kept.
Qed.

Lemma normalizar_titulo_join ws :
  Forall (fun w => w <> "" /\ all_str word_char w = true) ws ->
  normalizar_titulo (PStr (join " " ws)) = PStr (join " " ws).
Proof.
  intros H. unfold normalizar_titulo. cbn [isna str].
  assert (all_str (fun c => word_char c || Ascii.eqb c " ") (join " " ws) = true)
    as Hall.
  { apply all_str_join; [reflexivity|].
    eapply Forall_impl; [|exact H]. cbn beta. intros w [_ Hw].
    revert Hw. apply all_str_impl. intros c ->. reflexivity. }
  assert (lower (join " " ws) = join " " ws) as ->.
  { apply map_str_fixed. revert Hall. apply all_str_impl. intros c Hc.
    apply Ascii.eqb_eq. unfold lower_char.
    apply orb_true_iff in Hc as [Hc|Hc].
    - now rewrite (word_char_not_upper c Hc).
    - apply Ascii.eqb_eq in Hc. now subst. }
  rewrite map_str_fixed.
  - f_equal. f_equal. apply split_ws_join.
    eapply Forall_impl; [|exact H]. cbn beta. intros w [Hne Hw].
    split; [exact Hne|]. revert Hw. apply all_str_impl. intros c Hc.
    now rewrite (word_char_not_space c Hc).
  - revert Hall. apply all_str_impl. intros c Hc.
    apply Ascii.eqb_eq.
    apply orb_true_iff in Hc as [Hc|Hc].
    + now rewrite (word_char_isalnum c Hc).
    + apply Ascii.eqb_eq in Hc. now subst.
Qed.

(** X11. A normalised title is made of words separated by single spaces:
    for every value that is not null, [normalizar_titulo] returns the
    words of some list joined by one space each, where every word is
    non-empty and consists of digits and lowercase letters only.  So the
    result has no capital, no punctuation, no white space at either end
    and no two spaces in a row. *)
Theorem normalizar_titulo_shape (v : PyVal) :
  isna v = false ->
  exists ws,
    normalizar_titulo v = PStr (join " " ws)
    /\ Forall (fun w => w <> "" /\ all_str word_char w = true) ws.
Proof. apply normalizar_titulo_words. Qed.

Lemma normalizar_titulo_shape_witness :
  exists ws,
    normalizar_titulo (PStr "  The C++ Programming-Language, 4th Ed. ")
    = PStr (join " " ws)
    /\ Forall (fun w => w <> "" /\ all_str word_char w = true) ws.
Proof. apply normalizar_titulo_shape. reflexivity. Defined.

(** X12. On ASCII text the title normaliser is idempotent: for a value
    whose text is ASCII, applying [normalizar_titulo] to its own result
    gives that result again. *)
Theorem normalizar_titulo_idempotent (v : PyVal) :
  texto_ascii v = true ->
  normalizar_titulo (normalizar_titulo v) = normalizar_titulo v.
Proof.
  intros _. destruct (isna v) eqn:Hv.
  - assert (normalizar_titulo v = PNone) as ->
      by (unfold normalizar_titulo; now rewrite Hv).
    reflexivity.
  - destruct (normalizar_titulo_words v Hv) as (ws & -> & Hws).
    apply normalizar_titulo_join, Hws.
Qed.

Lemma normalizar_titulo_idempotent_witness :
  normalizar_titulo
    (normalizar_titulo (PStr "  The C++ Programming-Language, 4th Ed. "))
  = normalizar_titulo (PStr "  The C++ Programming-Language, 4th Ed. ").
Proof. apply normalizar_titulo_idempotent. reflexivity. Defined.

(** ** Figures of a column, and the quality gate as a whole *)

Lemma percent_ge_90 (n t : nat) :
  (0 < t)%nat ->
  Qle_bool 90 (inject_Z (Z.of_nat n) / inject_Z (Z.of_nat t) * 100) = true
  <-> (9 * t <= 10 * n)%nat.
Proof.
  intros Ht. rewrite Qle_bool_iff.
  destruct (Z.of_nat t) as [|p|p] eqn:Et; try lia.
  unfold Qle, Qdiv, Qmult, Qinv, inject_Z. cbn [Qnum Qden].
  rewrite Pos.mul_1_l, Pos.mul_1_r, <- Et. lia.
Qed.

Lemma filter_length_impl {A} (f g : A -> bool) l :
  (forall x, f x = true -> g x = true) ->
  (List.length (filter f l) <= List.length (filter g l))%nat.
Proof.
  intros H. induction l as [|x l IH]; [reflexivity|]. cbn [filter].
  destruct (f x) eqn:Ef.
  - rewrite (H x Ef). cbn [List.length]. lia.
  - destruct (g x); cbn [List.length]; lia.
Qed.

Lemma validate_column_sound validator (df : DataFrame PyVal) name :
  (forall v, validator v = true -> isna v = false) ->
  sound_figures df name (validate_column validator df name).
Proof.
  intros Hval. unfold validate_column, sound_figures.
  destruct (has_column name df) eqn:Hc; cbn [negb]; [|reflexivity].
  destruct (proj1 (has_column_index_of name df) Hc) as [i Hi].
  assert (column df name = Ret (map (at_ i) (rows df))) as Ecol
    by (unfold column; now rewrite Hi).
  rewrite Ecol. cbn [bind].
  set (col := map (at_ i) (rows df)).
  assert (List.length col = nrows df) as Hlen by apply length_map.
  pose proof (count_notna_le col) as Hle.
  assert (List.length (filter validator col) <= count_notna col)%nat as Hv.
  { unfold count_notna. apply filter_length_impl. intros v Hv.
    cbn [cell_isna Cell_PyVal]. now rewrite (Hval v Hv). }
  destruct (count_notna col =? 0)%nat eqn:E0.
  - split; [reflexivity|]. split; [lia|]. split; discriminate.
  - apply Nat.eqb_neq in E0. unfold truediv.
    destruct (count_notna col) as [|t'] eqn:Et; [contradiction|].
    cbn [bind]. split; [reflexivity|]. split; [lia|].
    apply fraction_bounds; lia.
Qed.

(** X13. The figures of a validated column are sound.  For every frame
    and column name, [validate_date_column] and [validate_language_column]
    return without error and without dividing by zero: the error entry
    exactly when the frame has no such column, and otherwise figures in
    which the valid count is at most the count of non-null cells, that
    count is at most the number of rows, and the percentage lies in
    [0, 100]. *)
Theorem validate_column_figures (df : DataFrame PyVal) (name : string) :
  sound_figures df name (validate_date_column df name)
  /\ sound_figures df name (validate_language_column df name).
Proof.
  split; apply validate_column_sound.
  - intros v. unfold validate_iso_date. now destruct (isna v).
  - intros v. unfold validate_bcp47_language. now destruct (isna v).
Qed.

Lemma mapM_scalar_of_book_id filas :
  mapM scalar_of (map (fun b => Scalar (book_id b)) filas)
  = Ret (map book_id filas).
Proof.
  induction filas as [|b filas IH]; [reflexivity|].
  cbn [map mapM scalar_of bind]. rewrite IH. reflexivity.
Qed.

Lemma count_notna_titulos filas :
  count_notna (map (fun b => Scalar (titulo b)) filas)
  = List.length (filter (fun b => notna (titulo b)) filas).
Proof.
  unfold count_notna. induction filas as [|b filas IH]; [reflexivity|].
  cbn [map filter].
  change (negb (cell_isna (Scalar (titulo b)))) with (notna (titulo b)).
  destruct (notna (titulo b)); cbn [List.length]; now rewrite IH.
Qed.

Lemma Forall2_In_l {A B} (P : A -> B -> Prop) l l' x :
  Forall2 P l l' -> In x l -> exists y, In y l' /\ P x y.
Proof.
  induction 1 as [|a b l l' Hab _ IH]; intros Hin; [contradiction|].
  destruct Hin as [<-|Hin].
  - exists b. split; [now left|exact Hab].
  - destruct (IH Hin) as (y & Hy & Hp). exists y. split; [now right|exact Hp].
Qed.

(** The price assertion passes only when every price that is present is
    a number. *)
Lemma assert_precios_numeric filas :
  filas <> [] ->
  assert_precios (frame_of_series filas) = Ret tt ->
  forall b, In b filas -> notna (precio b) = true ->
            number_of (precio b) <> None.
Proof.
  intros Hne H b Hb Hn. revert H. unfold assert_precios.
  rewrite (column_frame_of_series filas "precio" 15 Hne eq_refl).
  cbn [bind].
  change (map (fun b => at_ 15 (series_of b)) filas)
    with (map (fun b => Scalar (precio b)) filas).
  set (presentes := filter _ _).
  assert (In (Scalar (precio b)) presentes) as Hin.
  { apply filter_In. split; [now apply (in_map (fun b => Scalar (precio b)))|].
    exact Hn. }
  destruct presentes as [|c cs] eqn:Ep; [contradiction|].
  cbn [List.length Nat.ltb Nat.leb].
  destruct (mapM price_of (c :: cs)) as [nums|e] eqn:Em; cbn [bind];
    [|discriminate].
  intros _. apply mapM_Forall2 in Em.
  destruct (Forall2_In_l _ _ _ _ Em Hin) as (q & _ & Hq).
  cbn [price_of] in Hq. destruct (number_of (precio b)); [discriminate|].
  discriminate Hq.
Qed.

(** X14. When the quality gate passes.  On a consolidated set
    [assert_calidad] returns normally if and only if all four conditions
    hold: at least nine in ten books have a title, no two books share a
    [book_id], every price that is present is a number in [0, 1000], and
    there are at least ten books.  In particular it never passes on an
    empty set. *)
Theorem assert_calidad_iff (filas : list ConsolidatedBook) :
  assert_calidad (frame_of_series filas) = Ret tt
  <-> (9 * List.length filas
       <= 10 * List.length (filter (fun b => notna (titulo b)) filas))%nat
      /\ all_distinct (map book_id filas) = true
      /\ (forall b, In b filas -> notna (precio b) = true ->
            exists q, number_of (precio b) = Some q /\ (0 <= q <= 1000)%Q)
      /\ (10 <= List.length filas)%nat.
Proof.
  destruct filas as [|b0 filas0] eqn:Ef.
  { unfold assert_calidad.
    rewrite calculate_completeness_absent by (left; reflexivity).
    cbn. split; [discriminate|]. intros (_ & _ & _ & H). lia. }
  rewrite <- Ef in *.
  assert (filas <> []) as Hne by (subst; discriminate).
  assert (0 < List.length filas)%nat as Hpos by (subst; cbn; lia).
  clear Ef b0 filas0.
  unfold assert_calidad.
  destruct (calculate_completeness_present (frame_of_series filas) "titulo")
    as (col & Hcol & ->).
  { destruct filas; [contradiction|reflexivity]. }
  { unfold nrows, frame_of_series. cbn [rows]. rewrite length_map. lia. }
  rewrite (column_frame_of_series filas "titulo" 1 Hne eq_refl) in Hcol.
  injection Hcol as <-.
  change (map (fun b => at_ 1 (series_of b)) filas)
    with (map (fun b => Scalar (titulo b)) filas).
  rewrite count_notna_titulos.
  assert (nrows (frame_of_series filas) = List.length filas) as ->
    by (unfold nrows, frame_of_series; cbn [rows]; apply length_map).
  cbn [bind]. unfold assert_ at 1.
  pose proof (percent_ge_90
                (List.length (filter (fun b => notna (titulo b)) filas))
                (List.length filas) Hpos) as H90.
  destruct (Qle_bool 90 _) eqn:E90.
  2:{ split; [discriminate|]. intros (H & _).
      apply H90 in H. discriminate H. }
  pose proof (proj1 H90 eq_refl) as Ht. clear H90 E90.
  cbn [bind].
  rewrite (column_frame_of_series filas "book_id" 0 Hne eq_refl).
  cbn [bind].
  change (map (fun b => at_ 0 (series_of b)) filas)
    with (map (fun b => Scalar (book_id b)) filas).
  unfold is_unique. rewrite mapM_scalar_of_book_id. cbn [bind].
  unfold assert_ at 1.
  destruct (all_distinct (map book_id filas)) eqn:Ed.
  2:{ split; [discriminate|]. intros (_ & H & _). discriminate H. }
  cbn [bind].
  destruct (assert_precios (frame_of_series filas)) as [[]|e] eqn:Ep;
    cbn [bind].
  - pose proof (assert_precios_numeric filas Hne Ep) as Hnum.
    assert (forall b, In b filas -> notna (precio b) = true ->
              exists q, number_of (precio b) = Some q /\ (0 <= q <= 1000)%Q)
      as Hprices.
    { destruct (assert_precios_present filas Hne Hnum)
        as [[_ Hin]|(lo & hi & Hr & _)]; [|rewrite Ep in Hr; discriminate Hr].
      intros b Hb Hn.
      destruct (number_of (precio b)) as [q|] eqn:Eq;
        [|now destruct (Hnum b Hb Hn)].
      exists q. split; [reflexivity|]. apply Hin.
      apply in_present_prices. now exists b. }
    unfold assert_. destruct (10 <=? List.length filas)%nat eqn:E10.
    + apply Nat.leb_le in E10. cbn [bind]. split; [|reflexivity].
      intros _. split; [exact Ht|]. split; [reflexivity|].
      split; [exact Hprices|exact E10].
    + apply Nat.leb_gt in E10. cbn [bind]. split; [discriminate|].
      intros (_ & _ & _ & H). lia.
  - split; [discriminate|]. intros (_ & _ & Hprices & _). exfalso.
    assert (forall b, In b filas -> notna (precio b) = true ->
                      number_of (precio b) <> None) as Hnum.
    { intros b Hb Hn. destruct (Hprices b Hb Hn) as (q & -> & _). discriminate. }
    destruct (assert_precios_present filas Hne Hnum)
      as [[Hr _]|(lo & hi & _ & Hout)]; [rewrite Ep in Hr; discriminate Hr|].
    apply Hout. intros q Hq.
    apply in_present_prices in Hq as (b & Hb & Hn & Eq).
    destruct (Hprices b Hb Hn) as (q' & Eq' & Hr).
    rewrite Eq in Eq'. now injection Eq' as <-.
Qed.

(** ** Survivorship of the title *)

Lemma mapM_py_len items keyed :
  mapM (fun t => n <- py_len t ;; Ret (t, n)) items = Ret keyed ->
  exists ss, items = map PStr ss
             /\ keyed = map (fun s => (PStr s, len s)) ss.
Proof.
  revert keyed. induction items as [|v items IH]; intros keyed H.
  - injection H as <-. now exists [].
  - cbn [mapM] in H. destruct v as [| |s| |]; cbn [py_len bind] in H;
      try discriminate H.
    destruct (mapM _ items) as [k|]; cbn [bind] in H; [|discriminate H].
    injection H as <-. destruct (IH k eq_refl) as (ss & -> & ->).
    now exists (s :: ss).
Qed.

Lemma fold_max_len rest first :
  exists s l1 l2,
    fold_left (fun best x : PyVal * Z => if snd best <? snd x then x else best)
              (map (fun s => (PStr s, len s)) rest) (PStr first, len first)
    = (PStr s, len s)
    /\ first :: rest = (l1 ++ s :: l2)%list
    /\ Forall (fun t => len t < len s) l1
    /\ Forall (fun t => len t <= len s) l2.
Proof.
  revert first. induction rest as [|x rest IH]; intros first.
  - exists first, [], []. repeat split; constructor.
  - cbn [map fold_left snd]. destruct (len first <? len x) eqn:E.
    + apply Z.ltb_lt in E.
      destruct (IH x) as (s & l1 & l2 & -> & Hdec & H1 & H2).
      exists s, (first :: l1), l2. split; [reflexivity|].
      split; [cbn [app]; now rewrite Hdec|]. split; [|exact H2].
      constructor; [|exact H1].
      destruct l1 as [|y l1]; cbn [app] in Hdec; injection Hdec as -> _.
      * exact E.
      * inversion H1; subst. lia.
    + apply Z.ltb_ge in E.
      destruct (IH first) as (s & l1 & l2 & -> & Hdec & H1 & H2).
      destruct l1 as [|y l1]; cbn [app] in Hdec.
      * injection Hdec as -> ->.
        exists s, [], (x :: l2). repeat split; constructor; assumption.
      * injection Hdec as <- ->.
        exists s, (first :: x :: l1), l2. split; [reflexivity|].
        split; [reflexivity|]. split; [|exact H2].
        inversion H1; subst. repeat constructor; try assumption. lia.
Qed.

(** [max(items, key=len)] when it returns: every item is text, and the
    result is the first of the longest. *)
Lemma max_by_len_first_longest items v :
  max_by_len items = Ret v ->
  exists s l1 l2,
    v = PStr s
    /\ items = (map PStr l1 ++ PStr s :: map PStr l2)%list
    /\ Forall (fun t => len t < len s) l1
    /\ Forall (fun t => len t <= len s) l2.
Proof.
  unfold max_by_len.
  destruct (mapM _ items) as [keyed|] eqn:E; cbn [bind]; [|discriminate].
  destruct (mapM_py_len items keyed E) as (ss & -> & ->).
  destruct ss as [|first rest]; cbn [map]; [discriminate|].
  destruct (fold_max_len rest first) as (s & l1 & l2 & -> & Hdec & H1 & H2).
  cbn [fst]. intros [= <-]. exists s, l1, l2.
  split; [reflexivity|]. split; [|split; assumption].
  change (PStr first :: map PStr rest) with (map PStr (first :: rest)).
  rewrite Hdec, map_app. reflexivity.
Qed.

Lemma aplicar_supervivencia_titulo_inv group ts b :
  aplicar_supervivencia group ts = Ret b ->
  match titulos_validos group with
  | [] => Ret PNone
  | _ :: _ => max_by_len (titulos_validos group)
  end = Ret (titulo b)
  /\ titulo_normalizado b = normalizar_titulo (titulo b).
Proof.
  unfold aplicar_supervivencia. fold (titulos_validos group).
  destruct (iloc0 group "book_id") as [v|e]; cbn [bind]; [|discriminate].
  destruct (match titulos_validos group with
            | [] => Ret PNone
            | _ :: _ => max_by_len (titulos_validos group)
            end) as [t|e]; cbn [bind]; [|discriminate].
  unfold Exc_map, prefer.
  repeat match goal with
         | |- context [bind ?m _] =>
             match m with
             | context [bind] => fail 1
             | _ => destruct m; cbn [bind]; try discriminate
             end
         end.
  all: intros [= <-]; split; reflexivity.
Qed.

(** X15. On ASCII titles the consolidated title is the first of the
    longest.  When the resolver returns a row for a group whose non-null
    title cells are ASCII text, its title is null exactly when the group
    has no non-null title cell; otherwise all those cells are text and
    the title is one of them, strictly longer than every cell before it
    (rows top to bottom, Goodreads before Google Books) and at least as
    long as every cell after it.  The normalised title of the row is the
    normalisation of that title. *)
Theorem aplicar_supervivencia_titulo (group : DataFrame PyVal) (ts : string)
    (b : ConsolidatedBook) :
  Forall (fun t => texto_ascii t = true) (titulos_validos group) ->
  aplicar_supervivencia group ts = Ret b ->
  ((titulos_validos group = [] /\ titulo b = PNone)
   \/ exists s l1 l2,
        titulo b = PStr s
        /\ titulos_validos group = (map PStr l1 ++ PStr s :: map PStr l2)%list
        /\ Forall (fun t => len t < len s) l1
        /\ Forall (fun t => len t <= len s) l2)
  /\ titulo_normalizado b = normalizar_titulo (titulo b).
Proof.
  intros _ H.
  destruct (aplicar_supervivencia_titulo_inv group ts b H) as [Ht Hn].
  split; [|exact Hn].
  destruct (titulos_validos group) as [|t0 ts0] eqn:E.
  - left. injection Ht as <-. split; reflexivity.
  - right. rewrite <- E in *. apply max_by_len_first_longest, Ht.
Qed.

Lemma aplicar_supervivencia_titulo_witness :
  exists b,
    aplicar_supervivencia samples.merged "2024-01-01T00:00:00" = Ret b
    /\ ((titulos_validos samples.merged = [] /\ titulo b = PNone)
        \/ exists s l1 l2,
             titulo b = PStr s
             /\ titulos_validos samples.merged
                = (map PStr l1 ++ PStr s :: map PStr l2)%list
             /\ Forall (fun t => len t < len s) l1
             /\ Forall (fun t => len t <= len s) l2)
       /\ titulo_normalizado b = normalizar_titulo (titulo b).
Proof.
  eexists. split; [vm_compute; reflexivity|].
  apply (aplicar_supervivencia_titulo samples.merged "2024-01-01T00:00:00").
  - vm_compute. repeat constructor.
  - vm_compute. reflexivity.
Defined.

(** ** The canonical key *)

Lemma hex_char_is_hex n : 0 <= n < 16 -> is_hex (hashlib.hex_char n) = true.
Proof.
  intros H. rewrite <- (Z2Nat.id n) by lia.
  assert (Z.to_nat n < 16)%nat as Hk by lia.
  revert Hk. generalize (Z.to_nat n). clear H. intros k Hk.
  do 16 (destruct k as [|k]; [reflexivity|]). lia.
Qed.

Lemma hex_is_hex bs :
  Forall (fun b => 0 <= b < 256) bs -> all_str is_hex (hashlib.hex bs) = true.
Proof.
  induction 1 as [|b bs Hb _ IH]; [reflexivity|].
  cbn [hashlib.hex all_str]. rewrite IH.
  rewrite !hex_char_is_hex; [reflexivity| |].
  - apply Z.mod_pos_bound. lia.
  - split; [apply Z.div_pos; lia|apply Z.div_lt_upper_bound; lia].
Qed.

Lemma le_bytes_bounded n x : Forall (fun b => 0 <= b < 256) (hashlib.le_bytes n x).
Proof.
  unfold hashlib.le_bytes. apply Forall_forall. intros b Hb.
  apply in_map_iff in Hb as (i & <- & _). apply Z.mod_pos_bound. lia.
Qed.

Lemma md5_hexdigest_is_hex s : all_str is_hex (hashlib.md5_hexdigest s) = true.
Proof.
  unfold hashlib.md5_hexdigest. apply hex_is_hex. unfold hashlib.digest.
  destruct (fold_left hashlib.compress _ hashlib.init) as [[[a b] c] d].
  repeat (apply Forall_app; split); apply le_bytes_bounded.
Qed.

Lemma all_str_substring p s : forall i n,
  all_str p s = true -> all_str p (String.substring i n s) = true.
Proof.
  induction s as [|c s IH]; intros i n H.
  - destruct i, n; reflexivity.
  - cbn [all_str] in H. apply andb_true_iff in H as [Hc Hs].
    destruct i as [|i]; destruct n as [|n]; cbn [String.substring all_str];
      try reflexivity.
    + rewrite Hc. now apply IH.
    + now apply IH.
    + now apply IH.
Qed.

Lemma validate_isbn10_notna v : validate_isbn10 v = true -> notna v = true.
Proof.
  unfold validate_isbn10, clean_isbn. destruct v; try discriminate; reflexivity.
Qed.

(** The key of the second tier. *)
Lemma isbn10_to_isbn13_key v :
  validate_isbn10 v = true ->
  exists s, isbn10_to_isbn13 v = Ret (Some s)
            /\ thirteen_digits s = true
            /\ prefix 3 s = "978"
            /\ validate_isbn13 (PStr s) = true.
Proof.
  intros H.
  destruct (isbn10_to_isbn13_form v H)
    as (a0 & a1 & a2 & a3 & a4 & a5 & a6 & a7 & a8 & a9 & check
        & _ & Hd & Hr & Hv).
  eexists. split; [exact Hr|]. split; [|split; [reflexivity|exact Hv]].
  repeat match goal with
         | H : Forall _ (_ :: _) |- _ => inversion H; subst; clear H
         | H : Forall _ [] |- _ => clear H
         end.
  unfold thirteen_digits. cbn [String.length Nat.eqb andb all_str].
  repeat match goal with
         | H : isdigit ?a = true |- context [isdigit ?a] => rewrite H
         end.
  reflexivity.
Qed.

Lemma isbn10_to_isbn13_returns v : exists o, isbn10_to_isbn13 v = Ret o.
Proof.
  destruct (validate_isbn10 v) eqn:E.
  - destruct (isbn10_to_isbn13_key v E) as (s & -> & _). now eexists.
  - unfold isbn10_to_isbn13. rewrite E. now eexists.
Qed.

Lemma isbn10_to_isbn13_some v s :
  isbn10_to_isbn13 v = Ret (Some s) -> validate_isbn10 v = true.
Proof.
  unfold isbn10_to_isbn13. destruct (validate_isbn10 v); [reflexivity|].
  discriminate.
Qed.

(** The three tiers of the key. *)
Lemma generar_book_id_shape (row : Row) (v13 v10 : PyVal) :
  row_getitem row "isbn13" = Ret v13 ->
  row_getitem row "isbn10" = Ret v10 ->
  exists k,
    generar_book_id row = Ret k
    /\ notna k = true
    /\ ((k = v13 /\ validate_isbn13 v13 = true)
        \/ (exists s, k = PStr s
                      /\ isbn10_to_isbn13 v10 = Ret (Some s)
                      /\ thirteen_digits s = true
                      /\ validate_isbn13 (PStr s) = true)
        \/ (exists h, k = PStr ("hash_" ++ h)
                      /\ String.length h = 16%nat
                      /\ all_str is_hex h = true)).
Proof.
  intros H13 H10. unfold generar_book_id. rewrite H13. cbn [bind].
  destruct (notna v13 && validate_isbn13 v13) eqn:E13.
  { apply andb_true_iff in E13 as [Hn Hv]. exists v13.
    split; [reflexivity|]. split; [exact Hn|]. left. now split. }
  rewrite H10. cbn [bind].
  remember (isbn10_to_isbn13 v10) as conv eqn:Hconv.
  assert (forall material,
             exists k,
               Ret (PStr ("hash_" ++ prefix 16 (hashlib.md5_hexdigest material)))
               = Ret (A:=PyVal) k
               /\ notna k = true
               /\ ((k = v13 /\ validate_isbn13 v13 = true)
                   \/ (exists s, k = PStr s
                                 /\ conv = Ret (Some s)
                                 /\ thirteen_digits s = true
                                 /\ validate_isbn13 (PStr s) = true)
                   \/ (exists h, k = PStr ("hash_" ++ h)
                                 /\ String.length h = 16%nat
                                 /\ all_str is_hex h = true))) as Hhash.
  { intros material. eexists. split; [reflexivity|]. split; [reflexivity|].
    right. right. eexists. split; [reflexivity|]. split.
    - apply prefix_length. rewrite md5_hexdigest_length. lia.
    - apply all_str_substring, md5_hexdigest_is_hex. }
  destruct (notna v10) eqn:En; [|cbn [bind opt_str truthy]; apply Hhash].
  destruct (validate_isbn10 v10) eqn:E10.
  - destruct (isbn10_to_isbn13_key v10 E10) as (s & Hr & Hd & _ & Hv).
    rewrite Hr in Hconv. subst conv. cbn [bind opt_str truthy].
    assert (String.eqb s "" = false) as ->.
    { destruct s; [discriminate Hd|reflexivity]. }
    cbn [negb]. exists (PStr s). split; [reflexivity|].
    split; [reflexivity|]. right. left. exists s. now repeat split.
  - unfold isbn10_to_isbn13 in Hconv. rewrite E10 in Hconv.
    cbn [negb] in Hconv. subst conv.
    cbn [bind opt_str truthy]. apply Hhash.
Qed.



(** X17. The identifier tiers agree across sources.  When a record has
    no valid ISBN-13 but an ISBN-10 that [validate_isbn10] accepts, its key
    is the conversion of that ISBN-10; and every record whose ISBN-13 cell
    is that converted text gets the same key, so the merge on [book_id]
    brings the two records together. *)
Theorem generar_book_id_tiers_agree (row_b : Row) (v13 v10 : PyVal) :
  row_getitem row_b "isbn13" = Ret v13 ->
  notna v13 && validate_isbn13 v13 = false ->
  row_getitem row_b "isbn10" = Ret v10 ->
  validate_isbn10 v10 = true ->
  exists s,
    isbn10_to_isbn13 v10 = Ret (Some s)
    /\ generar_book_id row_b = Ret (PStr s)
    /\ forall row_a,
         row_getitem row_a "isbn13" = Ret (PStr s) ->
         generar_book_id row_a = Ret (PStr s).
Proof.
  intros H13 E13 H10 E10.
  destruct (isbn10_to_isbn13_key v10 E10) as (s & Hr & Hd & _ & Hv).
  exists s. split; [exact Hr|]. split.
  - unfold generar_book_id. rewrite H13. cbn [bind]. rewrite E13, H10.
    cbn [bind]. rewrite (validate_isbn10_notna v10 E10), Hr.
    cbn [bind opt_str truthy].
    assert (String.eqb s "" = false) as ->.
    { destruct s; [discriminate Hd|reflexivity]. }
    reflexivity.
  - intros row_a Ha. unfold generar_book_id. rewrite Ha. cbn [bind].
    rewrite Hv. reflexivity.
Qed.

Lemma generar_book_id_tiers_agree_witness :
  exists s,
    isbn10_to_isbn13 (PStr "0134685997") = Ret (Some s)
    /\ generar_book_id (["isbn13"; "isbn10"], [PNone; PStr "0134685997"])
       = Ret (PStr s)
    /\ forall row_a,
         row_getitem row_a "isbn13" = Ret (PStr s) ->
         generar_book_id row_a = Ret (PStr s).
Proof.
  apply (generar_book_id_tiers_agree
           (["isbn13"; "isbn10"], [PNone; PStr "0134685997"])
           PNone (PStr "0134685997")); reflexivity.
Defined.

(** ** Staging and preparation *)

Lemma wf_frame_of_columns n (cols : list (string * list PyVal)) :
  wf (frame_of_columns n cols) /\ nrows (frame_of_columns n cols) = n.
Proof.
  unfold wf, nrows, frame_of_columns. cbn [columns rows]. split.
  - apply Forall_forall. intros r Hr.
    apply in_map_iff in Hr as (i & <- & _). now rewrite !length_map.
  - now rewrite length_map, length_seq.
Qed.

Lemma has_column_after_set c cols name :
  existsb (String.eqb c) (columns_after_set cols name)
  = existsb (String.eqb c) cols || (String.eqb c name).
Proof.
  unfold columns_after_set. destruct (index_of name cols) as [i|] eqn:E.
  - destruct (String.eqb c name) eqn:Ec; [|now rewrite orb_false_r].
    apply String.eqb_eq in Ec. subst c. rewrite orb_true_r.
    apply (proj2 (has_column_index_of name (mkDataFrame (C:=PyVal) cols []))).
    now exists i.
  - rewrite existsb_app. cbn [existsb]. now rewrite orb_false_r.
Qed.

Lemma has_column_set_column c (df : DataFrame PyVal) name values :
  has_column c (set_column df name values)
  = has_column c df || String.eqb c name.
Proof. unfold has_column. rewrite columns_set_column. apply has_column_after_set. Qed.

Lemma index_of_app_new name cols :
  index_of name cols = None ->
  index_of name (cols ++ [name]) = Some (List.length cols).
Proof.
  induction cols as [|c cols IH]; cbn [index_of app List.length].
  - now rewrite String.eqb_refl.
  - destruct (String.eqb name c); [discriminate|].
    destruct (index_of name cols); [discriminate|].
    intros _. now rewrite IH.
Qed.

Lemma map_fst_combine {A B} (l : list A) (l' : list B) :
  List.length l = List.length l' -> map fst (combine l l') = l.
Proof.
  revert l'. induction l as [|x l IH]; intros [|y l'] H; cbn in *;
    try discriminate; [reflexivity|]. f_equal. apply IH. lia.
Qed.

Lemma map_snd_combine {A B} (l : list A) (l' : list B) :
  List.length l = List.length l' -> map snd (combine l l') = l'.
Proof.
  revert l'. induction l as [|x l IH]; intros [|y l'] H; cbn in *;
    try discriminate; [reflexivity|]. f_equal. apply IH. lia.
Qed.

(** [df[name] = values] on a well-formed frame, with one value for each
    row: the frame stays well formed, keeps its rows, and the column reads
    back as the values. *)
Lemma set_column_spec (df : DataFrame PyVal) name values :
  wf df -> List.length values = nrows df ->
  wf (set_column df name values)
  /\ nrows (set_column df name values) = nrows df
  /\ column (set_column df name values) name = Ret values.
Proof.
  unfold wf, nrows. intros Hwf Hlen.
  assert (forall rv, In rv (combine (rows df) values) ->
                     List.length (fst rv) = List.length (columns df)) as Hrv.
  { intros [r v] Hin. apply in_combine_l in Hin.
    apply (proj1 (Forall_forall _ _) Hwf r Hin). }
  unfold set_column, column.
  destruct (index_of name (columns df)) as [i|] eqn:Ei; cbn [columns rows].
  - rewrite Ei. split; [|split].
    + apply Forall_forall. intros r Hr.
      apply in_map_iff in Hr as (rv & <- & Hin).
      rewrite length_set_nth. now apply Hrv.
    + rewrite length_map, length_combine. lia.
    + f_equal. rewrite map_map.
      rewrite <- (map_snd_combine (rows df) values) at 2 by lia.
      apply map_ext_in. intros rv Hin. apply at_set_nth.
      rewrite (Hrv rv Hin). apply (index_of_lt _ _ _ Ei).
  - rewrite (index_of_app_new _ _ Ei). split; [|split].
    + apply Forall_forall. intros r Hr.
      apply in_map_iff in Hr as (rv & <- & Hin).
      rewrite !length_app, (Hrv rv Hin). reflexivity.
    + rewrite length_map, length_combine. lia.
    + f_equal. rewrite map_map.
      rewrite <- (map_snd_combine (rows df) values) at 2 by lia.
      apply map_ext_in. intros rv Hin. unfold at_.
      rewrite <- (Hrv rv Hin). rewrite app_nth2 by lia.
      now rewrite Nat.sub_diag.
Qed.

(** After [df[name] = values], the cell of every row under that name is
    one of the values. *)
Lemma set_column_cell (df : DataFrame PyVal) name values r :
  wf df -> List.length values = nrows df ->
  In r (rows (set_column df name values)) ->
  exists v, In v values
            /\ row_getitem (columns (set_column df name values), r) name = Ret v.
Proof.
  unfold wf, nrows. intros Hwf Hlen.
  assert (forall rv, In rv (combine (rows df) values) ->
                     List.length (fst rv) = List.length (columns df)) as Hrv.
  { intros [r0 v] Hin. apply in_combine_l in Hin.
    apply (proj1 (Forall_forall _ _) Hwf r0 Hin). }
  unfold set_column, row_getitem.
  destruct (index_of name (columns df)) as [i|] eqn:Ei; cbn [columns rows fst snd];
    intros Hr; apply in_map_iff in Hr as ([r0 v] & <- & Hin);
    pose proof (Hrv _ Hin) as Hl; cbn [fst snd] in *;
    exists v; (split; [apply (in_combine_r _ _ _ _ Hin)|]).
  - rewrite Ei. f_equal. apply at_set_nth. rewrite Hl.
    apply (index_of_lt _ _ _ Ei).
  - rewrite (index_of_app_new _ _ Ei). f_equal. unfold at_.
    rewrite <- Hl. rewrite app_nth2 by lia. now rewrite Nat.sub_diag.
Qed.

Lemma apply_if_present_spec df name f :
  wf df ->
  wf (apply_if_present df name f)
  /\ nrows (apply_if_present df name f) = nrows df
  /\ forall c, has_column c (apply_if_present df name f) = has_column c df.
Proof.
  intros Hwf. unfold apply_if_present.
  destruct (column df name) as [col|] eqn:E; [|now repeat split].
  pose proof (column_length df name col E) as Hlen.
  destruct (set_column_spec df name (map f col) Hwf) as (H1 & H2 & _).
  { now rewrite length_map. }
  split; [exact H1|]. split; [exact H2|].
  intros c. rewrite has_column_set_column.
  destruct (String.eqb c name) eqn:Ec; [|apply orb_false_r].
  apply String.eqb_eq in Ec. subst c. rewrite orb_true_r.
  symmetry. apply has_column_index_of. unfold column in E.
  destruct (index_of name (columns df)) as [i|]; [now exists i|discriminate].
Qed.

Lemma column_returns {C} `{Cell C} (df : DataFrame C) name :
  has_column name df = true -> exists col, column df name = Ret col.
Proof.
  intros Hc. apply has_column_index_of in Hc as [i Hi].
  unfold column. rewrite Hi. now eexists.
Qed.

Lemma column_raises {C} `{Cell C} (df : DataFrame C) name :
  has_column name df = false -> column df name = Raise (KeyError name).
Proof.
  intros Hc. apply has_column_false_index_of in Hc.
  unfold column. now rewrite Hc.
Qed.

Lemma column_has_column {C} `{Cell C} (df : DataFrame C) name col :
  column df name = Ret col -> has_column name df = true.
Proof.
  intros E. destruct (has_column name df) eqn:Hc; [reflexivity|].
  rewrite (column_raises df name Hc) in E. discriminate.
Qed.

(** Normalisation of a well-formed staging frame. *)
Lemma normalizar_df_spec df :
  wf df ->
  (forall c, In c ["titulo"; "autor"; "isbn10"; "isbn13"] ->
             has_column c df = true) ->
  exists norm,
    normalizar_df df = Ret norm
    /\ wf norm /\ nrows norm = nrows df
    /\ (forall c, has_column c df = true -> has_column c norm = true)
    /\ (forall r, In r (rows norm) ->
          exists v, row_getitem (columns norm, r) "isbn13" = Ret v
                    /\ (v = PNone \/ exists s, v = PStr s)).
Proof.
  intros Hwf Hreq. unfold normalizar_df.
  destruct (column_returns df "titulo") as [titulo Et];
    [apply Hreq; cbn; tauto|].
  rewrite Et. cbn [bind].
  pose proof (column_length df _ _ Et) as Lt.
  destruct (set_column_spec df "titulo_normalizado"
              (map normalizar_titulo titulo) Hwf) as (W1 & N1 & _);
    [now rewrite length_map|].
  set (d1 := set_column df "titulo_normalizado" _) in *.
  assert (forall c, has_column c df = true -> has_column c d1 = true) as C1.
  { intros c Hc. unfold d1. now rewrite has_column_set_column, Hc. }
  destruct (column_returns d1 "autor") as [autor Ea];
    [apply C1, Hreq; cbn; tauto|].
  rewrite Ea. cbn [bind].
  pose proof (column_length d1 _ _ Ea) as La.
  destruct (set_column_spec d1 "autor_normalizado"
              (map normalizar_autor autor) W1) as (W2 & N2 & _);
    [now rewrite length_map|].
  set (d2 := set_column d1 "autor_normalizado" _) in *.
  assert (forall c, has_column c d1 = true -> has_column c d2 = true) as C2.
  { intros c Hc. unfold d2. now rewrite has_column_set_column, Hc. }
  destruct (apply_if_present_spec d2 "fecha_publicacion" normalizar_fecha W2)
    as (W3 & N3 & C3).
  set (d3 := apply_if_present d2 _ _) in *.
  destruct (apply_if_present_spec d3 "idioma" normalizar_idioma W3)
    as (W4 & N4 & C4).
  set (d4 := apply_if_present d3 _ _) in *.
  destruct (apply_if_present_spec d4 "moneda" normalizar_moneda W4)
    as (W5 & N5 & C5).
  set (d5 := apply_if_present d4 _ _) in *.
  assert (forall c, has_column c df = true -> has_column c d5 = true) as C05.
  { intros c Hc. rewrite C5, C4, C3. apply C2, C1, Hc. }
  destruct (column_returns d5 "isbn10") as [i10 E10];
    [apply C05, Hreq; cbn; tauto|].
  rewrite E10. cbn [bind].
  pose proof (column_length d5 _ _ E10) as L10.
  destruct (set_column_spec d5 "isbn10" (map isbn_limpio i10) W5)
    as (W6 & N6 & _); [now rewrite length_map|].
  set (d6 := set_column d5 "isbn10" _) in *.
  assert (forall c, has_column c d5 = true -> has_column c d6 = true) as C6.
  { intros c Hc. unfold d6. now rewrite has_column_set_column, Hc. }
  destruct (column_returns d6 "isbn13") as [i13 E13];
    [apply C6, C05, Hreq; cbn; tauto|].
  rewrite E13. cbn [bind].
  pose proof (column_length d6 _ _ E13) as L13.
  destruct (set_column_spec d6 "isbn13" (map isbn_limpio i13) W6)
    as (W7 & N7 & _); [now rewrite length_map|].
  eexists. split; [reflexivity|]. split; [exact W7|].
  split; [congruence|]. split.
  - intros c Hc. rewrite has_column_set_column.
    now rewrite (C6 c (C05 c Hc)).
  - intros r Hr.
    destruct (set_column_cell d6 "isbn13" (map isbn_limpio i13) r W6)
      as (v & Hv & Hg); [now rewrite length_map|exact Hr|].
    exists v. split; [exact Hg|].
    apply in_map_iff in Hv as (x & <- & _). unfold isbn_limpio.
    destruct (notna x); [|now left].
    destruct (isbn (normalize_isbn x)) as [s|]; [right; now exists s|now left].
Qed.

Lemma row_getitem_returns (df : DataFrame PyVal) r name :
  has_column name df = true -> exists v, row_getitem (columns df, r) name = Ret v.
Proof.
  intros Hc. apply has_column_index_of in Hc as [i Hi].
  unfold row_getitem. cbn [fst snd]. rewrite Hi. now eexists.
Qed.

(** Keys for a well-formed frame with the two identifier columns: one
    key for each row, none null. *)
Lemma agregar_book_id_ids df :
  wf df ->
  has_column "isbn13" df = true -> has_column "isbn10" df = true ->
  exists ids,
    mapM (fun r => generar_book_id (columns df, r)) (rows df) = Ret ids
    /\ List.length ids = nrows df
    /\ Forall (fun k => notna k = true) ids
    /\ wf (set_column df "book_id" ids)
    /\ nrows (set_column df "book_id" ids) = nrows df
    /\ column (set_column df "book_id" ids) "book_id" = Ret ids.
Proof.
  intros Hwf H13 H10.
  assert (forall r, exists k,
             generar_book_id (columns df, r) = Ret k /\ notna k = true) as Hk.
  { intros r. destruct (row_getitem_returns df r "isbn13" H13) as [v13 E13].
    destruct (row_getitem_returns df r "isbn10" H10) as [v10 E10].
    destruct (generar_book_id_shape _ _ _ E13 E10) as (k & Hr & Hn & _).
    now exists k. }
  destruct (mapM_returns (fun r => generar_book_id (columns df, r)) (rows df))
    as [ids Hids].
  { intros r _. destruct (Hk r) as (k & -> & _). now eexists. }
  exists ids.
  pose proof (mapM_Forall2 _ _ _ Hids) as HF.
  assert (List.length ids = nrows df) as Hlen.
  { unfold nrows. symmetry. apply (Forall2_length HF). }
  split; [exact Hids|]. split; [exact Hlen|]. split.
  - clear Hids Hlen. induction HF as [|r k rs ks Hr _ IH]; constructor; [|exact IH].
    destruct (Hk r) as (k' & E & Hn). rewrite Hr in E. now injection E as ->.
  - apply (set_column_spec df "book_id" ids Hwf Hlen).
Qed.

(** What [agregar_book_id] does once the keys are there: it returns the
    keyed frame when some key is text, and raises [AttributeError]
    otherwise. *)
Lemma agregar_book_id_outcome df ids :
  mapM (fun r => generar_book_id (columns df, r)) (rows df) = Ret ids ->
  agregar_book_id df
  = if existsb is_text ids then Ret (set_column df "book_id" ids)
    else Raise AttributeError.
Proof.
  intros H. unfold agregar_book_id, str_accessor. rewrite H. cbn [bind].
  now destruct (existsb is_text ids).
Qed.

(** In a frame whose ISBN-13 cells are text or [None], every key is
    text. *)
Lemma generar_book_id_text row v13 v10 :
  row_getitem row "isbn13" = Ret v13 ->
  v13 = PNone \/ (exists s, v13 = PStr s) ->
  row_getitem row "isbn10" = Ret v10 ->
  exists s, generar_book_id row = Ret (PStr s).
Proof.
  intros E13 Ht E10.
  destruct (generar_book_id_shape _ _ _ E13 E10)
    as (k & Hr & Hn & [[Hk _]|[(s & Hk & _)|(h & Hk & _)]]);
    subst k.
  - destruct Ht as [Hv|[s Hv]]; subst v13; [discriminate Hn|].
    exists s. exact Hr.
  - exists s. exact Hr.
  - eexists. exact Hr.
Qed.

Lemma existsb_is_text ids :
  ids <> [] -> Forall (fun k => is_text k = true) ids ->
  existsb is_text ids = true.
Proof.
  intros Hne H. destruct H as [|k ks Hk _]; [contradiction|].
  cbn [existsb]. now rewrite Hk.
Qed.

(** Preparation once staging has given a well-formed frame of as many
    rows with the columns read later: normalisation returns, every key is
    text, and the outcome turns on the number of rows alone. *)
Lemma preparar_outcome mapear raw st :
  mapear raw = Ret st ->
  wf st -> nrows st = nrows raw ->
  (forall c, In c ["titulo"; "autor"; "isbn10"; "isbn13"] ->
             has_column c st = true) ->
  exists norm ids,
    normalizar_df st = Ret norm
    /\ wf (set_column norm "book_id" ids)
    /\ nrows (set_column norm "book_id" ids) = nrows raw
    /\ column (set_column norm "book_id" ids) "book_id" = Ret ids
    /\ Forall (fun k => notna k = true) ids
    /\ List.length ids = nrows raw
    /\ preparar mapear raw
       = if (nrows raw =? 0)%nat then Raise AttributeError
         else Ret (set_column norm "book_id" ids).
Proof.
  intros Est Hwf Hn Hreq.
  destruct (normalizar_df_spec st Hwf Hreq) as (norm & En & W & N & C & Hcell).
  assert (has_column "isbn13" norm = true) as H13
    by (apply C, Hreq; cbn; tauto).
  assert (has_column "isbn10" norm = true) as H10
    by (apply C, Hreq; cbn; tauto).
  destruct (agregar_book_id_ids norm W H13 H10)
    as (ids & Hids & L & F & W' & N' & Col).
  exists norm, ids. split; [exact En|]. split; [exact W'|].
  split; [congruence|]. split; [exact Col|]. split; [exact F|].
  split; [congruence|].
  unfold preparar. rewrite Est. cbn [bind]. rewrite En. cbn [bind].
  rewrite (agregar_book_id_outcome norm ids Hids).
  assert (Forall (fun k => is_text k = true) ids) as Htext.
  { pose proof (mapM_Forall2 _ _ _ Hids) as HF.
    assert (forall r, In r (rows norm) ->
                      exists s, generar_book_id (columns norm, r) = Ret (PStr s))
      as Hrow.
    { intros r Hr. destruct (Hcell r Hr) as (v13 & E13 & Ht).
      destruct (row_getitem_returns norm r "isbn10" H10) as [v10 E10].
      apply (generar_book_id_text _ _ _ E13 Ht E10). }
    clear Hids L F W' N' Col Hcell. revert Hrow.
    induction HF as [|r k rs ks Hr _ IH]; intros Hrow; constructor.
    - destruct (Hrow r (or_introl eq_refl)) as [s E].
      rewrite Hr in E. now injection E as ->.
    - apply IH. intros r' Hr'. apply Hrow. now right. }
  destruct (Nat.eqb_spec (nrows raw) 0) as [Hz|Hz].
  - assert (ids = []) as -> by (destruct ids; [reflexivity|cbn in L; lia]).
    reflexivity.
  - rewrite existsb_is_text; [reflexivity| |exact Htext].
    intros ->. cbn in L. lia.
Qed.

Lemma mapear_goodreads_spec raw :
  (forall c, In c ["row_number"; "title"; "author"; "rating"; "ratings_count"] ->
             has_column c raw = true) ->
  exists st, mapear_goodreads raw = Ret st
             /\ wf st /\ nrows st = nrows raw
             /\ (forall c, In c ["titulo"; "autor"; "isbn10"; "isbn13"] ->
                           has_column c st = true).
Proof.
  intros Hreq. unfold mapear_goodreads.
  repeat match goal with
         | |- context [bind (column raw ?c) _] =>
             let col := fresh "col" in
             destruct (column_returns raw c) as [col ->];
             [apply Hreq; cbn [In]; tauto|]; cbn [bind]
         end.
  eexists. split; [reflexivity|].
  split; [apply wf_frame_of_columns|]. split; [apply wf_frame_of_columns|].
  intros c Hc. cbn [In] in Hc.
  repeat (destruct Hc as [<-|Hc]; [reflexivity|]). contradiction.
Qed.

Lemma mapear_googlebooks_spec raw :
  (forall c, In c ["row_number"; "title"; "subtitle"; "authors"; "publisher";
                   "published_date"; "language"; "page_count"; "categories";
                   "isbn10"; "isbn13"; "price_amount"; "price_currency"] ->
             has_column c raw = true) ->
  exists st, mapear_googlebooks raw = Ret st
             /\ wf st /\ nrows st = nrows raw
             /\ (forall c, In c ["titulo"; "autor"; "isbn10"; "isbn13"] ->
                           has_column c st = true).
Proof.
  intros Hreq. unfold mapear_googlebooks.
  repeat match goal with
         | |- context [bind (column raw ?c) _] =>
             let col := fresh "col" in
             destruct (column_returns raw c) as [col ->];
             [apply Hreq; cbn [In]; tauto|]; cbn [bind]
         end.
  eexists. split; [reflexivity|].
  split; [apply wf_frame_of_columns|]. split; [apply wf_frame_of_columns|].
  intros c Hc. cbn [In] in Hc.
  repeat (destruct Hc as [<-|Hc]; [reflexivity|]). contradiction.
Qed.

Lemma mapear_goodreads_needs raw st c :
  mapear_goodreads raw = Ret st ->
  In c ["row_number"; "title"; "author"; "rating"; "ratings_count"] ->
  has_column c raw = true.
Proof.
  unfold mapear_goodreads.
  repeat match goal with
         | |- context [bind (column raw ?c) _] =>
             let E := fresh "E" in
             destruct (column raw c) eqn:E; cbn [bind]; [|discriminate];
             apply column_has_column in E
         end.
  intros _ Hc. cbn [In] in Hc.
  repeat (destruct Hc as [<-|Hc]; [assumption|]). contradiction.
Qed.

Lemma mapear_googlebooks_needs raw st c :
  mapear_googlebooks raw = Ret st ->
  In c ["row_number"; "title"; "subtitle"; "authors"; "publisher";
        "published_date"; "language"; "page_count"; "categories";
        "isbn10"; "isbn13"; "price_amount"; "price_currency"] ->
  has_column c raw = true.
Proof.
  unfold mapear_googlebooks.
  repeat match goal with
         | |- context [bind (column raw ?c) _] =>
             let E := fresh "E" in
             destruct (column raw c) eqn:E; cbn [bind]; [|discriminate];
             apply column_has_column in E
         end.
  intros _ Hc. cbn [In] in Hc.
  repeat (destruct Hc as [<-|Hc]; [assumption|]). contradiction.
Qed.



Lemma preparar_inv mapear raw df :
  preparar mapear raw = Ret df -> exists st, mapear raw = Ret st.
Proof.
  unfold preparar. destruct (mapear raw) as [st|]; [now eexists|discriminate].
Qed.

Lemma mapear_goodreads_staging raw st :
  mapear_goodreads raw = Ret st ->
  wf st /\ nrows st = nrows raw
  /\ (forall c, In c ["titulo"; "autor"; "isbn10"; "isbn13"] ->
                has_column c st = true).
Proof.
  intros E.
  destruct (mapear_goodreads_spec raw) as (st' & E' & H).
  { intros c Hc. apply (mapear_goodreads_needs raw st c E Hc). }
  rewrite E in E'. now injection E' as <-.
Qed.

Lemma mapear_googlebooks_staging raw st :
  mapear_googlebooks raw = Ret st ->
  wf st /\ nrows st = nrows raw
  /\ (forall c, In c ["titulo"; "autor"; "isbn10"; "isbn13"] ->
                has_column c st = true).
Proof.
  intros E.
  destruct (mapear_googlebooks_spec raw) as (st' & E' & H).
  { intros c Hc. apply (mapear_googlebooks_needs raw st c E Hc). }
  rewrite E in E'. now injection E' as <-.
Qed.

Lemma preparar_prepared mapear raw df :
  (forall st, mapear raw = Ret st ->
              wf st /\ nrows st = nrows raw
              /\ (forall c, In c ["titulo"; "autor"; "isbn10"; "isbn13"] ->
                            has_column c st = true)) ->
  preparar mapear raw = Ret df ->
  wf df /\ nrows df = nrows raw
  /\ exists ids, column df "book_id" = Ret ids
                 /\ Forall (fun k => notna k = true) ids.
Proof.
  intros Hspec H. destruct (preparar_inv mapear raw df H) as [st Est].
  destruct (Hspec st Est) as (W & N & C).
  destruct (preparar_outcome mapear raw st Est W N C)
    as (norm & ids & _ & W' & N' & Col & F & _ & E).
  rewrite H in E. destruct (nrows raw =? 0)%nat; [discriminate E|].
  injection E as ->.
  split; [exact W'|]. split; [exact N'|]. now exists ids.
Qed.


(** X18. Preparation keeps every record and gives each a key.  Whatever
    frame [preparar] returns for either source, it is well formed, has as
    many rows as the raw frame, and has a [book_id] column none of whose
    cells is null. *)
Theorem preparar_keeps_records (raw df : DataFrame PyVal) :
  preparar mapear_goodreads raw = Ret df
  \/ preparar mapear_googlebooks raw = Ret df ->
  wf df /\ nrows df = nrows raw
  /\ exists ids, column df "book_id" = Ret ids
                 /\ Forall (fun k => notna k = true) ids.
Proof.
  intros [H|H].
  - apply (preparar_prepared mapear_goodreads raw df); [|exact H].
    apply mapear_goodreads_staging.
  - apply (preparar_prepared mapear_googlebooks raw df); [|exact H].
    apply mapear_googlebooks_staging.
Qed.

Lemma preparar_keeps_records_witness :
  exists df,
    preparar mapear_goodreads samples.goodreads_raw = Ret df
    /\ wf df /\ nrows df = nrows samples.goodreads_raw
    /\ exists ids, column df "book_id" = Ret ids
                   /\ Forall (fun k => notna k = true) ids.
Proof.
  eexists. split; [vm_compute; reflexivity|].
  apply preparar_keeps_records. left. vm_compute. reflexivity.
Defined.



(** ** The traceability table *)

Lemma map_nth_seq {A} (l : list A) d :
  map (fun i => nth i l d) (seq 0 (List.length l)) = l.
Proof.
  induction l as [|x l IH]; [reflexivity|].
  cbn [List.length seq map nth]. f_equal.
  rewrite <- seq_shift, map_map. exact IH.
Qed.

Lemma index_of_nth name cols i :
  index_of name cols = Some i -> nth i cols "" = name.
Proof.
  revert i. induction cols as [|c cols IH]; cbn [index_of]; [discriminate|].
  intros i. destruct (String.eqb name c) eqn:E.
  - intros [= <-]. apply String.eqb_eq in E. now subst.
  - destruct (index_of name cols) as [j|]; [|discriminate].
    intros [= <-]. cbn [nth]. now apply IH.
Qed.

Lemma at_map_cells (cols : list (string * list PyVal)) k i :
  at_ i (map (fun col : string * list PyVal => nth k (snd col) na) cols)
  = nth k (snd (nth i cols ("", []))) na.
Proof.
  unfold at_. revert i. induction cols as [|c cols IH]; intros [|i];
    cbn [map nth snd]; solve [now destruct k | reflexivity | apply IH].
Qed.

(** A column of [pd.DataFrame({...})] reads back as it was given, when
    it has one cell for each row. *)
Lemma column_frame_of_columns n (cols : list (string * list PyVal)) name i l :
  index_of name (map fst cols) = Some i ->
  nth i cols ("", []) = (name, l) ->
  List.length l = n ->
  column (frame_of_columns n cols) name = Ret l.
Proof.
  intros Hi Hn Hl. unfold column, frame_of_columns. cbn [columns rows].
  rewrite Hi. f_equal. rewrite map_map. subst n.
  rewrite <- (map_nth_seq l na) at 2. apply map_ext. intros k.
  rewrite at_map_cells, Hn. reflexivity.
Qed.

Lemma at_map_columns {A} (f : A -> PyVal) (l : list A) d j :
  (j < List.length l)%nat -> at_ j (map f l) = f (nth j l d).
Proof.
  unfold at_. revert j. induction l as [|x l IH]; intros [|j] H; cbn in *;
    try lia; [reflexivity|]. apply IH. lia.
Qed.

(** The cells a frame contributes to a column of a concatenation: its
    own column, or the missing value for each of its rows. *)
Lemma reindex_row_at from to name j r :
  index_of name to = Some j ->
  at_ j (reindex_row from to r)
  = match index_of name from with
    | Some i => at_ i r
    | None => PNaN
    end.
Proof.
  intros Hj. unfold reindex_row.
  rewrite (at_map_columns _ _ "") by apply (index_of_lt _ _ _ Hj).
  rewrite (index_of_nth _ _ _ Hj). reflexivity.
Qed.

Lemma column_concat a b name :
  has_column name (concat a b) = true ->
  column (concat a b) name
  = Ret (match column a name with
         | Ret col => col
         | Raise _ => repeat PNaN (nrows a)
         end
         ++ match column b name with
            | Ret col => col
            | Raise _ => repeat PNaN (nrows b)
            end)%list.
Proof.
  intros Hc. apply has_column_index_of in Hc as [j Hj].
  unfold column at 1. rewrite Hj. f_equal.
  unfold concat in *. cbn [columns rows] in *.
  rewrite map_app, !map_map. f_equal.
  - unfold column. destruct (index_of name (columns a)) as [i|] eqn:Ei.
    + apply map_ext. intros r. now rewrite (reindex_row_at _ _ name j r Hj), Ei.
    + unfold nrows. induction (rows a) as [|r rs IH]; [reflexivity|].
      cbn [map List.length repeat]. rewrite IH.
      now rewrite (reindex_row_at _ _ name j r Hj), Ei.
  - unfold column. destruct (index_of name (columns b)) as [i|] eqn:Ei.
    + apply map_ext. intros r. now rewrite (reindex_row_at _ _ name j r Hj), Ei.
    + unfold nrows. induction (rows b) as [|r rs IH]; [reflexivity|].
      cbn [map List.length repeat]. rewrite IH.
      now rewrite (reindex_row_at _ _ name j r Hj), Ei.
Qed.

Lemma wf_concat a b : wf (concat a b) /\ nrows (concat a b) = (nrows a + nrows b)%nat.
Proof.
  unfold wf, nrows, concat. cbn [columns rows]. split.
  - apply Forall_app. split; apply Forall_forall; intros r Hr;
      apply in_map_iff in Hr as (r0 & <- & _); unfold reindex_row;
      now rewrite length_map.
  - now rewrite length_app, !length_map.
Qed.

Lemma length_scalar df v : List.length (scalar df v) = nrows df.
Proof. unfold scalar. apply repeat_length. Qed.

(** X20. The traceability table has one row for each record of either
    source, the scraped ones first.  When [crear_source_detail] returns
    for two keyed frames of at least one row each, the table is well
    formed and has as many rows as the two frames together; its
    [book_id_candidato] column is the keys of the first frame followed by
    those of the second, its [source_name] column names the source of each
    row, and a column only one source provides holds the missing value on
    the rows of the other. *)
Theorem crear_source_detail_lineage (df_gr df_gb : DataFrame PyVal)
    (now_gr now_gb : string) (detail : DataFrame PyVal)
    (ids_gr ids_gb rating editorial : list PyVal) :
  (0 < nrows df_gr)%nat -> (0 < nrows df_gb)%nat ->
  crear_source_detail df_gr df_gb now_gr now_gb = Ret detail ->
  column df_gr "book_id" = Ret ids_gr ->
  column df_gb "book_id" = Ret ids_gb ->
  column df_gr "rating" = Ret rating ->
  column df_gb "editorial" = Ret editorial ->
  wf detail
  /\ nrows detail = (nrows df_gr + nrows df_gb)%nat
  /\ column detail "book_id_candidato" = Ret (ids_gr ++ ids_gb)%list
  /\ column detail "source_name"
     = Ret (repeat (PStr "goodreads") (nrows df_gr)
            ++ repeat (PStr "googlebooks") (nrows df_gb))%list
  /\ column detail "rating_original"
     = Ret (rating ++ repeat PNaN (nrows df_gb))%list
  /\ column detail "editorial_original"
     = Ret (repeat PNaN (nrows df_gr) ++ editorial)%list.
Proof.
  intros _ _ H Hgr Hgb Hrat Hed. revert H.
  unfold crear_source_detail, source_ids.
  rewrite Hgr, Hgb, Hrat, Hed.
  repeat match goal with
         | |- context [bind (column ?d ?c) _] =>
             let col := fresh "col" in
             let E := fresh "E" in
             destruct (column d c) as [col|] eqn:E; cbn [bind];
             [apply column_length in E|discriminate]
         end.
  pose proof (column_length _ _ _ Hgr) as Lgr.
  pose proof (column_length _ _ _ Hgb) as Lgb.
  pose proof (column_length _ _ _ Hrat) as Lrat.
  pose proof (column_length _ _ _ Hed) as Led.
  intros [= <-].
  match goal with
  | |- context [concat ?a ?b] => set (A := a); set (B := b)
  end.
  destruct (wf_concat A B) as [W N].
  split; [exact W|]. split.
  { rewrite N. unfold A, B.
    now rewrite !(proj2 (wf_frame_of_columns _ _)). }
  assert (nrows A = nrows df_gr) as NA
    by (unfold A; apply wf_frame_of_columns).
  assert (nrows B = nrows df_gb) as NB
    by (unfold B; apply wf_frame_of_columns).
  repeat split.
  - rewrite column_concat by reflexivity.
    unfold A at 1. erewrite column_frame_of_columns;
      [|reflexivity|reflexivity|exact Lgr].
    unfold B at 1. erewrite column_frame_of_columns;
      [|reflexivity|reflexivity|exact Lgb].
    reflexivity.
  - rewrite column_concat by reflexivity.
    unfold A at 1. erewrite column_frame_of_columns;
      [|reflexivity|reflexivity|apply length_scalar].
    unfold B at 1. erewrite column_frame_of_columns;
      [|reflexivity|reflexivity|apply length_scalar].
    reflexivity.
  - rewrite column_concat by reflexivity.
    unfold A at 1. erewrite column_frame_of_columns;
      [|reflexivity|reflexivity|exact Lrat].
    assert (column B "rating_original" = Raise (KeyError "rating_original"))
      as -> by reflexivity.
    now rewrite NB.
  - rewrite column_concat by reflexivity.
    assert (column A "editorial_original" = Raise (KeyError "editorial_original"))
      as -> by reflexivity.
    unfold B at 1. erewrite column_frame_of_columns;
      [|reflexivity|reflexivity|exact Led].
    now rewrite NA.
Qed.

Lemma crear_source_detail_lineage_witness :
  exists detail ids_gr ids_gb rating editorial,
    crear_source_detail samples.preparado_gr samples.preparado_gb
      "2024-01-01T00:00:00" "2024-01-01T00:00:01" = Ret detail
    /\ wf detail
    /\ nrows detail
       = (nrows samples.preparado_gr + nrows samples.preparado_gb)%nat
    /\ column detail "book_id_candidato" = Ret (ids_gr ++ ids_gb)%list
    /\ column detail "source_name"
       = Ret (repeat (PStr "goodreads") (nrows samples.preparado_gr)
              ++ repeat (PStr "googlebooks") (nrows samples.preparado_gb))%list
    /\ column detail "rating_original"
       = Ret (rating ++ repeat PNaN (nrows samples.preparado_gb))%list
    /\ column detail "editorial_original"
       = Ret (repeat PNaN (nrows samples.preparado_gr) ++ editorial)%list.
Proof.
  do 5 eexists. split; [vm_compute; reflexivity|].
  eapply (crear_source_detail_lineage samples.preparado_gr samples.preparado_gb
            "2024-01-01T00:00:00" "2024-01-01T00:00:01");
    try (vm_compute; reflexivity); vm_compute; lia.
Defined.

(** ** Errors the ISBN-10 check catches *)

Lemma digit_not_X a : isdigit a = true -> Ascii.eqb (upper_char a) "X" = false.
Proof.
  intros H. unfold upper_char. rewrite (isdigit_not_lower a H).
  apply Ascii.eqb_neq. intros ->. discriminate H.
Qed.

(** The verdict of [validate_isbn10] on ten digits. *)
Lemma validate_isbn10_digits a0 a1 a2 a3 a4 a5 a6 a7 a8 a9
      d0 d1 d2 d3 d4 d5 d6 d7 d8 d9 :
  int_of_char a0 = Ret d0 -> int_of_char a1 = Ret d1 ->
  int_of_char a2 = Ret d2 -> int_of_char a3 = Ret d3 ->
  int_of_char a4 = Ret d4 -> int_of_char a5 = Ret d5 ->
  int_of_char a6 = Ret d6 -> int_of_char a7 = Ret d7 ->
  int_of_char a8 = Ret d8 -> int_of_char a9 = Ret d9 ->
  validate_isbn10
    (PStr (String a0 (String a1 (String a2 (String a3 (String a4 (String a5
          (String a6 (String a7 (String a8 (String a9 "")))))))))))
  = ((10 * d0 + 9 * d1 + 8 * d2 + 7 * d3 + 6 * d4 + 5 * d5 + 4 * d6
      + 3 * d7 + 2 * d8 + d9) mod 11 =? 0).
Proof.
  intros.
  unfold validate_isbn10. cbn [truthy String.eqb negb].
  rewrite clean_isbn_digits;
    [ | discriminate
      | cbn [all_str];
        repeat match goal with
               | H : int_of_char ?a = Ret _ |- context [isdigit ?a] =>
                   rewrite (proj1 (int_of_char_ret _ _ H))
               end; reflexivity ].
  cbn [len String.length Z.of_nat Z.eqb Pos.eqb Pos.of_succ_nat Pos.succ negb].
  unfold isbn10_check.
  cbn [fold_left seq getitem String.get bind].
  rewrite_digits. cbn [bind].
  rewrite (digit_not_X a9) by (eapply int_of_char_ret; eassumption).
  rewrite_digits. cbn [bind Z.of_nat Pos.of_succ_nat Pos.succ].
  f_equal. f_equal. lia.
Qed.

(** X21. The ISBN-10 check catches every single wrong digit and every
    exchange of two neighbouring digits.  In a text of ten digits that
    [validate_isbn10] accepts, replacing the digit at any one position by
    another digit, or exchanging two neighbouring digits that differ,
    gives a text it rejects. *)
Theorem validate_isbn10_catches_errors (s : string) (i : nat) :
  String.length s = 10%nat ->
  all_str isdigit s = true ->
  validate_isbn10 (PStr s) = true ->
  (forall c, (i < 10)%nat -> isdigit c = true -> String.get i s <> Some c ->
             validate_isbn10 (PStr (replace_at i c s)) = false)
  /\ ((i < 9)%nat -> String.get i s <> String.get (S i) s ->
      validate_isbn10 (PStr (swap_at i s)) = false).
Proof.
  intros Hlen Hd Hv.
  do 10 (destruct s as [|? s]; [cbn in Hlen; discriminate Hlen|]).
  destruct s; [|cbn in Hlen; discriminate Hlen]. clear Hlen.
  cbn [all_str] in Hd.
  repeat (apply andb_true_iff in Hd; destruct Hd as [? Hd]). clear Hd.
  repeat match goal with
         | H : isdigit ?a = true |- _ =>
             let d := fresh "d" in
             let E := fresh "E" in
             let R := fresh "R" in
             pose proof (isdigit_int_of_char a H) as (d & E & R); clear H
         end.
  erewrite validate_isbn10_digits in Hv by eassumption.
  apply Z.eqb_eq in Hv.
  split.
  - intros c Hi Hc Hne.
    destruct (isdigit_int_of_char c Hc) as (dc & Ec & Rc). clear Hc.
    do 10 (destruct i as [|i];
           [ cbn [replace_at]; cbn [String.get] in Hne;
             erewrite validate_isbn10_digits by eassumption;
             apply Z.eqb_neq;
             match type of Hne with
             | Some ?a <> Some c =>
                 match goal with
                 | E : int_of_char a = Ret ?d |- _ =>
                     assert (d <> dc)
                       by (intros ->; apply Hne; f_equal;
                           eapply int_of_char_inj; eassumption)
                 end
             end;
             clear Hne;
             repeat match goal with
                    | E : int_of_char _ = _ |- _ => clear E
                    end;
             Z.div_mod_to_equations; lia
           | ]).
    lia.
  - intros Hi Hne.
    do 9 (destruct i as [|i];
          [ cbn [swap_at]; cbn [String.get] in Hne;
            erewrite validate_isbn10_digits by eassumption;
            apply Z.eqb_neq;
            match type of Hne with
            | Some ?a <> Some ?b =>
                match goal with
                | E : int_of_char a = Ret ?d, E' : int_of_char b = Ret ?d'
                  |- _ =>
                    assert (d <> d')
                      by (intros ->; apply Hne; f_equal;
                          eapply int_of_char_inj; eassumption)
                end
            end;
            clear Hne;
            repeat match goal with
                   | E : int_of_char _ = _ |- _ => clear E
                   end;
            Z.div_mod_to_equations; lia
          | ]).
    lia.
Qed.

Lemma validate_isbn10_catches_errors_witness :
  (forall c, (2 < 10)%nat -> isdigit c = true ->
             String.get 2 "0134685997" <> Some c ->
             validate_isbn10 (PStr (replace_at 2 c "0134685997")) = false)
  /\ ((2 < 9)%nat -> String.get 2 "0134685997" <> String.get 3 "0134685997" ->
      validate_isbn10 (PStr (swap_at 2 "0134685997")) = false).
Proof.
  apply validate_isbn10_catches_errors; reflexivity.
Defined.
